(** * Metadata cleaner: a shallow embedding of [cleaners.py]

    The per-format parse/rewrite/hash engine of the metadata cleaner, written
    as Rocq functions over byte lists, together with the properties of the
    engine that its specification states.

    Conventions.
    - A file is the list of its bytes.  A file object opened for reading is
      the list of the bytes that are still unread: [f.read(n)] hands out
      [take n f] and leaves [drop n f], a short read at the end of the file
      included; [f.seek(n, SEEK_CUR)] leaves [drop n f].
    - A file object opened for writing is the list of the bytes written so
      far.
    - Python's [while True] loops run on a fuel argument; every handler gives
      its loop more fuel than the loop can use (one unit per byte), and the
      development proves that the fuel never runs out. *)

From stdpp Require Import gmap strings list pretty.
From Stdlib Require Import Strings.Ascii Strings.Byte ZArith Lia.

Open Scope Z_scope.

(** ** Bytes *)

Abbreviation bytes := (list byte).

#[global] Instance byte_eq_dec : EqDecision byte.
Proof.
  intros x y. destruct (Byte.eqb x y) eqn:E.
  - left. by apply Byte.byte_dec_bl.
  - right. by apply Byte.eqb_false.
Defined.

(** The value of a byte, [b[0]] in Python. *)
Definition byte_val (b : byte) : Z := Z.of_N (Byte.to_N b).

(** The bytes of an ASCII literal, [b"..."]. *)
Definition lit (s : string) : bytes := String.list_byte_of_string s.

(** [startswith] of bytes and of str *)
Fixpoint startswith `{EqDecision A} (p l : list A) : bool :=
  match p, l with
  | [], _ => true
  | _ :: _, [] => false
  | a :: p', b :: l' => bool_decide (a = b) && startswith p' l'
  end.

Lemma startswith_app `{EqDecision A} (p l : list A) :
  startswith p l = true ↔ ∃ r, l = p ++ r.
Proof.
  revert l. induction p as [|a p IH]; intros l; simpl.
  { split; [intros _; by exists l|done]. }
  destruct l as [|b l]; simpl.
  { split; [done|]. by intros [r Hr]. }
  rewrite andb_true_iff, bool_decide_eq_true, IH. split.
  - intros [-> [r ->]]. by exists r.
  - intros [r Hr]. injection Hr as -> ->. split; [done|]. by exists r.
Qed.

Lemma startswith_take `{EqDecision A} (p l : list A) (n : nat) :
  (length p <= n)%nat → startswith p (take n l) = startswith p l.
Proof.
  revert l n. induction p as [|a p IH]; intros l n Hn; [done|].
  destruct n as [|n]; [simpl in Hn; lia|].
  destruct l as [|b l]; [done|]. simpl in *. rewrite IH by lia. done.
Qed.

(** [needle in hay] *)
Fixpoint contains `{EqDecision A} (needle hay : list A) : bool :=
  startswith needle hay ||
  match hay with
  | [] => false
  | _ :: hay' => contains needle hay'
  end.

(** [endswith] *)
Definition endswith `{EqDecision A} (p l : list A) : bool :=
  startswith (reverse p) (reverse l).

(** ** Exceptions and loop outcomes *)

Inductive exn :=
| ValueError        (* f.read(n) with n < -1 *)
| IndexError        (* b[0] on an empty bytes object *)
| BadZipFile        (* zipfile could not open or read the archive *)
| FileNotFoundError
| LibraryError (msg : string).   (* raised inside pikepdf *)

(** How a handler's loop ends: it returns its [changed] flag, an exception
    leaves it, or the fuel of the embedding ran out (which never happens,
    see the [_fuel] lemmas). *)
Inductive ctl :=
| Done (changed : bool)
| Raised (e : exn)
| Diverge.

#[global] Instance exn_eq_dec : EqDecision exn.
Proof. solve_decision. Defined.
#[global] Instance ctl_eq_dec : EqDecision ctl.
Proof. solve_decision. Defined.

(** [f.read(n)] of a buffered binary reader for a computed [n]: a size below
    -1 is refused with ValueError, -1 reads to the end of the file. *)
Definition f_read (n : Z) (f : bytes) : exn + (bytes * bytes) :=
  if n <? -1 then inl ValueError
  else if n =? -1 then inr (f, [])
  else inr (take (Z.to_nat n) f, drop (Z.to_nat n) f).

(** [struct.unpack('>H', b)[0]] on a two-byte string. *)
Definition unpack_H (b : bytes) : Z :=
  match b with
  | [h; l] => 256 * byte_val h + byte_val l
  | _ => 0
  end.

(** [struct.unpack('>I', b)[0]] on a four-byte string. *)
Definition unpack_I (b : bytes) : Z :=
  match b with
  | [b3; b2; b1; b0] =>
      16777216 * byte_val b3 + 65536 * byte_val b2 + 256 * byte_val b1 + byte_val b0
  | _ => 0
  end.

Lemma byte_val_bound b : 0 <= byte_val b < 256.
Proof. unfold byte_val. pose proof (Byte.to_N_bounded b). lia. Qed.

(** Reading [n] bytes back from what [f.read(n)] gave, followed by [rest]:
    when the read came up short the file had ended, and nothing follows. *)
Lemma read_back {A} (n : nat) (f rest : list A) :
  ((length (take n f) < n)%nat → rest = []) →
  take n (take n f ++ rest) = take n f ∧ drop n (take n f ++ rest) = rest.
Proof.
  intros Hshort. pose proof (firstn_le_length n f) as Hle.
  destruct (decide (length (take n f) < n)%nat) as [Hs|Hs].
  - rewrite (Hshort Hs), app_nil_r. split.
    + rewrite take_take. f_equal. lia.
    + apply drop_ge. lia.
  - split; [apply take_app_length'|apply drop_app_length']; lia.
Qed.

Lemma take_short_drop {A} (n : nat) (f : list A) :
  (length (take n f) < n)%nat → drop n f = [].
Proof. rewrite length_take. intros H. apply drop_ge. lia. Qed.

(** Counting with [filter] *)

Lemma count_cons {A} (p : A → bool) (x : A) (l : list A) :
  length (filter (λ x, p x = true) (x :: l))
  = ((if p x then 1 else 0) + length (filter (λ x, p x = true) l))%nat.
Proof.
  rewrite filter_cons.
  destruct (p x); [by rewrite decide_True|by rewrite decide_False].
Qed.

Lemma existsb_length {A} (p : A → bool) (l : list A) :
  existsb p l = (0 <? length (filter (λ x, p x = true) l))%nat.
Proof.
  induction l as [|x l IH]; [done|]. rewrite filter_cons. simpl.
  destruct (p x); [by rewrite decide_True|by rewrite decide_False].
Qed.

Lemma length_filter_or {A} (p q : A → bool) (l : list A) :
  (0 <? length (filter (λ x, p x || q x = true) l))%nat
  = (0 <? length (filter (λ x, p x = true) l))%nat
    || (0 <? length (filter (λ x, q x = true) l))%nat.
Proof.
  rewrite <- !existsb_length. induction l as [|x l IH]; [done|]. simpl.
  rewrite IH. destruct (p x), (q x), (existsb p l), (existsb q l); done.
Qed.

(** ** Hashing *)

(** A [hashlib] object is the list of the bytes fed to it so far: repeated
    [h.update] calls are one call with the concatenation. *)

(** [1024 * 1024], the read size of the hashing loops. *)
Definition CHUNK : nat := Z.to_nat (1024 * 1024).

(** [while True: chunk = f.read(size); if not chunk: break; h.update(chunk)] *)
Fixpoint update_chunks (fuel size : nat) (f fed : bytes) : option bytes :=
  match fuel with
  | O => None
  | S fuel =>
      match take size f with
      | [] => Some fed
      | chunk => update_chunks fuel size (drop size f) (fed ++ chunk)
      end
  end.

(** [_hash_file(path)]: what the hash is fed for a file with these bytes. *)
Definition _hash_file (data : bytes) : option bytes :=
  update_chunks (S (length data)) CHUNK data [].

(** Read in chunks, the whole file is fed, in order. *)
Lemma update_chunks_all fuel size : ∀ f fed,
  (0 < size)%nat → (length f < fuel)%nat →
  update_chunks fuel size f fed = Some (fed ++ f).
Proof.
  induction fuel as [|fuel IH]; intros f fed Hsize Hlen; [lia|]. simpl.
  destruct (take size f) as [|c chunk] eqn:Htake.
  - destruct f as [|x f]; [by rewrite app_nil_r|].
    destruct size; [lia|done].
  - rewrite IH; [|done|].
    + rewrite <- Htake, <- app_assoc, take_drop. done.
    + rewrite length_drop. destruct f; [by destruct size|]. simpl in *. lia.
Qed.

Lemma hash_file_all data : _hash_file data = Some data.
Proof.
  unfold _hash_file. rewrite update_chunks_all; [done| |lia].
  unfold CHUNK. lia.
Qed.

Arguments CHUNK : simpl never.
Arguments update_chunks : simpl never.
Arguments _hash_file : simpl never.

(** ** JPEG *)

Module Jpeg.

Definition SOI : bytes := [xff; xd8].
Definition EXIF_HEADER : bytes := lit "Exif" ++ [x00; x00].
Definition XMP_NAMESPACE : bytes := lit "http://ns.adobe.com/xap/1.0/".
Definition PHOTOSHOP_HEADER : bytes := lit "Photoshop 3.0".

(** The [drop] flag that [_clean_jpeg] computes for a segment from
    [marker[1]] and [seg_data]. *)
Definition drop_segment (m1 : byte) (seg_data : bytes) : bool :=
  (bool_decide (m1 = xe1) &&
     (startswith EXIF_HEADER seg_data || contains XMP_NAMESPACE seg_data))
  || (bool_decide (m1 = xed) && startswith PHOTOSHOP_HEADER seg_data).

(** The [while True] loop of [_clean_jpeg]: [f] is the input still unread,
    [out] the temp file so far. *)
Fixpoint clean_loop (fuel : nat) (f out : bytes) (changed : bool) : bytes * ctl :=
  match fuel with
  | O => (out, Diverge)
  | S fuel =>
      let marker := take 2 f in
      let f := drop 2 f in
      match marker with
      | [m0; m1] =>
          if negb (bool_decide (m0 = xff)) then (out, Done changed)
          else if bool_decide (m1 = xda) then
            (* SOS: copy the marker and the rest of the file *)
            (out ++ marker ++ f, Done changed)
          else if bool_decide (m1 = xd8) || bool_decide (m1 = xd9) then
            clean_loop fuel f (out ++ marker) changed
          else
            let length_bytes := take 2 f in
            let f := drop 2 f in
            if (length length_bytes <? 2)%nat then (out, Done changed)
            else
              match f_read (unpack_H length_bytes - 2) f with
              | inl e => (out, Raised e)
              | inr (seg_data, f) =>
                  if drop_segment m1 seg_data
                  then clean_loop fuel f out true
                  else clean_loop fuel f (out ++ marker ++ length_bytes ++ seg_data) changed
              end
      | _ => (out, Done changed)
      end
  end.

(** [_clean_jpeg] up to the end of its [with] block: [None] when the file
    does not start with FF D8 (the function returns [False] before it makes
    a temp file), otherwise the temp file's bytes and how the loop ended. *)
Definition clean_stream (data : bytes) : option (bytes * ctl) :=
  if bool_decide (take 2 data = SOI)
  then Some (clean_loop (S (length data)) (drop 2 data) SOI false)
  else None.

(** *** The segment structure, as the specification words it *)

Inductive unit_ :=
| Standalone (marker : bytes)                  (* FF D8 or FF D9, no length *)
| Segment (marker length_bytes payload : bytes)
| Scan (marker rest : bytes).                  (* SOS and all that follows *)

Definition unit_bytes (u : unit_) : bytes :=
  match u with
  | Standalone m => m
  | Segment m l p => m ++ l ++ p
  | Scan m r => m ++ r
  end.

(** APP1 with an Exif or XMP payload, APP13 with a Photoshop payload. *)
Definition is_metadata (u : unit_) : bool :=
  match u with
  | Segment m _ p =>
      (bool_decide (m = [xff; xe1]) &&
         (startswith EXIF_HEADER p || contains XMP_NAMESPACE p))
      || (bool_decide (m = [xff; xed]) && startswith PHOTOSHOP_HEADER p)
  | _ => false
  end.

Definition is_scan (u : unit_) : bool :=
  match u with Scan _ _ => true | _ => false end.

(** How the walk over the markers ends. *)
Inductive stop :=
| AtEnd             (* scan copied, or no further marker could be read *)
| BadLength         (* a segment whose length field is 0 *)
| NoFuel.

(** The marker walk of section 4.2: the units after SOI, in file order. *)
Fixpoint units (fuel : nat) (f : bytes) : list unit_ * stop :=
  match fuel with
  | O => ([], NoFuel)
  | S fuel =>
      match f with
      | m0 :: m1 :: f1 =>
          if negb (bool_decide (m0 = xff)) then ([], AtEnd)
          else if bool_decide (m1 = xda) then ([Scan [m0; m1] f1], AtEnd)
          else if bool_decide (m1 ∈ [xd8; xd9]) then
            let '(us, s) := units fuel f1 in (Standalone [m0; m1] :: us, s)
          else
            match f1 with
            | h :: l :: f2 =>
                let n := 256 * byte_val h + byte_val l in
                if n =? 0 then ([], BadLength)
                else
                  let payload := if n =? 1 then f2 else take (Z.to_nat (n - 2)) f2 in
                  let f3 := if n =? 1 then [] else drop (Z.to_nat (n - 2)) f2 in
                  let '(us, s) := units fuel f3 in
                  (Segment [m0; m1] [h; l] payload :: us, s)
            | _ => ([], AtEnd)
            end
      | _ => ([], AtEnd)
      end
  end.

Definition parse (data : bytes) : list unit_ * stop :=
  units (S (length data)) (drop 2 data).

Definition kept (us : list unit_) : list unit_ :=
  filter (λ u, is_metadata u = false) us.

Definition stop_ctl (s : stop) (changed : bool) : ctl :=
  match s with
  | AtEnd => Done changed
  | BadLength => Raised ValueError
  | NoFuel => Diverge
  end.

(** *** The loop of the code walks exactly these units *)

Lemma drop_segment_is_metadata m1 l p :
  drop_segment m1 p = is_metadata (Segment [xff; m1] l p).
Proof.
  unfold drop_segment, is_metadata.
  destruct (decide (m1 = xe1)) as [->|H1]; [done|].
  destruct (decide (m1 = xed)) as [->|H2]; [done|].
  rewrite (bool_decide_eq_false_2 (m1 = xe1)) by done.
  rewrite (bool_decide_eq_false_2 (m1 = xed)) by done.
  rewrite (bool_decide_eq_false_2 ([xff; m1] = [xff; xe1])) by congruence.
  rewrite (bool_decide_eq_false_2 ([xff; m1] = [xff; xed])) by congruence.
  done.
Qed.

Lemma kept_cons u us :
  kept (u :: us) = if is_metadata u then kept us else u :: kept us.
Proof.
  unfold kept. rewrite filter_cons.
  destruct (is_metadata u); by case_decide.
Qed.

Lemma byte_val_nonneg b : 0 <= byte_val b.
Proof. unfold byte_val. lia. Qed.

#[local] Arguments is_metadata : simpl never.
#[local] Arguments drop_segment : simpl never.

(** What one more segment adds to the output and to the flag. *)
Lemma clean_loop_segment fuel m1 lb p f out changed us s :
  (∀ f out changed,
    clean_loop fuel f out changed =
    (out ++ concat (unit_bytes <$> kept (units fuel f).1),
     stop_ctl (units fuel f).2 (changed || existsb is_metadata (units fuel f).1))) →
  units fuel f = (us, s) →
  (if drop_segment m1 p
   then clean_loop fuel f out true
   else clean_loop fuel f (out ++ [xff; m1] ++ lb ++ p) changed) =
  (out ++ concat (unit_bytes <$> kept (Segment [xff; m1] lb p :: us)),
   stop_ctl s (changed || existsb is_metadata (Segment [xff; m1] lb p :: us))).
Proof.
  intros IH Hu. rewrite (drop_segment_is_metadata m1 lb p), kept_cons.
  rewrite !IH, Hu. simpl.
  destruct (is_metadata (Segment [xff; m1] lb p)); simpl.
  - by rewrite orb_true_r.
  - f_equal. rewrite <- !app_assoc. simpl. by rewrite <- ?app_assoc.
Qed.

Lemma clean_loop_units fuel : ∀ f out changed,
  clean_loop fuel f out changed =
  (out ++ concat (unit_bytes <$> kept (units fuel f).1),
   stop_ctl (units fuel f).2 (changed || existsb is_metadata (units fuel f).1)).
Proof.
  induction fuel as [|fuel IH]; intros f out changed; simpl.
  { by rewrite app_nil_r. }
  destruct f as [|m0 [|m1 f1]]; simpl; rewrite ?take_0, ?drop_0;
    try (by rewrite app_nil_r, orb_false_r).
  destruct (decide (m0 = xff)) as [->|Hff]; simpl;
    [|rewrite bool_decide_eq_false_2 by done; simpl;
      by rewrite app_nil_r, orb_false_r].
  destruct (decide (m1 = xda)) as [->|Hda]; simpl.
  { by rewrite app_nil_r, orb_false_r. }
  rewrite (bool_decide_eq_false_2 (m1 = xda)) by done.
  destruct (decide (m1 ∈ [xd8; xd9])) as [Hin|Hnin].
  - rewrite (bool_decide_eq_true_2 (m1 ∈ _)) by done.
    assert (bool_decide (m1 = xd8) || bool_decide (m1 = xd9) = true) as ->.
    { apply elem_of_cons in Hin as [->|Hin]; [done|].
      apply elem_of_cons in Hin as [->|Hin]; [done|]. by apply elem_of_nil in Hin. }
    rewrite IH. destruct (units fuel f1) as [us s]; simpl.
    f_equal. rewrite <- !app_assoc. done.
  - rewrite (bool_decide_eq_false_2 (m1 ∈ _)) by done.
    assert (bool_decide (m1 = xd8) || bool_decide (m1 = xd9) = false) as ->.
    { apply orb_false_intro; apply bool_decide_eq_false_2; intros ->;
        apply Hnin; set_solver. }
    destruct f1 as [|h [|l f2]]; simpl; rewrite ?take_0, ?drop_0; simpl;
      try (by rewrite app_nil_r, orb_false_r).
    pose proof (byte_val_nonneg h). pose proof (byte_val_nonneg l).
    set (n := 256 * byte_val h + byte_val l).
    unfold f_read.
    destruct (Z.eqb_spec n 0) as [Hn0|Hn0].
    { rewrite Hn0. simpl. by rewrite app_nil_r. }
    assert ((n - 2 <? -1) = false) as -> by lia.
    destruct (Z.eqb_spec n 1) as [Hn1|Hn1].
    + rewrite Hn1. simpl.
      destruct (units fuel []) as [us s] eqn:Hu. simpl.
      by apply (clean_loop_segment fuel m1 [h; l] f2 [] out changed us s).
    + assert ((n - 2 =? -1) = false) as -> by lia.
      destruct (units fuel (drop (Z.to_nat (n - 2)) f2)) as [us s] eqn:Hu. simpl.
      by apply (clean_loop_segment fuel m1 [h; l] _ _ out changed us s).
Qed.


(** One unit of fuel per input byte is more than the walk uses. *)
Lemma units_fuel fuel : ∀ f, (length f < fuel)%nat → (units fuel f).2 ≠ NoFuel.
Proof.
  induction fuel as [|fuel IH]; intros f Hlen; [lia|]. simpl.
  destruct f as [|m0 [|m1 f1]]; simpl; try done.
  destruct (bool_decide (m0 = xff)); simpl; [|done].
  destruct (bool_decide (m1 = xda)); simpl; [done|].
  destruct (bool_decide (m1 ∈ [xd8; xd9])).
  - specialize (IH f1). destruct (units fuel f1) as [us s]; simpl in *.
    apply IH. lia.
  - destruct f1 as [|h [|l f2]]; simpl; try done.
    set (n := 256 * byte_val h + byte_val l).
    destruct (n =? 0); simpl; [done|].
    destruct (n =? 1).
    + specialize (IH []). destruct (units fuel []) as [us s]; simpl in *.
      apply IH. lia.
    + specialize (IH (drop (Z.to_nat (n - 2)) f2)).
      destruct (units fuel (drop (Z.to_nat (n - 2)) f2)) as [us s]; simpl in *.
      apply IH. rewrite length_drop. lia.
Qed.

Lemma jpeg_loop_fuel fuel f out changed :
  (length f < fuel)%nat → (clean_loop fuel f out changed).2 ≠ Diverge.
Proof.
  intros Hlen. rewrite clean_loop_units. simpl.
  pose proof (units_fuel fuel f Hlen) as Hs.
  by destruct (units fuel f).2.
Qed.


(** Scenario 1 of the specification: Exif and XMP in APP1, a JFIF APP0, a
    quantisation table, then the scan. *)
Definition sample : bytes :=
  SOI
  ++ [xff; xe1; x00; x0a] ++ EXIF_HEADER ++ [x4d; x4d]
  ++ [xff; xe0; x00; x04; x4a; x46]
  ++ [xff; xe1; x00; x1f] ++ XMP_NAMESPACE ++ [x00]
  ++ [xff; xdb; x00; x03; x10]
  ++ [xff; xda; x00; x02; x12; x34; xff; xd9].


Example clean_sample :
  clean_stream sample =
    Some (SOI ++ [xff; xe0; x00; x04; x4a; x46] ++ [xff; xdb; x00; x03; x10]
              ++ [xff; xda; x00; x02; x12; x34; xff; xd9],
          Done true).
Proof. vm_compute. reflexivity. Qed.

(** *** Cleaning a cleaned stream *)

Lemma units_nil fuel : (units fuel []).1 = [].
Proof. by destruct fuel. Qed.

Lemma kept_kept us : kept (kept us) = kept us.
Proof. unfold kept. by apply list_filter_filter_l. Qed.

Lemma kept_no_metadata us : existsb is_metadata (kept us) = false.
Proof.
  induction us as [|u us IH]; [done|]. rewrite kept_cons.
  destruct (is_metadata u) eqn:Hu; [done|]. simpl. by rewrite Hu.
Qed.

Ltac refold_kept :=
  change (filter (λ u, is_metadata u = false) ?l) with (kept l) in *;
  change (list_fmap unit_ bytes unit_bytes ?l) with (unit_bytes <$> l) in *.

(** The walk over the units that were kept finds exactly these units. *)
Lemma units_kept fuel : ∀ f fuel',
  (units fuel f).2 = AtEnd →
  (length (concat (unit_bytes <$> kept (units fuel f).1)) < fuel')%nat →
  units fuel' (concat (unit_bytes <$> kept (units fuel f).1))
  = (kept (units fuel f).1, AtEnd).
Proof.
  induction fuel as [|fuel IH]; intros f fuel' Hend Hlen; [done|].
  assert (units fuel' [] = ([], AtEnd)) as Hempty by (destruct fuel'; [lia|done]).
  destruct f as [|m0 [|m1 f1]]; try done.
  simpl in Hend, Hlen |- *.
  destruct (decide (m0 = xff)) as [->|Hff];
    [|by rewrite bool_decide_eq_false_2 in * by done].
  simpl in Hend, Hlen |- *.
  destruct (bool_decide (m1 = xda)) eqn:Hda.
  { destruct fuel' as [|fuel']; [lia|]. simpl. rewrite Hda. by rewrite app_nil_r. }
  destruct (bool_decide (m1 ∈ [xd8; xd9])) eqn:Hsa.
  - specialize (IH f1). destruct (units fuel f1) as [us s]. simpl in *.
    rewrite kept_cons in *. simpl in *. refold_kept.
    destruct fuel' as [|fuel']; [lia|]. simpl. rewrite Hda, Hsa.
    rewrite (IH fuel') by (done || lia). done.
  - destruct f1 as [|h [|l f2]]; try done.
    set (n := 256 * byte_val h + byte_val l) in *.
    destruct (n =? 0) eqn:Hn0; [done|].
    set (payload := if n =? 1 then f2 else take (Z.to_nat (n - 2)) f2) in *.
    set (f3 := if n =? 1 then [] else drop (Z.to_nat (n - 2)) f2) in *.
    specialize (IH f3). destruct (units fuel f3) as [us s] eqn:Hus.
    simpl in IH, Hend, Hlen |- *. rewrite kept_cons in *.
    destruct (is_metadata (Segment [xff; m1] [h; l] payload)) eqn:Hmeta.
    { by apply IH. }
    simpl in Hlen |- *. rewrite length_app in Hlen.
    destruct fuel' as [|fuel']; [lia|]. simpl. rewrite Hda, Hsa. fold n. rewrite Hn0.
    refold_kept.
    assert (f3 = [] → concat (unit_bytes <$> kept us) = []) as Hrest.
    { intros Hf3. pose proof (units_nil fuel) as Hnil.
      rewrite <- Hf3, Hus in Hnil. simpl in Hnil. by rewrite Hnil. }
    assert ((if n =? 1 then payload ++ concat (unit_bytes <$> kept us)
             else take (Z.to_nat (n - 2)) (payload ++ concat (unit_bytes <$> kept us)))
            = payload ∧
            (if n =? 1 then []
             else drop (Z.to_nat (n - 2)) (payload ++ concat (unit_bytes <$> kept us)))
            = concat (unit_bytes <$> kept us)) as [-> ->].
    { unfold payload, f3 in *. destruct (n =? 1).
      - rewrite Hrest by done. by rewrite app_nil_r.
      - apply read_back. intros Hshort. apply Hrest. by apply take_short_drop. }
    rewrite (IH fuel') by (done || lia). done.
Qed.

Lemma jpeg_stream_twice (data out : bytes) (changed : bool) :
  clean_stream data = Some (out, Done changed) →
  clean_stream out = Some (out, Done false).
Proof.
  unfold clean_stream. case_bool_decide as Hsoi; [|done].
  rewrite clean_loop_units.
  pose proof (units_kept (S (length data)) (drop 2 data)) as Hkept.
  destruct (units (S (length data)) (drop 2 data)) as [us s].
  cbn [fst snd] in *. intros [= <- Hctl].
  assert (s = AtEnd) as -> by (by destruct s).
  rewrite bool_decide_eq_true_2 by done.
  change (drop 2 (SOI ++ ?l)) with l.
  rewrite clean_loop_units, Hkept; [|done|simpl; lia].
  cbn [fst snd stop_ctl orb]. by rewrite kept_kept, kept_no_metadata.
Qed.

(** Cleaning the bytes that the cleaner wrote writes them again and reports
    no change. *)
Theorem clean_jpeg_twice (data out : bytes) (changed : bool) :
  clean_stream data = Some (out, Done changed) →
  clean_stream out = Some (out, Done false).
Proof. exact (jpeg_stream_twice data out changed). Qed.

(** *** Detection *)

(** The loop of [_detect_jpeg]: the three flags, or the exception that
    leaves the loop; [None] is the fuel run out. *)
Fixpoint detect_loop (fuel : nat) (f : bytes) (exif xmp iptc : bool)
    : option (exn + bool * bool * bool) :=
  match fuel with
  | O => None
  | S fuel =>
      let marker := take 2 f in
      let f := drop 2 f in
      match marker with
      | [m0; m1] =>
          if negb (bool_decide (m0 = xff)) then Some (inr (exif, xmp, iptc))
          else if bool_decide (m1 = xda) then Some (inr (exif, xmp, iptc))
          else if bool_decide (m1 = xd8) || bool_decide (m1 = xd9) then
            detect_loop fuel f exif xmp iptc
          else
            let length_bytes := take 2 f in
            let f := drop 2 f in
            if (length length_bytes <? 2)%nat then Some (inr (exif, xmp, iptc))
            else
              match f_read (unpack_H length_bytes - 2) f with
              | inl e => Some (inl e)
              | inr (seg_data, f) =>
                  let app1 := bool_decide (m1 = xe1) in
                  let exif :=
                    if app1 && startswith EXIF_HEADER seg_data then true else exif in
                  let xmp :=
                    if app1 && contains XMP_NAMESPACE seg_data then true else xmp in
                  let iptc :=
                    if bool_decide (m1 = xed) && startswith PHOTOSHOP_HEADER seg_data
                    then true else iptc in
                  detect_loop fuel f exif xmp iptc
              end
      | _ => Some (inr (exif, xmp, iptc))
      end
  end.

(** [_detect_jpeg(path)] on a file with these bytes: [(exif, xmp, iptc)]. *)
Definition _detect_jpeg (data : bytes) : option (exn + bool * bool * bool) :=
  if bool_decide (take 2 data = SOI)
  then detect_loop (S (length data)) (drop 2 data) false false false
  else Some (inr (false, false, false)).

(** What [_clean_jpeg] returns, or raises, when the file is replaced without
    error. *)
Definition clean_result (data : bytes) : ctl :=
  match clean_stream data with
  | Some (_, c) => c
  | None => Done false
  end.

(** [can_clean] as [detect_file_metadata] derives it: some flag is set. *)
Definition detected (r : exn + bool * bool * bool) : ctl :=
  match r with
  | inl e => Raised e
  | inr (exif, xmp, iptc) => Done (exif || xmp || iptc)
  end.

Definition has_exif (u : unit_) : bool :=
  match u with
  | Segment m _ p => bool_decide (m = [xff; xe1]) && startswith EXIF_HEADER p
  | _ => false
  end.

Definition has_xmp (u : unit_) : bool :=
  match u with
  | Segment m _ p => bool_decide (m = [xff; xe1]) && contains XMP_NAMESPACE p
  | _ => false
  end.

Definition has_iptc (u : unit_) : bool :=
  match u with
  | Segment m _ p => bool_decide (m = [xff; xed]) && startswith PHOTOSHOP_HEADER p
  | _ => false
  end.

Lemma is_metadata_flags u : is_metadata u = has_exif u || has_xmp u || has_iptc u.
Proof.
  destruct u as [|m lb p|]; try done. unfold is_metadata, has_exif, has_xmp, has_iptc.
  destruct (bool_decide (m = [xff; xe1])), (bool_decide (m = [xff; xed])),
    (startswith EXIF_HEADER p), (contains XMP_NAMESPACE p),
    (startswith PHOTOSHOP_HEADER p); done.
Qed.

Lemma existsb_is_metadata us :
  existsb is_metadata us
  = existsb has_exif us || existsb has_xmp us || existsb has_iptc us.
Proof.
  induction us as [|u us IH]; [done|]. simpl. rewrite IH, is_metadata_flags.
  destruct (has_exif u), (has_xmp u), (has_iptc u), (existsb has_exif us),
    (existsb has_xmp us), (existsb has_iptc us); done.
Qed.

Lemma marker_eq (m1 x : byte) :
  bool_decide ([xff; m1] = [xff; x]) = bool_decide (m1 = x).
Proof. apply bool_decide_ext. split; congruence. Qed.

(** The flags are those of the units that the walk finds. *)
Lemma detect_loop_units fuel : ∀ f exif xmp iptc,
  detect_loop fuel f exif xmp iptc =
  match (units fuel f).2 with
  | AtEnd => Some (inr (exif || existsb has_exif (units fuel f).1,
                        xmp || existsb has_xmp (units fuel f).1,
                        iptc || existsb has_iptc (units fuel f).1))
  | BadLength => Some (inl ValueError)
  | NoFuel => None
  end.
Proof.
  induction fuel as [|fuel IH]; intros f exif xmp iptc; [done|]. simpl.
  destruct f as [|m0 [|m1 f1]]; simpl; rewrite ?take_0, ?drop_0;
    try (by rewrite !orb_false_r).
  destruct (decide (m0 = xff)) as [->|Hff]; simpl;
    [|rewrite bool_decide_eq_false_2 by done; simpl; by rewrite !orb_false_r].
  destruct (decide (m1 = xda)) as [->|Hda]; simpl.
  { by rewrite !orb_false_r. }
  rewrite (bool_decide_eq_false_2 (m1 = xda)) by done.
  destruct (decide (m1 ∈ [xd8; xd9])) as [Hin|Hnin].
  - rewrite (bool_decide_eq_true_2 (m1 ∈ _)) by done.
    assert (bool_decide (m1 = xd8) || bool_decide (m1 = xd9) = true) as ->.
    { apply elem_of_cons in Hin as [->|Hin]; [done|].
      apply elem_of_cons in Hin as [->|Hin]; [done|]. by apply elem_of_nil in Hin. }
    rewrite IH. by destruct (units fuel f1) as [us s].
  - rewrite (bool_decide_eq_false_2 (m1 ∈ _)) by done.
    assert (bool_decide (m1 = xd8) || bool_decide (m1 = xd9) = false) as ->.
    { apply orb_false_intro; apply bool_decide_eq_false_2; intros ->;
        apply Hnin; set_solver. }
    destruct f1 as [|h [|l f2]]; simpl; rewrite ?take_0, ?drop_0; simpl;
      try (by rewrite !orb_false_r).
    pose proof (byte_val_nonneg h). pose proof (byte_val_nonneg l).
    set (n := 256 * byte_val h + byte_val l).
    unfold f_read.
    destruct (Z.eqb_spec n 0) as [Hn0|Hn0].
    { by rewrite Hn0. }
    assert ((n - 2 <? -1) = false) as -> by lia.
    assert ((if n - 2 =? -1 then inr (f2, [])
             else inr (take (Z.to_nat (n - 2)) f2, drop (Z.to_nat (n - 2)) f2))
            = (inr (if n =? 1 then f2 else take (Z.to_nat (n - 2)) f2,
                    if n =? 1 then [] else drop (Z.to_nat (n - 2)) f2)
               : exn + bytes * bytes)) as ->.
    { destruct (Z.eqb_spec n 1) as [->|?]; [done|].
      by assert ((n - 2 =? -1) = false) as -> by lia. }
    rewrite IH.
    destruct (units fuel (if n =? 1 then [] else drop (Z.to_nat (n - 2)) f2))
      as [us s]; simpl.
    rewrite !marker_eq.
    destruct s; [|done..].
    do 3 f_equal; [f_equal|];
      match goal with
      | |- (if ?c then true else ?b) || ?e = _ => by destruct c, b, e
      end.
Qed.

Lemma jpeg_detect_agrees (data : bytes) :
  ∃ r, _detect_jpeg data = Some r ∧ clean_result data = detected r.
Proof.
  unfold _detect_jpeg, clean_result, clean_stream.
  case_bool_decide as Hsoi; [|by eexists].
  rewrite detect_loop_units, clean_loop_units.
  pose proof (units_fuel (S (length data)) (drop 2 data)) as Hfuel.
  destruct (units (S (length data)) (drop 2 data)) as [us s].
  cbn [fst snd] in *.
  destruct s; [| |exfalso; apply Hfuel; [rewrite length_drop; lia|done]].
  - eexists; split; [done|]. simpl. by rewrite existsb_is_metadata.
  - by eexists.
Qed.

(** Detection and cleaning agree on every input: [_detect_jpeg] ends, it
    raises exactly when [_clean_jpeg] raises, and otherwise it reports some
    metadata exactly when [_clean_jpeg] returns [True]. *)
Theorem detect_jpeg_agrees_with_clean (data : bytes) :
  ∃ r, _detect_jpeg data = Some r ∧ clean_result data = detected r.
Proof. exact (jpeg_detect_agrees data). Qed.

(** *** Content hash *)

(** The loop of [_hash_jpeg_scan]: [fed] is what the hash has been fed.
    [f.seek(length - 2, os.SEEK_CUR)] with a length field of 0 or 1 steps
    back into the two length bytes that were just read. *)
Fixpoint hash_loop (fuel : nat) (f fed : bytes) : option bytes :=
  match fuel with
  | O => None
  | S fuel =>
      let marker := take 2 f in
      let f := drop 2 f in
      match marker with
      | [m0; m1] =>
          if negb (bool_decide (m0 = xff)) then Some fed
          else if bool_decide (m1 = xda) then
            update_chunks (S (length f)) CHUNK f (fed ++ marker)
          else if bool_decide (m1 = xd8) || bool_decide (m1 = xd9) then
            hash_loop fuel f fed
          else
            let lb := take 2 f in
            let f := drop 2 f in
            if (length lb <? 2)%nat then Some fed
            else
              let n := unpack_H lb - 2 in
              let f := if n <? 0 then drop (Z.to_nat (2 + n)) lb ++ f
                       else drop (Z.to_nat n) f in
              hash_loop fuel f fed
      | _ => Some fed
      end
  end.

(** [_hash_jpeg_scan(path)] on a file with these bytes: what is hashed. *)
Definition _hash_jpeg_scan (data : bytes) : option bytes :=
  if bool_decide (take 2 data = SOI)
  then hash_loop (S (length data)) (drop 2 data) []
  else _hash_file data.

(** The bytes of the scan, when the walk reaches one. *)
Definition scan_bytes (us : list unit_) : bytes :=
  concat (unit_bytes <$> filter (λ u, is_scan u = true) us).

Lemma scan_bytes_cons u us :
  scan_bytes (u :: us) = if is_scan u then unit_bytes u ++ scan_bytes us else scan_bytes us.
Proof.
  unfold scan_bytes. rewrite filter_cons.
  destruct (is_scan u); by case_decide.
Qed.

Lemma scan_bytes_kept us : scan_bytes (kept us) = scan_bytes us.
Proof.
  induction us as [|u us IH]; [done|]. rewrite kept_cons.
  destruct (is_metadata u) eqn:Hu.
  - rewrite scan_bytes_cons, IH. by destruct u.
  - by rewrite !scan_bytes_cons, IH.
Qed.

#[local] Arguments scan_bytes : simpl never.

(** A marker that starts with a byte below FF ends the walk. *)
Lemma hash_loop_stops fuel m0 f fed :
  byte_val m0 < 255 → hash_loop (S fuel) (m0 :: f) fed = Some fed.
Proof.
  intros Hm0. simpl. destruct f as [|m1 f]; [done|]. simpl.
  rewrite bool_decide_eq_false_2; [done|]. intros ->. vm_compute in Hm0. done.
Qed.

(** The hash is fed the scan and nothing else. *)
Lemma hash_loop_units fuel : ∀ f fed,
  (length f < fuel)%nat →
  hash_loop fuel f fed = Some (fed ++ scan_bytes (units fuel f).1).
Proof.
  induction fuel as [|fuel IH]; intros f fed Hlen; [lia|]. simpl.
  destruct f as [|m0 [|m1 f1]]; simpl; rewrite ?take_0, ?drop_0;
    try (by rewrite app_nil_r).
  destruct (decide (m0 = xff)) as [->|Hff]; simpl;
    [|rewrite bool_decide_eq_false_2 by done; simpl; by rewrite app_nil_r].
  destruct (decide (m1 = xda)) as [->|Hda]; simpl.
  { rewrite update_chunks_all by (unfold CHUNK; simpl; lia).
    rewrite scan_bytes_cons. simpl. by rewrite <- !app_assoc, app_nil_r. }
  rewrite (bool_decide_eq_false_2 (m1 = xda)) by done.
  simpl in Hlen.
  destruct (decide (m1 ∈ [xd8; xd9])) as [Hin|Hnin].
  - rewrite (bool_decide_eq_true_2 (m1 ∈ _)) by done.
    assert (bool_decide (m1 = xd8) || bool_decide (m1 = xd9) = true) as ->.
    { apply elem_of_cons in Hin as [->|Hin]; [done|].
      apply elem_of_cons in Hin as [->|Hin]; [done|]. by apply elem_of_nil in Hin. }
    rewrite IH by lia. by destruct (units fuel f1) as [us s].
  - rewrite (bool_decide_eq_false_2 (m1 ∈ _)) by done.
    assert (bool_decide (m1 = xd8) || bool_decide (m1 = xd9) = false) as ->.
    { apply orb_false_intro; apply bool_decide_eq_false_2; intros ->;
        apply Hnin; set_solver. }
    destruct f1 as [|h [|l f2]]; simpl; rewrite ?take_0, ?drop_0; simpl;
      try (by rewrite app_nil_r).
    pose proof (byte_val_bound h). pose proof (byte_val_bound l).
    set (n := 256 * byte_val h + byte_val l).
    simpl in Hlen. destruct fuel as [|fuel']; [lia|].
    destruct (Z.eqb_spec n 0) as [Hn0|Hn0].
    { rewrite Hn0. change (0 - 2 <? 0) with true. cbn iota.
      change (drop (Z.to_nat (2 + (0 - 2))) [h; l] ++ f2) with (h :: l :: f2).
      unfold n in Hn0. rewrite hash_loop_stops by lia. by rewrite app_nil_r. }
    destruct (Z.eqb_spec n 1) as [Hn1|Hn1].
    { rewrite Hn1. change (1 - 2 <? 0) with true. cbn iota.
      change (drop (Z.to_nat (2 + (1 - 2))) [h; l] ++ f2) with (l :: f2).
      unfold n in Hn1. rewrite hash_loop_stops by lia.
      destruct (units (S fuel') []) as [us s] eqn:Hus.
      pose proof (units_nil (S fuel')) as Hnil. rewrite Hus in Hnil.
      simpl in Hnil. subst us. cbn [fst]. by rewrite scan_bytes_cons, app_nil_r. }
    assert ((n - 2 <? 0) = false) as -> by lia.
    rewrite IH by (rewrite length_drop; lia).
    by destruct (units (S fuel') (drop (Z.to_nat (n - 2)) f2)) as [us s].
Qed.

Lemma jpeg_hash_kept (data out : bytes) (changed : bool) :
  clean_stream data = Some (out, Done changed) →
  _hash_jpeg_scan data = Some (scan_bytes (parse data).1) ∧
  _hash_jpeg_scan out = _hash_jpeg_scan data.
Proof.
  unfold clean_stream, _hash_jpeg_scan, parse. case_bool_decide as Hsoi; [|done].
  rewrite clean_loop_units, hash_loop_units by (rewrite length_drop; lia).
  pose proof (units_kept (S (length data)) (drop 2 data)) as Hkept.
  destruct (units (S (length data)) (drop 2 data)) as [us s].
  cbn [fst snd] in *. intros [= <- Hctl].
  assert (s = AtEnd) as -> by (by destruct s).
  split; [done|].
  rewrite bool_decide_eq_true_2 by done.
  simpl (drop 2 _). rewrite drop_0.
  rewrite hash_loop_units by (cbn [length]; lia).
  rewrite Hkept; [|done|cbn [length]; lia].
  cbn [fst]. by rewrite scan_bytes_kept.
Qed.

(** The content hash of a JPEG is that of its scan, from the SOS marker to
    the end of the file, and cleaning does not change it: the bytes that the
    cleaner writes hash to what the input hashes to. *)
Theorem clean_jpeg_keeps_scan_hash (data out : bytes) (changed : bool) :
  clean_stream data = Some (out, Done changed) →
  _hash_jpeg_scan data = Some (scan_bytes (parse data).1) ∧
  _hash_jpeg_scan out = _hash_jpeg_scan data.
Proof. exact (jpeg_hash_kept data out changed). Qed.

(** The sample without its Exif and XMP segments. *)
Definition sample_cleaned : bytes :=
  SOI ++ [xff; xe0; x00; x04; x4a; x46] ++ [xff; xdb; x00; x03; x10]
      ++ [xff; xda; x00; x02; x12; x34; xff; xd9].

Lemma clean_jpeg_twice_sample :
  clean_stream sample = Some (sample_cleaned, Done true) ∧
  clean_stream sample_cleaned = Some (sample_cleaned, Done false).
Proof.
  split; [vm_compute; reflexivity|].
  apply (clean_jpeg_twice sample sample_cleaned true). vm_compute. reflexivity.
Defined.

Lemma clean_jpeg_keeps_scan_hash_sample :
  clean_stream sample = Some (sample_cleaned, Done true) ∧
  _hash_jpeg_scan sample_cleaned = _hash_jpeg_scan sample.
Proof.
  split; [vm_compute; reflexivity|].
  apply (clean_jpeg_keeps_scan_hash sample sample_cleaned true).
  vm_compute. reflexivity.
Defined.

(** [_hash_jpeg_scan] comes to an end on every file. *)
Lemma hash_jpeg_total (data : bytes) : is_Some (_hash_jpeg_scan data).
Proof.
  unfold _hash_jpeg_scan. case_bool_decide.
  - by rewrite hash_loop_units by (rewrite length_drop; lia).
  - by rewrite hash_file_all.
Qed.

End Jpeg.

(** ** PNG *)

Module Png.

Definition SIGNATURE : bytes := [x89] ++ lit "PNG" ++ [x0d; x0a; x1a; x0a].

Definition METADATA_TYPES : list bytes :=
  [lit "tEXt"; lit "iTXt"; lit "zTXt"; lit "tIME"].

(** The [while True] loop of [_clean_png]. *)
Fixpoint clean_loop (fuel : nat) (f out : bytes) (changed : bool) : bytes * ctl :=
  match fuel with
  | O => (out, Diverge)
  | S fuel =>
      let len_bytes := take 4 f in
      let f := drop 4 f in
      if (length len_bytes <? 4)%nat then (out, Done changed)
      else
        let length := Z.to_nat (unpack_I len_bytes) in
        let ctype := take 4 f in
        let f := drop 4 f in
        let data := take length f in
        let f := drop length f in
        let crc := take 4 f in
        let f := drop 4 f in
        if bool_decide (ctype ∈ METADATA_TYPES)
        then clean_loop fuel f out true
        else clean_loop fuel f (out ++ len_bytes ++ ctype ++ data ++ crc) changed
  end.

(** [_clean_png] up to the end of its [with] block; [None] when the
    signature is wrong (the temp file is removed and [False] returned). *)
Definition clean_stream (data : bytes) : option (bytes * ctl) :=
  let sig := take 8 data in
  if bool_decide (sig = SIGNATURE)
  then Some (clean_loop (S (length data)) (drop 8 data) sig false)
  else None.

(** Four bytes of input per turn: the fuel does not run out. *)
Lemma png_loop_fuel fuel : ∀ f out changed,
  (length f < fuel)%nat → (clean_loop fuel f out changed).2 ≠ Diverge.
Proof.
  induction fuel as [|fuel IH]; intros f out changed Hlen; [lia|]. simpl.
  destruct (Nat.ltb_spec (length (take 4 f)) 4) as [Hshort|Hfull]; [done|].
  rewrite length_take in Hfull.
  destruct (bool_decide _); apply IH; rewrite !length_drop; lia.
Qed.

(** *** The chunk structure *)

(** A chunk as it lies in the file: a four-byte big-endian length, a
    four-byte type, that many bytes of data, a four-byte CRC.  The last chunk
    of a file that was cut off holds what is there. *)
Record chunk := Chunk { c_len : bytes; c_type : bytes; c_data : bytes; c_crc : bytes }.

Definition chunk_bytes (c : chunk) : bytes :=
  c_len c ++ c_type c ++ c_data c ++ c_crc c.

(** tEXt, iTXt, zTXt or tIME. *)
Definition is_metadata (c : chunk) : bool := bool_decide (c_type c ∈ METADATA_TYPES).

(** The chunks after the signature, in file order; fewer than four bytes at
    the end are no chunk. *)
Fixpoint chunks (fuel : nat) (f : bytes) : list chunk :=
  match fuel with
  | O => []
  | S fuel =>
      if (length (take 4 f) <? 4)%nat then []
      else
        let n := Z.to_nat (unpack_I (take 4 f)) in
        let f1 := drop 4 f in
        let f2 := drop 4 f1 in
        let f3 := drop n f2 in
        Chunk (take 4 f) (take 4 f1) (take n f2) (take 4 f3) :: chunks fuel (drop 4 f3)
  end.

Definition parse (data : bytes) : list chunk :=
  chunks (S (length data)) (drop 8 data).

Definition kept (cs : list chunk) : list chunk :=
  filter (λ c, is_metadata c = false) cs.

Lemma kept_chunks_cons c cs :
  kept (c :: cs) = if is_metadata c then kept cs else c :: kept cs.
Proof.
  unfold kept. rewrite filter_cons.
  destruct (is_metadata c); by case_decide.
Qed.

Lemma kept_chunks_kept cs : kept (kept cs) = kept cs.
Proof. unfold kept. by apply list_filter_filter_l. Qed.

Lemma kept_chunks_no_metadata cs : existsb is_metadata (kept cs) = false.
Proof.
  induction cs as [|c cs IH]; [done|]. rewrite kept_chunks_cons.
  destruct (is_metadata c) eqn:Hc; [done|]. simpl. by rewrite Hc.
Qed.

Lemma chunks_nil fuel : chunks fuel [] = [].
Proof. by destruct fuel. Qed.

Lemma chunks_S fuel f :
  chunks (S fuel) f =
  if (length (take 4 f) <? 4)%nat then []
  else
    Chunk (take 4 f) (take 4 (drop 4 f))
          (take (Z.to_nat (unpack_I (take 4 f))) (drop 4 (drop 4 f)))
          (take 4 (drop (Z.to_nat (unpack_I (take 4 f))) (drop 4 (drop 4 f))))
    :: chunks fuel (drop 4 (drop (Z.to_nat (unpack_I (take 4 f))) (drop 4 (drop 4 f)))).
Proof. done. Qed.

Lemma clean_loop_S fuel f out changed :
  clean_loop (S fuel) f out changed =
  if (length (take 4 f) <? 4)%nat then (out, Done changed)
  else
    let n := Z.to_nat (unpack_I (take 4 f)) in
    let f3 := drop n (drop 4 (drop 4 f)) in
    if bool_decide (take 4 (drop 4 f) ∈ METADATA_TYPES)
    then clean_loop fuel (drop 4 f3) out true
    else clean_loop fuel (drop 4 f3)
           (out ++ take 4 f ++ take 4 (drop 4 f) ++ take n (drop 4 (drop 4 f))
                ++ take 4 f3) changed.
Proof. done. Qed.

#[local] Arguments chunks : simpl never.
#[local] Arguments clean_loop : simpl never.
#[local] Arguments is_metadata : simpl never.
#[local] Arguments kept : simpl never.

(** The loop of the code walks exactly these chunks and writes the ones
    that are not metadata. *)
Lemma clean_loop_chunks fuel : ∀ f out changed,
  (length f < fuel)%nat →
  clean_loop fuel f out changed =
  (out ++ concat (chunk_bytes <$> kept (chunks fuel f)),
   Done (changed || existsb is_metadata (chunks fuel f))).
Proof.
  induction fuel as [|fuel IH]; intros f out changed Hlen; [lia|].
  rewrite clean_loop_S, chunks_S.
  destruct (Nat.ltb_spec (length (take 4 f)) 4) as [Hshort|Hfull].
  { simpl. by rewrite app_nil_r, orb_false_r. }
  rewrite length_take in Hfull. cbn zeta.
  set (n := Z.to_nat (unpack_I (take 4 f))).
  rewrite kept_chunks_cons. cbn [existsb].
  change (is_metadata (Chunk ?l ?t ?d ?c)) with (bool_decide (t ∈ METADATA_TYPES)).
  destruct (bool_decide (take 4 (drop 4 f) ∈ METADATA_TYPES)).
  - rewrite IH by (rewrite !length_drop; lia). by rewrite orb_true_r.
  - rewrite IH by (rewrite !length_drop; lia). simpl.
    change (chunk_bytes (Chunk ?a ?b ?c ?d)) with (a ++ b ++ c ++ d).
    by rewrite <- !app_assoc.
Qed.

(** The chunks lie side by side from the signature on and leave fewer than
    four bytes. *)
Lemma chunks_tile fuel : ∀ f,
  (length f < fuel)%nat →
  ∃ tail, f = concat (chunk_bytes <$> chunks fuel f) ++ tail ∧ (length tail < 4)%nat.
Proof.
  induction fuel as [|fuel IH]; intros f Hlen; [lia|].
  rewrite chunks_S.
  destruct (Nat.ltb_spec (length (take 4 f)) 4) as [Hshort|Hfull].
  { exists f. split; [done|]. rewrite length_take in Hshort. lia. }
  rewrite length_take in Hfull.
  set (n := Z.to_nat (unpack_I (take 4 f))).
  destruct (IH (drop 4 (drop n (drop 4 (drop 4 f))))) as (tail & Htail & Hlt).
  { rewrite !length_drop. lia. }
  exists tail. split; [|done]. simpl.
  change (chunk_bytes (Chunk ?a ?b ?c ?d)) with (a ++ b ++ c ++ d).
  change (list_fmap chunk bytes chunk_bytes ?l) with (chunk_bytes <$> l).
  rewrite <- !app_assoc, <- Htail, !take_drop. done.
Qed.

(** For every input with the PNG signature: the chunks tile the file up to
    fewer than four trailing bytes; the cleaner writes the signature and, in
    order and byte for byte, exactly the chunks whose type is not tEXt, iTXt,
    zTXt or tIME; it never raises; and the flag it returns is true iff some
    chunk was dropped. *)
Theorem clean_png_drops_exactly_metadata (data : bytes) :
  take 8 data = SIGNATURE →
  (∃ tail, data = SIGNATURE ++ concat (chunk_bytes <$> parse data) ++ tail ∧
           (length tail < 4)%nat) ∧
  (∀ c, is_metadata c = true ↔
        c_type c ∈ [lit "tEXt"; lit "iTXt"; lit "zTXt"; lit "tIME"]) ∧
  clean_stream data =
    Some (SIGNATURE ++ concat (chunk_bytes <$> kept (parse data)),
          Done (existsb is_metadata (parse data))).
Proof.
  intros Hsig. unfold parse, clean_stream. cbn zeta.
  rewrite bool_decide_eq_true_2 by done. rewrite Hsig.
  split; [|split].
  - destruct (chunks_tile (S (length data)) (drop 8 data)) as (tail & Ht & Hlt).
    { rewrite length_drop. lia. }
    exists tail. split; [|done]. rewrite <- Ht, <- Hsig. by rewrite take_drop.
  - intros c. unfold is_metadata. by rewrite bool_decide_eq_true.
  - by rewrite clean_loop_chunks by (rewrite length_drop; lia).
Qed.

(** *** Cleaning a cleaned stream *)

(** A chunk read back from its own bytes, followed by [rest]: where the
    chunk was cut short the file had ended and [rest] is empty. *)
Lemma chunk_read_back (n : nat) (g rest : bytes) :
  (drop 4 (drop n (drop 4 g)) = [] → rest = []) →
  let ty := take 4 g in
  let d := take n (drop 4 g) in
  let cr := take 4 (drop n (drop 4 g)) in
  let w := ty ++ d ++ cr ++ rest in
  take 4 w = ty ∧ take n (drop 4 w) = d ∧ take 4 (drop n (drop 4 w)) = cr ∧
  drop 4 (drop n (drop 4 w)) = rest.
Proof.
  intros Hrest ty d cr w.
  assert ((length cr < 4)%nat → rest = []) as H3.
  { intros Hs. apply Hrest. by apply take_short_drop. }
  assert ((length d < n)%nat → cr ++ rest = []) as H2.
  { intros Hs. apply take_short_drop in Hs. unfold cr.
    rewrite Hs, take_nil. simpl. apply Hrest. by rewrite Hs, drop_nil. }
  assert ((length ty < 4)%nat → d ++ cr ++ rest = []) as H1.
  { intros Hs. apply take_short_drop in Hs. unfold d, cr.
    rewrite Hs, drop_nil, !take_nil. simpl. apply Hrest. by rewrite Hs, !drop_nil. }
  unfold w, ty, d, cr in *.
  destruct (read_back 4 g _ H1) as [-> ->].
  destruct (read_back n (drop 4 g) _ H2) as [-> ->].
  destruct (read_back 4 (drop n (drop 4 g)) _ H3) as [-> ->].
  done.
Qed.

(** The walk over the chunks that were kept finds exactly these chunks. *)
Lemma chunks_kept fuel : ∀ f fuel',
  (length f < fuel)%nat →
  (length (concat (chunk_bytes <$> kept (chunks fuel f))) < fuel')%nat →
  chunks fuel' (concat (chunk_bytes <$> kept (chunks fuel f))) = kept (chunks fuel f).
Proof.
  induction fuel as [|fuel IH]; intros f fuel' Hlen Hlen'; [lia|].
  rewrite chunks_S in *.
  destruct (Nat.ltb_spec (length (take 4 f)) 4) as [Hshort|Hfull].
  { simpl. apply chunks_nil. }
  rewrite length_take in Hfull.
  set (n := Z.to_nat (unpack_I (take 4 f))) in *.
  set (f4 := drop 4 (drop n (drop 4 (drop 4 f)))) in *.
  assert (length f4 < fuel)%nat as Hf4.
  { unfold f4. rewrite !length_drop. lia. }
  rewrite kept_chunks_cons in *.
  destruct (is_metadata _) eqn:Hmeta; [by apply IH|].
  rewrite fmap_cons in *. cbn [concat] in *.
  change (chunk_bytes (Chunk ?a ?b ?c ?d)) with (a ++ b ++ c ++ d) in *.
  set (rest := concat (chunk_bytes <$> kept (chunks fuel f4))) in *.
  rewrite <- !app_assoc in *. rewrite !length_app in Hlen'.
  assert (length (take 4 f) = 4%nat) as Hl4 by (rewrite length_take; lia).
  destruct fuel' as [|fuel']; [lia|]. rewrite chunks_S.
  rewrite (take_app_length' (take 4 f)) by done.
  rewrite (drop_app_length' (take 4 f)) by done.
  rewrite length_take. replace (4 `min` length f)%nat with 4%nat by lia.
  change (4 <? 4)%nat with false. cbn iota. fold n.
  destruct (chunk_read_back n (drop 4 f) rest) as (-> & -> & -> & ->).
  { fold f4. intros Hnil. unfold rest. by rewrite Hnil, chunks_nil. }
  f_equal. apply IH; [done|]. fold rest. lia.
Qed.

Lemma png_stream_twice (data out : bytes) (changed : bool) :
  clean_stream data = Some (out, Done changed) →
  clean_stream out = Some (out, Done false).
Proof.
  unfold clean_stream. cbn zeta. case_bool_decide as Hsig; [|done].
  rewrite clean_loop_chunks by (rewrite length_drop; lia).
  intros [= <- _]. rewrite Hsig.
  rewrite (take_app_length' SIGNATURE) by done.
  rewrite (drop_app_length' SIGNATURE) by done.
  rewrite bool_decide_eq_true_2 by done.
  rewrite clean_loop_chunks by (rewrite length_app; simpl; lia).
  rewrite chunks_kept;
    [|rewrite length_drop; lia|rewrite length_app; simpl; lia].
  by rewrite kept_chunks_kept, kept_chunks_no_metadata.
Qed.

(** Cleaning the bytes that the cleaner wrote writes them again and reports
    no change. *)
Theorem clean_png_twice (data out : bytes) (changed : bool) :
  clean_stream data = Some (out, Done changed) →
  clean_stream out = Some (out, Done false).
Proof. exact (png_stream_twice data out changed). Qed.

(** *** Detection *)

Definition TEXT_TYPES : list bytes := [lit "tEXt"; lit "iTXt"; lit "zTXt"].

(** The loop of [_detect_png]: the counts of text chunks and of tIME chunks;
    [None] is the fuel run out. *)
Fixpoint detect_loop (fuel : nat) (f : bytes) (text_chunks time_chunks : nat)
    : option (nat * nat) :=
  match fuel with
  | O => None
  | S fuel =>
      let len_bytes := take 4 f in
      let f := drop 4 f in
      if (length len_bytes <? 4)%nat then Some (text_chunks, time_chunks)
      else
        let len := unpack_I len_bytes in
        let type_bytes := take 4 f in
        let f := drop 4 f in
        if (length type_bytes <? 4)%nat then Some (text_chunks, time_chunks)
        else
          let f := drop (Z.to_nat (len + 4)) f in   (* f.seek(length + 4, SEEK_CUR) *)
          let text_chunks :=
            if bool_decide (type_bytes ∈ TEXT_TYPES) then S text_chunks
            else text_chunks in
          let time_chunks :=
            if bool_decide (type_bytes = lit "tIME") then S time_chunks
            else time_chunks in
          detect_loop fuel f text_chunks time_chunks
  end.

(** [_detect_png(path)] on a file with these bytes. *)
Definition _detect_png (data : bytes) : option (nat * nat) :=
  if bool_decide (take 8 data = SIGNATURE)
  then detect_loop (S (length data)) (drop 8 data) 0 0
  else Some (0%nat, 0%nat).

(** What [_clean_png] returns. *)
Definition clean_result (data : bytes) : ctl :=
  match clean_stream data with
  | Some (_, c) => c
  | None => Done false
  end.

Definition is_text (c : chunk) : bool := bool_decide (c_type c ∈ TEXT_TYPES).
Definition is_time (c : chunk) : bool := bool_decide (c_type c = lit "tIME").

Lemma is_metadata_text_time c : is_metadata c = is_text c || is_time c.
Proof.
  unfold is_metadata, is_text, is_time, METADATA_TYPES, TEXT_TYPES.
  destruct (bool_decide (c_type c ∈ [_; _; _; _])) eqn:Hin; symmetry.
  - apply bool_decide_eq_true in Hin. apply orb_true_iff.
    rewrite !bool_decide_eq_true. revert Hin.
    rewrite !elem_of_cons, !elem_of_nil. tauto.
  - apply bool_decide_eq_false in Hin. apply orb_false_iff.
    rewrite !bool_decide_eq_false. revert Hin.
    rewrite !elem_of_cons, !elem_of_nil. tauto.
Qed.

Lemma unpack_I_nonneg b : 0 <= unpack_I b.
Proof.
  unfold unpack_I. destruct b as [|b3 [|b2 [|b1 [|b0 [|]]]]]; try lia.
  pose proof (byte_val_bound b3). pose proof (byte_val_bound b2).
  pose proof (byte_val_bound b1). pose proof (byte_val_bound b0). lia.
Qed.

Lemma detect_loop_S fuel f t m :
  detect_loop (S fuel) f t m =
  if (length (take 4 f) <? 4)%nat then Some (t, m)
  else if (length (take 4 (drop 4 f)) <? 4)%nat then Some (t, m)
  else detect_loop fuel
         (drop (Z.to_nat (unpack_I (take 4 f) + 4)) (drop 4 (drop 4 f)))
         (if bool_decide (take 4 (drop 4 f) ∈ TEXT_TYPES) then S t else t)
         (if bool_decide (take 4 (drop 4 f) = lit "tIME") then S m else m).
Proof. done. Qed.

#[local] Arguments detect_loop : simpl never.

(** The counts are those of the chunks that the walk finds. *)
Lemma detect_loop_chunks fuel : ∀ f t m,
  (length f < fuel)%nat →
  detect_loop fuel f t m =
  Some ((t + length (filter (λ c, is_text c = true) (chunks fuel f)))%nat,
        (m + length (filter (λ c, is_time c = true) (chunks fuel f)))%nat).
Proof.
  induction fuel as [|fuel IH]; intros f t m Hlen; [lia|].
  rewrite detect_loop_S, chunks_S.
  destruct (Nat.ltb_spec (length (take 4 f)) 4) as [Hshort|Hfull].
  { simpl. by rewrite !Nat.add_0_r. }
  rewrite length_take in Hfull.
  set (n := Z.to_nat (unpack_I (take 4 f))).
  rewrite !count_cons. unfold is_text at 1, is_time at 1. cbn [c_type].
  assert (drop (Z.to_nat (unpack_I (take 4 f) + 4)) (drop 4 (drop 4 f))
          = drop 4 (drop n (drop 4 (drop 4 f)))) as ->.
  { rewrite (drop_drop (drop 4 (drop 4 f))). f_equal. unfold n.
    pose proof (unpack_I_nonneg (take 4 f)). lia. }
  destruct (Nat.ltb_spec (length (take 4 (drop 4 f))) 4) as [Hty|Hty].
  - apply take_short_drop in Hty as Hnil.
    rewrite Hnil, drop_nil, drop_nil, chunks_nil.
    assert (take 4 (drop 4 f) ∉ TEXT_TYPES) as H1.
    { intros Hin. unfold TEXT_TYPES in Hin.
      repeat (apply elem_of_cons in Hin as [Hin|Hin];
              [rewrite Hin in Hty; simpl in Hty; lia|]).
      by apply elem_of_nil in Hin. }
    assert (take 4 (drop 4 f) ≠ lit "tIME") as H2.
    { intros Heq. rewrite Heq in Hty. simpl in Hty. lia. }
    repeat case_bool_decide; try done. simpl. by rewrite !Nat.add_0_r.
  - rewrite IH by (rewrite !length_drop; lia).
    repeat case_bool_decide; try done; do 2 f_equal; lia.
Qed.

Lemma png_detect_agrees (data : bytes) :
  ∃ textc timec,
    _detect_png data = Some (textc, timec) ∧
    (take 8 data = SIGNATURE →
     textc = length (filter (λ c, c_type c ∈ [lit "tEXt"; lit "iTXt"; lit "zTXt"])
                            (parse data)) ∧
     timec = length (filter (λ c, c_type c = lit "tIME") (parse data))) ∧
    clean_result data = Done ((0 <? textc)%nat || (0 <? timec)%nat).
Proof.
  unfold _detect_png, clean_result, clean_stream, parse. cbn zeta.
  case_bool_decide as Hsig; [|by exists 0%nat, 0%nat].
  rewrite detect_loop_chunks, clean_loop_chunks by (rewrite length_drop; lia).
  eexists _, _. split; [done|]. simpl. split.
  - intros _. split; f_equal; apply list_filter_iff; intros c;
      unfold is_text, is_time; by rewrite bool_decide_eq_true.
  - f_equal. rewrite existsb_length, <- length_filter_or. do 2 f_equal.
    apply list_filter_iff. intros c. by rewrite is_metadata_text_time.
Qed.

(** Detection and cleaning agree on every input: [_detect_png] ends with the
    number of tEXt, iTXt and zTXt chunks and the number of tIME chunks of the
    file, and [_clean_png] returns [True] exactly when one of the two counts
    is not zero ([bool(textc or timec)], the [can_clean] of the report). *)
Theorem detect_png_agrees_with_clean (data : bytes) :
  ∃ textc timec,
    _detect_png data = Some (textc, timec) ∧
    (take 8 data = SIGNATURE →
     textc = length (filter (λ c, c_type c ∈ [lit "tEXt"; lit "iTXt"; lit "zTXt"])
                            (parse data)) ∧
     timec = length (filter (λ c, c_type c = lit "tIME") (parse data))) ∧
    clean_result data = Done ((0 <? textc)%nat || (0 <? timec)%nat).
Proof. exact (png_detect_agrees data). Qed.

(** *** Content hash *)

Definition IDAT : bytes := lit "IDAT".

(** The loop of [_hash_png_idat]: [fed] is what the hash has been fed. *)
Fixpoint hash_loop (fuel : nat) (f fed : bytes) : option bytes :=
  match fuel with
  | O => None
  | S fuel =>
      let len_bytes := take 4 f in
      let f := drop 4 f in
      if (length len_bytes <? 4)%nat then Some fed
      else
        let len := Z.to_nat (unpack_I len_bytes) in
        let ctype := take 4 f in
        let f := drop 4 f in
        let data := take len f in
        let f := drop len f in
        let crc := take 4 f in
        let f := drop 4 f in
        if (length ctype <? 4)%nat || (length data <? len)%nat || (length crc <? 4)%nat
        then Some fed
        else hash_loop fuel f (if bool_decide (ctype = IDAT) then fed ++ data else fed)
  end.

(** [_hash_png_idat(path)] on a file with these bytes: what is hashed. *)
Definition _hash_png_idat (data : bytes) : option bytes :=
  if bool_decide (take 8 data = SIGNATURE)
  then hash_loop (S (length data)) (drop 8 data) []
  else _hash_file data.

(** A chunk that is all there. *)
Definition complete (c : chunk) : bool :=
  negb ((length (c_type c) <? 4)%nat
        || (length (c_data c) <? Z.to_nat (unpack_I (c_len c)))%nat
        || (length (c_crc c) <? 4)%nat).

(** The data of the IDAT chunks that are all there. *)
Definition idat_bytes (cs : list chunk) : bytes :=
  concat (c_data <$> filter (λ c, complete c && bool_decide (c_type c = IDAT) = true) cs).

Lemma idat_bytes_cons c cs :
  idat_bytes (c :: cs) =
  if complete c && bool_decide (c_type c = IDAT)
  then c_data c ++ idat_bytes cs else idat_bytes cs.
Proof.
  unfold idat_bytes. rewrite filter_cons.
  destruct (complete c && bool_decide (c_type c = IDAT));
    [by rewrite decide_True|by rewrite decide_False].
Qed.

Lemma hash_loop_S fuel f fed :
  hash_loop (S fuel) f fed =
  if (length (take 4 f) <? 4)%nat then Some fed
  else
    let c := Chunk (take 4 f) (take 4 (drop 4 f))
               (take (Z.to_nat (unpack_I (take 4 f))) (drop 4 (drop 4 f)))
               (take 4 (drop (Z.to_nat (unpack_I (take 4 f))) (drop 4 (drop 4 f)))) in
    if negb (complete c) then Some fed
    else hash_loop fuel
           (drop 4 (drop (Z.to_nat (unpack_I (take 4 f))) (drop 4 (drop 4 f))))
           (if bool_decide (c_type c = IDAT) then fed ++ c_data c else fed).
Proof.
  simpl. destruct (length (take 4 f) <? 4)%nat; [done|].
  unfold complete. simpl. by rewrite negb_involutive.
Qed.

#[local] Arguments hash_loop : simpl never.
#[local] Arguments idat_bytes : simpl never.
#[local] Arguments complete : simpl never.

(** The hash is fed the data of the IDAT chunks, in order. *)
Lemma hash_loop_chunks fuel : ∀ f fed,
  (length f < fuel)%nat →
  hash_loop fuel f fed = Some (fed ++ idat_bytes (chunks fuel f)).
Proof.
  induction fuel as [|fuel IH]; intros f fed Hlen; [lia|].
  rewrite hash_loop_S, chunks_S.
  destruct (Nat.ltb_spec (length (take 4 f)) 4) as [Hshort|Hfull].
  { by rewrite app_nil_r. }
  rewrite length_take in Hfull. cbn zeta.
  set (n := Z.to_nat (unpack_I (take 4 f))).
  set (c := Chunk _ _ _ _). rewrite idat_bytes_cons.
  destruct (complete c) eqn:Hc; simpl.
  - rewrite IH by (rewrite !length_drop; lia).
    case_bool_decide; [by rewrite <- app_assoc|done].
  - assert (drop 4 (drop n (drop 4 (drop 4 f))) = []) as ->.
    { unfold complete, c in Hc. cbn [c_type c_data c_crc c_len] in Hc. fold n in Hc.
      apply negb_false_iff, orb_true_iff in Hc as [Hc|Hc];
        [apply orb_true_iff in Hc as [Hc|Hc]|];
        apply Nat.ltb_lt, take_short_drop in Hc; rewrite Hc; by rewrite ?drop_nil. }
    by rewrite chunks_nil, app_nil_r.
Qed.

Lemma idat_bytes_kept cs : idat_bytes (kept cs) = idat_bytes cs.
Proof.
  induction cs as [|c cs IH]; [done|]. rewrite kept_chunks_cons.
  destruct (is_metadata c) eqn:Hc.
  - rewrite idat_bytes_cons, IH.
    case_bool_decide as Hty; [|by rewrite andb_false_r].
    unfold is_metadata in Hc. rewrite Hty in Hc. done.
  - by rewrite !idat_bytes_cons, IH.
Qed.

Lemma png_hash_kept (data out : bytes) (changed : bool) :
  clean_stream data = Some (out, Done changed) →
  _hash_png_idat data = Some (idat_bytes (parse data)) ∧
  _hash_png_idat out = _hash_png_idat data.
Proof.
  unfold clean_stream, _hash_png_idat, parse. cbn zeta.
  case_bool_decide as Hsig; [|done].
  rewrite clean_loop_chunks, hash_loop_chunks by (rewrite length_drop; lia).
  intros [= <- _]. split; [done|]. rewrite Hsig.
  rewrite (take_app_length' SIGNATURE) by done.
  rewrite (drop_app_length' SIGNATURE) by done.
  rewrite bool_decide_eq_true_2 by done.
  rewrite hash_loop_chunks by (rewrite length_app; simpl; lia).
  rewrite chunks_kept;
    [|rewrite length_drop; lia|rewrite length_app; simpl; lia].
  by rewrite idat_bytes_kept.
Qed.

(** The content hash of a PNG is that of the data of its IDAT chunks, and
    cleaning does not change it: the bytes that the cleaner writes hash to
    what the input hashes to. *)
Theorem clean_png_keeps_idat_hash (data out : bytes) (changed : bool) :
  clean_stream data = Some (out, Done changed) →
  _hash_png_idat data = Some (idat_bytes (parse data)) ∧
  _hash_png_idat out = _hash_png_idat data.
Proof. exact (png_hash_kept data out changed). Qed.

(** A PNG with a tEXt chunk and a tIME chunk between header and data. *)
Definition sample : bytes :=
  SIGNATURE
  ++ [x00; x00; x00; x01] ++ lit "IHDR" ++ [x07] ++ [x01; x02; x03; x04]
  ++ [x00; x00; x00; x02] ++ lit "tEXt" ++ lit "hi" ++ [x05; x06; x07; x08]
  ++ [x00; x00; x00; x00] ++ lit "tIME" ++ [x09; x0a; x0b; x0c]
  ++ [x00; x00; x00; x03] ++ lit "IDAT" ++ [x11; x12; x13] ++ [x0d; x0e; x0f; x10]
  ++ [x00; x00; x00; x00] ++ lit "IEND" ++ [xae; x42; x60; x82].

Definition sample_cleaned : bytes :=
  SIGNATURE
  ++ [x00; x00; x00; x01] ++ lit "IHDR" ++ [x07] ++ [x01; x02; x03; x04]
  ++ [x00; x00; x00; x03] ++ lit "IDAT" ++ [x11; x12; x13] ++ [x0d; x0e; x0f; x10]
  ++ [x00; x00; x00; x00] ++ lit "IEND" ++ [xae; x42; x60; x82].

Lemma clean_png_drops_exactly_metadata_sample :
  take 8 sample = SIGNATURE ∧
  clean_stream sample =
    Some (SIGNATURE ++ concat (chunk_bytes <$> kept (parse sample)),
          Done (existsb is_metadata (parse sample))).
Proof.
  split; [reflexivity|].
  apply (clean_png_drops_exactly_metadata sample). reflexivity.
Defined.

Lemma clean_png_twice_sample :
  clean_stream sample = Some (sample_cleaned, Done true) ∧
  clean_stream sample_cleaned = Some (sample_cleaned, Done false).
Proof.
  split; [vm_compute; reflexivity|].
  apply (clean_png_twice sample sample_cleaned true). vm_compute. reflexivity.
Defined.

Lemma clean_png_keeps_idat_hash_sample :
  clean_stream sample = Some (sample_cleaned, Done true) ∧
  _hash_png_idat sample_cleaned = _hash_png_idat sample.
Proof.
  split; [vm_compute; reflexivity|].
  apply (clean_png_keeps_idat_hash sample sample_cleaned true).
  vm_compute. reflexivity.
Defined.

(** [_hash_png_idat] comes to an end on every file. *)
Lemma hash_png_total (data : bytes) : is_Some (_hash_png_idat data).
Proof.
  unfold _hash_png_idat. case_bool_decide.
  - by rewrite hash_loop_chunks by (rewrite length_drop; lia).
  - by rewrite hash_file_all.
Qed.
(** The cleaned stream starts with the signature, as the file does. *)
Lemma png_stream_head (data out : bytes) (c : ctl) :
  clean_stream data = Some (out, c) → take 8 out = take 8 data.
Proof.
  unfold clean_stream. cbn zeta. case_bool_decide as Hsig; [|done].
  rewrite clean_loop_chunks by (rewrite length_drop; lia).
  intros [= <- _]. rewrite Hsig. by rewrite (take_app_length' SIGNATURE).
Qed.

End Png.

(** ** GIF *)

Module Gif.

(** [3 * (2 ** ((packed & 0x07) + 1)) if (packed & 0x80) != 0 else 0] *)
Definition color_table_size (packed : byte) : nat :=
  if negb (Z.land (byte_val packed) 128 =? 0)
  then Z.to_nat (3 * 2 ^ (Z.land (byte_val packed) 7 + 1))
  else 0%nat.

(** [_skip_sub_blocks(f)]: what is left of the input; [None] is the fuel of
    the embedding run out. *)
Fixpoint skip_sub_blocks (fuel : nat) (f : bytes) : option bytes :=
  match fuel with
  | O => None
  | S fuel =>
      match f with
      | [] => Some f
      | szb :: f =>
          if byte_val szb =? 0 then Some f
          else skip_sub_blocks fuel (drop (Z.to_nat (byte_val szb)) f)
      end
  end.

(** [_copy_sub_blocks(f, out)]: what is left of the input, and the output. *)
Fixpoint copy_sub_blocks (fuel : nat) (f out : bytes) : option (bytes * bytes) :=
  match fuel with
  | O => None
  | S fuel =>
      match f with
      | [] => Some (f, out)
      | szb :: f =>
          let out := out ++ [szb] in
          if byte_val szb =? 0 then Some (f, out)
          else
            let sz := Z.to_nat (byte_val szb) in
            copy_sub_blocks fuel (drop sz f) (out ++ take sz f)
      end
  end.

(** The block loop of [_clean_gif]. *)
Fixpoint clean_loop (fuel : nat) (f out : bytes) (changed : bool) : bytes * ctl :=
  match fuel with
  | O => (out, Diverge)
  | S fuel =>
      match f with
      | [] => (out, Done changed)
      | b :: f =>
          if bool_decide (b = x3b) then (out ++ [b], Done changed)  (* trailer *)
          else if bool_decide (b = x2c) then                        (* image *)
            let out := out ++ [b] in
            let out := out ++ take 9 f in
            let f := drop 9 f in
            let packed2 := take 1 f in
            let f := drop 1 f in
            let out := out ++ packed2 in
            match packed2 with
            | [] => (out, Raised IndexError)
            | p :: _ =>
                let lct_size := color_table_size p in
                let out := if (0 <? lct_size)%nat then out ++ take lct_size f else out in
                let f := if (0 <? lct_size)%nat then drop lct_size f else f in
                let out := out ++ take 1 f in
                let f := drop 1 f in
                match copy_sub_blocks fuel f out with
                | None => (out, Diverge)
                | Some (f, out) => clean_loop fuel f out changed
                end
            end
          else if bool_decide (b = x21) then                        (* extension *)
            match f with
            | [] => (out, Done changed)
            | label :: f =>
                if bool_decide (label = xfe) then                   (* comment *)
                  match skip_sub_blocks fuel f with
                  | None => (out, Diverge)
                  | Some f => clean_loop fuel f out true
                  end
                else
                  match copy_sub_blocks fuel f (out ++ [b] ++ [label]) with
                  | None => (out, Diverge)
                  | Some (f, out) => clean_loop fuel f out changed
                  end
            end
          else (out, Done changed)       (* unknown -> break *)
      end
  end.

(** [_clean_gif] up to the end of its [with] block; [None] when the header
    or the logical screen descriptor is missing (the temp file is removed
    and [False] returned). *)
Definition clean_stream (data : bytes) : option (bytes * ctl) :=
  let hdr := take 6 data in
  let f := drop 6 data in
  if negb (bool_decide (hdr ∈ [lit "GIF87a"; lit "GIF89a"])) then None
  else
    let out := hdr in
    let lsd := take 7 f in
    let f := drop 7 f in
    if (length lsd <? 7)%nat then None
    else
      let out := out ++ lsd in
      match lsd !! 4%nat with
      | None => None
      | Some packed =>
          let gct_size := color_table_size packed in
          let out := if (0 <? gct_size)%nat then out ++ take gct_size f else out in
          let f := if (0 <? gct_size)%nat then drop gct_size f else f in
          Some (clean_loop (S (length data)) f out false)
      end.

(** One byte of input per turn, in the block loop and in the sub-block
    loops: the fuel does not run out. *)
Lemma skip_sub_blocks_fuel fuel : ∀ f,
  (length f < fuel)%nat →
  ∃ f', skip_sub_blocks fuel f = Some f' ∧ (length f' <= length f)%nat.
Proof.
  induction fuel as [|fuel IH]; intros f Hlen; [lia|]. simpl.
  destruct f as [|szb f]; [by eexists|]. simpl in Hlen.
  destruct (byte_val szb =? 0).
  - eexists; split; [done|]. simpl. lia.
  - destruct (IH (drop (Z.to_nat (byte_val szb)) f)) as (f' & -> & Hf').
    { rewrite length_drop. lia. }
    eexists; split; [done|]. rewrite length_drop in Hf'. simpl. lia.
Qed.

Lemma copy_sub_blocks_fuel fuel : ∀ f out,
  (length f < fuel)%nat →
  ∃ f' out', copy_sub_blocks fuel f out = Some (f', out') ∧
             (length f' <= length f)%nat.
Proof.
  induction fuel as [|fuel IH]; intros f out Hlen; [lia|]. simpl.
  destruct f as [|szb f]; [by eexists _, _|]. simpl in Hlen.
  destruct (byte_val szb =? 0).
  - eexists _, _; split; [done|]. simpl. lia.
  - destruct (IH (drop (Z.to_nat (byte_val szb)) f)
                 ((out ++ [szb]) ++ take (Z.to_nat (byte_val szb)) f))
      as (f' & out' & -> & Hf').
    { rewrite length_drop. lia. }
    eexists _, _; split; [done|]. rewrite length_drop in Hf'. simpl. lia.
Qed.

Lemma gif_loop_fuel fuel : ∀ f out changed,
  (length f < fuel)%nat → (clean_loop fuel f out changed).2 ≠ Diverge.
Proof.
  induction fuel as [|fuel IH]; intros f out changed Hlen; [lia|]. simpl.
  destruct f as [|b f]; [done|]. simpl in Hlen.
  destruct (bool_decide (b = x3b)); [done|].
  destruct (bool_decide (b = x2c)).
  - destruct (take 1 (drop 9 f)) as [|p ?] eqn:Hp; [done|].
    match goal with
    | |- context [copy_sub_blocks fuel ?g ?o] =>
        destruct (copy_sub_blocks_fuel fuel g o) as (f' & out' & -> & Hf');
          [|apply IH; revert Hf']
    end;
    destruct (0 <? color_table_size p)%nat; rewrite ?length_drop; lia.
  - destruct (bool_decide (b = x21)); [|done].
    destruct f as [|label f]; [done|]. simpl in Hlen.
    destruct (bool_decide (label = xfe)).
    + destruct (skip_sub_blocks_fuel fuel f) as (f' & -> & Hf'); [lia|].
      apply IH. lia.
    + match goal with
      | |- context [copy_sub_blocks fuel f ?o] =>
          destruct (copy_sub_blocks_fuel fuel f o) as (f' & out' & -> & Hf');
            [lia|]
      end.
      apply IH. lia.
Qed.

(** *** The block structure *)

(** The data sub-blocks at the head of [f], each a size byte and that many
    bytes, up to and including the terminator of size 0 (or up to the end of
    the file), and what follows them. *)
Fixpoint sub_blocks (fuel : nat) (f : bytes) : option (bytes * bytes) :=
  match fuel with
  | O => None
  | S fuel =>
      match f with
      | [] => Some ([], [])
      | szb :: f1 =>
          if byte_val szb =? 0 then Some ([szb], f1)
          else
            let sz := Z.to_nat (byte_val szb) in
            match sub_blocks fuel (drop sz f1) with
            | Some (sb, rest) => Some (szb :: take sz f1 ++ sb, rest)
            | None => None
            end
      end
  end.

Inductive block :=
| Trailer (bs : bytes)     (* 3B *)
| Image (bs : bytes)       (* 2C, nine bytes, the packed byte, the local colour
                              table, the LZW code size, the data sub-blocks *)
| Comment (bs : bytes)     (* 21 FE and its sub-blocks *)
| Extension (bs : bytes).  (* 21, another label, and its sub-blocks *)

Definition block_bytes (b : block) : bytes :=
  match b with Trailer bs | Image bs | Comment bs | Extension bs => bs end.

Definition is_comment (b : block) : bool :=
  match b with Comment _ => true | _ => false end.

(** How the walk over the blocks ends. *)
Inductive ending :=
| AtEnd       (* trailer, end of file, or a byte that starts no block *)
| CutShort    (* an image descriptor that ends before its packed byte *)
| NoFuel.

(** The blocks after the header, the screen descriptor and the global
    colour table, in file order. *)
Fixpoint blocks (fuel : nat) (f : bytes) : list block * ending :=
  match fuel with
  | O => ([], NoFuel)
  | S fuel =>
      match f with
      | [] => ([], AtEnd)
      | b :: f =>
          if bool_decide (b = x3b) then ([Trailer [b]], AtEnd)
          else if bool_decide (b = x2c) then
            match drop 9 f with
            | [] => ([], CutShort)
            | p :: f2 =>
                let lct := color_table_size p in
                match sub_blocks fuel (drop 1 (drop lct f2)) with
                | None => ([], NoFuel)
                | Some (sb, rest) =>
                    let '(bs, e) := blocks fuel rest in
                    (Image (b :: take 9 f ++ [p] ++ take lct f2
                              ++ take 1 (drop lct f2) ++ sb) :: bs, e)
                end
            end
          else if bool_decide (b = x21) then
            match f with
            | [] => ([], AtEnd)
            | label :: f =>
                match sub_blocks fuel f with
                | None => ([], NoFuel)
                | Some (sb, rest) =>
                    let '(bs, e) := blocks fuel rest in
                    ((if bool_decide (label = xfe) then Comment else Extension)
                       (b :: label :: sb) :: bs, e)
                end
            end
          else ([], AtEnd)
      end
  end.

(** The length of what precedes the blocks: header, logical screen
    descriptor and global colour table; [None] when the first two are not
    there. *)
Definition head_size (data : bytes) : option nat :=
  if negb (bool_decide (take 6 data ∈ [lit "GIF87a"; lit "GIF89a"])) then None
  else if (length (take 7 (drop 6 data)) <? 7)%nat then None
  else
    packed ← data !! 10%nat;
    Some (13 + color_table_size packed)%nat.

Definition parse (data : bytes) : list block * ending :=
  match head_size data with
  | Some n => blocks (S (length data)) (drop n data)
  | None => ([], AtEnd)
  end.

Definition kept (bs : list block) : list block :=
  filter (λ b, is_comment b = false) bs.

Definition ending_ctl (e : ending) (changed : bool) : ctl :=
  match e with
  | AtEnd => Done changed
  | CutShort => Raised IndexError
  | NoFuel => Diverge
  end.

Lemma kept_blocks_cons b bs :
  kept (b :: bs) = if is_comment b then kept bs else b :: kept bs.
Proof.
  unfold kept. rewrite filter_cons.
  destruct (is_comment b); by case_decide.
Qed.

Lemma kept_blocks_kept bs : kept (kept bs) = kept bs.
Proof. unfold kept. by apply list_filter_filter_l. Qed.

Lemma kept_no_comment bs : existsb is_comment (kept bs) = false.
Proof.
  induction bs as [|b bs IH]; [done|]. rewrite kept_blocks_cons.
  destruct (is_comment b) eqn:Hb; [done|]. simpl. by rewrite Hb.
Qed.

(** *** The loops of the code against the block structure *)

Lemma copy_sub_blocks_spec fuel : ∀ f out,
  copy_sub_blocks fuel f out =
  match sub_blocks fuel f with
  | Some (sb, rest) => Some (rest, out ++ sb)
  | None => None
  end.
Proof.
  induction fuel as [|fuel IH]; intros f out; [done|]. simpl.
  destruct f as [|szb f1]; [by rewrite app_nil_r|].
  destruct (byte_val szb =? 0); [done|].
  rewrite IH. destruct (sub_blocks fuel _) as [[sb rest]|]; [|done].
  by rewrite <- !app_assoc.
Qed.

Lemma skip_sub_blocks_spec fuel : ∀ f,
  skip_sub_blocks fuel f = snd <$> sub_blocks fuel f.
Proof.
  induction fuel as [|fuel IH]; intros f; [done|]. simpl.
  destruct f as [|szb f1]; [done|].
  destruct (byte_val szb =? 0); [done|].
  rewrite IH. by destruct (sub_blocks fuel _) as [[sb rest]|].
Qed.

Lemma sub_blocks_fuel fuel : ∀ f,
  (length f < fuel)%nat →
  ∃ sb rest, sub_blocks fuel f = Some (sb, rest) ∧ f = sb ++ rest.
Proof.
  induction fuel as [|fuel IH]; intros f Hlen; [lia|]. simpl.
  destruct f as [|szb f1]; [by exists [], []|]. simpl in Hlen.
  destruct (byte_val szb =? 0); [by exists [szb], f1|].
  destruct (IH (drop (Z.to_nat (byte_val szb)) f1)) as (sb & rest & -> & Heq).
  { rewrite length_drop. lia. }
  eexists _, _. split; [done|]. simpl. f_equal.
  rewrite <- app_assoc, <- Heq. by rewrite take_drop.
Qed.

Lemma sub_blocks_app fuel : ∀ f sb rest,
  sub_blocks fuel f = Some (sb, rest) → f = sb ++ rest.
Proof.
  induction fuel as [|fuel IH]; intros f sb rest; [done|]. simpl.
  destruct f as [|szb f1]; [by intros [= <- <-]|].
  destruct (byte_val szb =? 0); [by intros [= <- <-]|].
  destruct (sub_blocks fuel _) as [[sb' rest']|] eqn:Hsb; [|done].
  intros [= <- <-]. apply IH in Hsb. simpl. f_equal.
  rewrite <- app_assoc, <- Hsb. by rewrite take_drop.
Qed.

Lemma sub_blocks_S fuel f :
  sub_blocks (S fuel) f =
  match f with
  | [] => Some ([], [])
  | szb :: f1 =>
      if byte_val szb =? 0 then Some ([szb], f1)
      else
        match sub_blocks fuel (drop (Z.to_nat (byte_val szb)) f1) with
        | Some (sb, rest) => Some (szb :: take (Z.to_nat (byte_val szb)) f1 ++ sb, rest)
        | None => None
        end
  end.
Proof. done. Qed.

Lemma sub_blocks_nil fuel sb rest :
  sub_blocks fuel [] = Some (sb, rest) → sb = [] ∧ rest = [].
Proof. destruct fuel; [done|]. simpl. by intros [= <- <-]. Qed.

Lemma if_take {A} (n : nat) (out f : list A) :
  (if (0 <? n)%nat then out ++ take n f else out) = out ++ take n f.
Proof. destruct n; [|done]. simpl. by rewrite app_nil_r. Qed.

Lemma if_drop {A} (n : nat) (f : list A) :
  (if (0 <? n)%nat then drop n f else f) = drop n f.
Proof. by destruct n. Qed.

#[local] Arguments color_table_size : simpl never.
#[local] Arguments sub_blocks : simpl never.
#[local] Arguments copy_sub_blocks : simpl never.
#[local] Arguments skip_sub_blocks : simpl never.
#[local] Arguments kept : simpl never.

Ltac app_norm := repeat (progress (rewrite <- ?app_assoc; cbn [app])).

(** The block loop of [_clean_gif] walks exactly these blocks and writes the
    ones that are not comments. *)
Lemma clean_loop_blocks fuel : ∀ f out changed,
  (clean_loop fuel f out changed).2
  = ending_ctl (blocks fuel f).2 (changed || existsb is_comment (blocks fuel f).1) ∧
  ((blocks fuel f).2 = AtEnd →
   (clean_loop fuel f out changed).1
   = out ++ concat (block_bytes <$> kept (blocks fuel f).1)).
Proof.
  induction fuel as [|fuel IH]; intros f out changed; [done|]. simpl.
  destruct f as [|b f]; simpl.
  { by rewrite app_nil_r, orb_false_r. }
  destruct (bool_decide (b = x3b)); simpl.
  { by rewrite orb_false_r. }
  destruct (bool_decide (b = x2c)).
  - destruct (drop 9 f) as [|p f2] eqn:Hd9; simpl; [done|].
    rewrite ?take_0, ?drop_0, if_take, if_drop, copy_sub_blocks_spec.
    destruct (sub_blocks fuel (drop 1 (drop (color_table_size p) f2)))
      as [[sb rest]|]; [|done].
    destruct (IH rest
      ((((((out ++ [b]) ++ take 9 f) ++ [p]) ++ take (color_table_size p) f2)
          ++ take 1 (drop (color_table_size p) f2)) ++ sb) changed) as [IH1 IH2].
    destruct (blocks fuel rest) as [bs e]. cbn [fst snd] in *.
    split; [done|]. intros He. rewrite (IH2 He), kept_blocks_cons.
    cbn [is_comment]. rewrite fmap_cons. cbn [concat block_bytes].
    by app_norm.
  - destruct (bool_decide (b = x21)); [|simpl; by rewrite app_nil_r, orb_false_r].
    destruct f as [|label f]; simpl.
    { by rewrite app_nil_r, orb_false_r. }
    destruct (bool_decide (label = xfe)).
    + rewrite skip_sub_blocks_spec.
      destruct (sub_blocks fuel f) as [[sb rest]|]; [|done]. cbn [fmap option_fmap option_map snd].
      destruct (IH rest out true) as [IH1 IH2].
      destruct (blocks fuel rest) as [bs e]. cbn [fst snd existsb is_comment] in *.
      split; [by rewrite orb_true_r|]. intros He. by rewrite (IH2 He), kept_blocks_cons.
    + rewrite copy_sub_blocks_spec.
      destruct (sub_blocks fuel f) as [[sb rest]|]; [|done].
      destruct (IH rest ((out ++ [b; label]) ++ sb) changed) as [IH1 IH2].
      destruct (blocks fuel rest) as [bs e]. cbn [fst snd existsb is_comment] in *.
      split; [done|]. intros He. rewrite (IH2 He), kept_blocks_cons.
      cbn [is_comment]. rewrite fmap_cons. cbn [concat block_bytes].
      by app_norm.
Qed.

Lemma blocks_fuel fuel f : (length f < fuel)%nat → (blocks fuel f).2 ≠ NoFuel.
Proof.
  intros Hlen He. pose proof (gif_loop_fuel fuel f [] false Hlen) as Hd.
  destruct (clean_loop_blocks fuel f [] false) as [Hc _].
  rewrite Hc, He in Hd. done.
Qed.

(** The blocks lie side by side from the end of the colour table on. *)
Lemma blocks_tile fuel : ∀ f,
  concat (block_bytes <$> (blocks fuel f).1) `prefix_of` f.
Proof.
  induction fuel as [|fuel IH]; intros f; [apply prefix_nil|]. simpl.
  destruct f as [|b f]; [apply prefix_nil|].
  destruct (bool_decide (b = x3b)); [by exists f|].
  destruct (bool_decide (b = x2c)).
  - destruct (drop 9 f) as [|p f2] eqn:Hd9; [apply prefix_nil|].
    destruct (sub_blocks fuel _) as [[sb rest]|] eqn:Hsb; [|apply prefix_nil].
    destruct (IH rest) as [tail Htail]. destruct (blocks fuel rest) as [bs e].
    cbn [fst] in *. exists tail. rewrite fmap_cons. cbn [concat block_bytes].
    apply sub_blocks_app in Hsb. app_norm. f_equal.
    rewrite <- Htail, <- Hsb, !take_drop.
    rewrite <- Hd9. by rewrite take_drop.
  - destruct (bool_decide (b = x21)); [|apply prefix_nil].
    destruct f as [|label f]; [apply prefix_nil|].
    destruct (sub_blocks fuel f) as [[sb rest]|] eqn:Hsb; [|apply prefix_nil].
    destruct (IH rest) as [tail Htail]. destruct (blocks fuel rest) as [bs e].
    cbn [fst] in *. exists tail. rewrite fmap_cons.
    apply sub_blocks_app in Hsb.
    destruct (bool_decide (label = xfe)); cbn [concat block_bytes]; app_norm;
      do 2 f_equal; by rewrite <- Htail.
Qed.

#[local] Arguments clean_loop : simpl never.

(** [_clean_gif]'s preamble in terms of [head_size]. *)
Lemma clean_stream_head data :
  clean_stream data =
  match head_size data with
  | Some n => Some (clean_loop (S (length data)) (drop n data) (take n data) false)
  | None => None
  end.
Proof.
  unfold clean_stream, head_size. cbn zeta.
  destruct (negb (bool_decide _)); [done|].
  destruct (Nat.ltb_spec (length (take 7 (drop 6 data))) 7) as [?|Hlsd]; [done|].
  rewrite lookup_take by lia. rewrite lookup_drop. simpl.
  destruct (data !! 10%nat) as [packed|]; [|done]. simpl.
  rewrite if_take, if_drop. do 2 f_equal.
  - rewrite !drop_drop. f_equal.
  - by rewrite take_take_drop, drop_drop, take_take_drop.
Qed.

(** For every input with a GIF header and a complete logical screen
    descriptor: the blocks that the walk finds lie side by side after the
    global colour table; the walk ends; the cleaner raises [IndexError] when
    an image descriptor is cut off before its packed byte; otherwise it
    writes the preamble and, in order and byte for byte, exactly the blocks
    found that are not comment extensions, and returns whether a comment
    extension was found. *)
Theorem clean_gif_drops_exactly_comments (data : bytes) (n : nat) :
  head_size data = Some n →
  take n data ++ concat (block_bytes <$> (parse data).1) `prefix_of` data ∧
  (parse data).2 ≠ NoFuel ∧
  ∃ out,
    clean_stream data
    = Some (out, ending_ctl (parse data).2 (existsb is_comment (parse data).1)) ∧
    ((parse data).2 = AtEnd →
     out = take n data ++ concat (block_bytes <$> kept (parse data).1)).
Proof.
  intros Hhead. rewrite clean_stream_head. unfold parse. rewrite Hhead.
  destruct (clean_loop_blocks (S (length data)) (drop n data) (take n data) false)
    as [Hctl Hout].
  split; [|split].
  - destruct (blocks_tile (S (length data)) (drop n data)) as [tail Htail].
    exists tail. rewrite <- app_assoc, <- Htail. by rewrite take_drop.
  - apply blocks_fuel. rewrite length_drop. lia.
  - eexists. split; [|exact Hout]. cbn [orb] in Hctl. rewrite <- Hctl.
    by destruct (clean_loop _ _ _ _).
Qed.

(** *** Detection *)

(** The block loop of [_detect_gif_comments]; [None] is the fuel run out. *)
Fixpoint detect_loop (fuel : nat) (f : bytes) (comments : nat) : option nat :=
  match fuel with
  | O => None
  | S fuel =>
      match f with
      | [] => Some comments
      | b :: f =>
          if bool_decide (b = x3b) then Some comments
          else if bool_decide (b = x2c) then
            let f := drop 9 f in
            let packed := take 1 f in
            let f := drop 1 f in
            match packed with
            | [] => Some comments
            | p :: _ =>
                let f := drop (color_table_size p) f in
                let f := drop 1 f in
                match skip_sub_blocks fuel f with
                | None => None
                | Some f => detect_loop fuel f comments
                end
            end
          else if bool_decide (b = x21) then
            match f with
            | [] => Some comments
            | label :: f =>
                if bool_decide (label = xfe) then
                  match skip_sub_blocks fuel f with
                  | None => None
                  | Some f => detect_loop fuel f (S comments)
                  end
                else
                  match skip_sub_blocks fuel f with
                  | None => None
                  | Some f => detect_loop fuel f comments
                  end
            end
          else Some comments
      end
  end.

(** [_detect_gif_comments(path)] on a file with these bytes. *)
Definition _detect_gif_comments (data : bytes) : option nat :=
  let hdr := take 6 data in
  let f := drop 6 data in
  if negb (bool_decide (hdr ∈ [lit "GIF87a"; lit "GIF89a"])) then Some 0%nat
  else
    let lsd := take 7 f in
    let f := drop 7 f in
    if (length lsd <? 7)%nat then Some 0%nat
    else
      match lsd !! 4%nat with
      | None => Some 0%nat
      | Some packed =>
          let f := drop (color_table_size packed) f in
          detect_loop (S (length data)) f 0
      end.

(** What [_clean_gif] returns, or raises. *)
Definition clean_result (data : bytes) : ctl :=
  match clean_stream data with
  | Some (_, c) => c
  | None => Done false
  end.

(** The count is that of the comment extensions that the walk finds. *)
Lemma detect_loop_blocks fuel : ∀ f comments,
  (blocks fuel f).2 ≠ NoFuel →
  detect_loop fuel f comments
  = Some (comments + length (filter (λ b, is_comment b = true) (blocks fuel f).1))%nat.
Proof.
  induction fuel as [|fuel IH]; intros f comments; [done|]. simpl.
  destruct f as [|b f]; [by rewrite Nat.add_0_r|].
  destruct (bool_decide (b = x3b)); [by rewrite Nat.add_0_r|].
  destruct (bool_decide (b = x2c)).
  - destruct (drop 9 f) as [|p f2] eqn:Hd9; simpl; [by rewrite Nat.add_0_r|].
    rewrite drop_0, skip_sub_blocks_spec.
    destruct (sub_blocks fuel _) as [[sb rest]|]; [|done]. simpl.
    specialize (IH rest comments). destruct (blocks fuel rest) as [bs e].
    cbn [fst snd] in *. intros He. rewrite IH by done. by rewrite count_cons.
  - destruct (bool_decide (b = x21)); [|by rewrite Nat.add_0_r].
    destruct f as [|label f]; [by rewrite Nat.add_0_r|].
    rewrite skip_sub_blocks_spec.
    destruct (sub_blocks fuel f) as [[sb rest]|]; [|by destruct (bool_decide _)].
    simpl.
    pose proof (IH rest comments) as IH0. pose proof (IH rest (S comments)) as IH1.
    destruct (blocks fuel rest) as [bs e]. cbn [fst snd] in *. intros He.
    rewrite count_cons.
    destruct (bool_decide (label = xfe)); [rewrite IH1 by done|rewrite IH0 by done];
      simpl; f_equal; lia.
Qed.

Lemma gif_detect_agrees (data : bytes) :
  ∃ comments,
    _detect_gif_comments data = Some comments ∧
    comments = length (filter (λ b, is_comment b = true) (parse data).1) ∧
    (clean_result data = Done (0 <? comments)%nat ∨
     (parse data).2 = CutShort ∧ clean_result data = Raised IndexError).
Proof.
  unfold clean_result, parse. rewrite clean_stream_head.
  assert (_detect_gif_comments data =
          match head_size data with
          | Some n => detect_loop (S (length data)) (drop n data) 0
          | None => Some 0%nat
          end) as ->.
  { unfold _detect_gif_comments, head_size. cbn zeta.
    destruct (negb (bool_decide _)); [done|].
    destruct (Nat.ltb_spec (length (take 7 (drop 6 data))) 7) as [?|Hlsd]; [done|].
    rewrite lookup_take by lia. rewrite lookup_drop. simpl.
    destruct (data !! 10%nat) as [packed|]; [|done]. simpl.
    by rewrite !drop_drop. }
  destruct (head_size data) as [n|]; [|exists 0%nat; by auto].
  pose proof (blocks_fuel (S (length data)) (drop n data)) as Hfuel.
  destruct (clean_loop_blocks (S (length data)) (drop n data) (take n data) false)
    as [Hctl _].
  rewrite detect_loop_blocks by (apply Hfuel; rewrite length_drop; lia).
  eexists. split; [done|]. split; [done|].
  destruct (clean_loop _ _ _ _) as [out c]. cbn [fst snd orb] in *. subst c.
  destruct (blocks (S (length data)) (drop n data)) as [bs e]. cbn [fst snd] in *.
  destruct e; simpl.
  - left. by rewrite existsb_length.
  - by right.
  - exfalso. apply Hfuel; [rewrite length_drop; lia|done].
Qed.

(** Detection and cleaning agree on every input on which the cleaner does
    not raise: [_detect_gif_comments] ends with the number of comment
    extensions that the walk finds, and [_clean_gif] returns [True] exactly
    when that number is not zero.  An image descriptor cut off before its
    packed byte ends detection and makes the cleaner raise [IndexError]. *)
Theorem detect_gif_agrees_with_clean (data : bytes) :
  ∃ comments,
    _detect_gif_comments data = Some comments ∧
    comments = length (filter (λ b, is_comment b = true) (parse data).1) ∧
    (clean_result data = Done (0 <? comments)%nat ∨
     (parse data).2 = CutShort ∧ clean_result data = Raised IndexError).
Proof. exact (gif_detect_agrees data). Qed.

(** *** Content hash *)

(** The block loop of [_hash_gif_no_comments]: [fed] is what the hash has
    been fed.  Its two inner loops over the data sub-blocks are the body of
    [_copy_sub_blocks] with [h.update] in place of [out.write]. *)
Fixpoint hash_loop (fuel : nat) (f fed : bytes) : option bytes :=
  match fuel with
  | O => None
  | S fuel =>
      match f with
      | [] => Some fed
      | b :: f =>
          if bool_decide (b = x3b) then Some (fed ++ [b])
          else if bool_decide (b = x2c) then
            let fed := fed ++ [b] in
            let fed := fed ++ take 9 f in
            let f := drop 9 f in
            let packed2 := take 1 f in
            let f := drop 1 f in
            match packed2 with
            | [] => Some fed
            | p :: _ =>
                let fed := fed ++ packed2 in
                let lct_size := color_table_size p in
                let fed := if (0 <? lct_size)%nat then fed ++ take lct_size f else fed in
                let f := if (0 <? lct_size)%nat then drop lct_size f else f in
                let mcs := take 1 f in
                let f := drop 1 f in
                match mcs with
                | [] => Some fed
                | _ :: _ =>
                    let fed := fed ++ mcs in
                    match copy_sub_blocks fuel f fed with
                    | None => None
                    | Some (f, fed) => hash_loop fuel f fed
                    end
                end
            end
          else if bool_decide (b = x21) then
            match f with
            | [] => Some fed
            | label :: f =>
                if bool_decide (label = xfe) then
                  match skip_sub_blocks fuel f with
                  | None => None
                  | Some f => hash_loop fuel f fed
                  end
                else
                  match copy_sub_blocks fuel f (fed ++ [b] ++ [label]) with
                  | None => None
                  | Some (f, fed) => hash_loop fuel f fed
                  end
            end
          else Some fed
      end
  end.

(** [_hash_gif_no_comments(path)] on a file with these bytes: what is
    hashed. *)
Definition _hash_gif_no_comments (data : bytes) : option bytes :=
  let hdr := take 6 data in
  let f := drop 6 data in
  if negb (bool_decide (hdr ∈ [lit "GIF87a"; lit "GIF89a"])) then _hash_file data
  else
    let fed := hdr in
    let lsd := take 7 f in
    let f := drop 7 f in
    if (length lsd <? 7)%nat then _hash_file data
    else
      let fed := fed ++ lsd in
      match lsd !! 4%nat with
      | None => _hash_file data
      | Some packed =>
          let gct_size := color_table_size packed in
          let fed := if (0 <? gct_size)%nat then fed ++ take gct_size f else fed in
          let f := if (0 <? gct_size)%nat then drop gct_size f else f in
          hash_loop (S (length data)) f fed
      end.

Lemma blocks_nil fuel : (blocks fuel []).1 = [].
Proof. by destruct fuel. Qed.

(** Where the walk ends without an error, the hash is fed what the cleaner
    writes. *)
Lemma hash_loop_blocks fuel : ∀ f fed,
  (blocks fuel f).2 = AtEnd →
  hash_loop fuel f fed = Some (fed ++ concat (block_bytes <$> kept (blocks fuel f).1)).
Proof.
  induction fuel as [|fuel IH]; intros f fed; [done|]. simpl.
  destruct f as [|b f]; [by rewrite app_nil_r|].
  destruct (bool_decide (b = x3b)); [done|].
  destruct (bool_decide (b = x2c)).
  - destruct (drop 9 f) as [|p f2] eqn:Hd9; simpl; [done|].
    rewrite drop_0, if_take, if_drop.
    destruct (sub_blocks fuel (drop 1 (drop (color_table_size p) f2)))
      as [[sb rest]|] eqn:Hsb; [|done].
    specialize (IH rest). destruct (blocks fuel rest) as [bs e] eqn:Hbs.
    cbn [fst snd] in *. intros He. rewrite kept_blocks_cons. cbn [is_comment].
    rewrite fmap_cons. cbn [concat block_bytes].
    destruct (drop (color_table_size p) f2) as [|m f3] eqn:Hmcs.
    + simpl in Hsb. apply sub_blocks_nil in Hsb as [-> ->].
      pose proof (blocks_nil fuel) as Hnil. rewrite Hbs in Hnil. simpl in Hnil.
      subst bs. rewrite take_0. simpl. app_norm. by rewrite ?app_nil_r.
    + rewrite take_0. simpl take. simpl drop. rewrite drop_0, copy_sub_blocks_spec.
      simpl in Hsb. rewrite drop_0 in Hsb. rewrite Hsb.
      rewrite IH by done. by app_norm.
  - destruct (bool_decide (b = x21)); [|by rewrite app_nil_r].
    destruct f as [|label f]; [by rewrite app_nil_r|].
    rewrite skip_sub_blocks_spec, copy_sub_blocks_spec.
    destruct (sub_blocks fuel f) as [[sb rest]|]; [|by destruct (bool_decide _)].
    specialize (IH rest). destruct (blocks fuel rest) as [bs e].
    cbn [fst snd] in *. intros He. rewrite kept_blocks_cons.
    destruct (bool_decide (label = xfe)); cbn [is_comment fmap option_fmap option_map snd].
    + by apply IH.
    + rewrite IH by done. rewrite fmap_cons. cbn [concat block_bytes]. by app_norm.
Qed.

(** The hash loop takes a byte or more per turn: the fuel does not run
    out. *)
Lemma gif_hash_loop_fuel fuel : ∀ f fed,
  (length f < fuel)%nat → is_Some (hash_loop fuel f fed).
Proof.
  induction fuel as [|fuel IH]; intros f fed Hlen; [lia|]. simpl.
  destruct f as [|b f]; [done|]. simpl in Hlen.
  destruct (bool_decide (b = x3b)); [done|].
  destruct (bool_decide (b = x2c)).
  - destruct (drop 9 f) as [|p f2] eqn:Hd9; simpl; [done|].
    rewrite drop_0, if_take, if_drop.
    assert (length f2 < length f)%nat as Hf2.
    { apply (f_equal length) in Hd9. rewrite length_drop in Hd9. simpl in Hd9. lia. }
    destruct (drop (color_table_size p) f2) as [|m f3] eqn:Hmcs; simpl; [done|].
    rewrite drop_0.
    assert (length f3 < length f2)%nat as Hf3.
    { apply (f_equal length) in Hmcs. rewrite length_drop in Hmcs. simpl in Hmcs. lia. }
    match goal with
    | |- context [copy_sub_blocks fuel ?a ?o] =>
        destruct (copy_sub_blocks_fuel fuel a o) as (f' & out' & -> & Hf'); [lia|]
    end.
    apply IH. lia.
  - destruct (bool_decide (b = x21)); [|done].
    destruct f as [|label f]; [done|]. simpl in Hlen.
    destruct (bool_decide (label = xfe)).
    + destruct (skip_sub_blocks_fuel fuel f) as (f' & -> & Hf'); [lia|].
      apply IH. lia.
    + match goal with
      | |- context [copy_sub_blocks fuel ?a ?o] =>
          destruct (copy_sub_blocks_fuel fuel a o) as (f' & out' & -> & Hf'); [lia|]
      end.
      apply IH. lia.
Qed.

#[local] Arguments hash_loop : simpl never.

Lemma hash_gif_head data :
  _hash_gif_no_comments data =
  match head_size data with
  | Some n => hash_loop (S (length data)) (drop n data) (take n data)
  | None => _hash_file data
  end.
Proof.
  unfold _hash_gif_no_comments, head_size. cbn zeta.
  destruct (negb (bool_decide _)); [done|].
  destruct (Nat.ltb_spec (length (take 7 (drop 6 data))) 7) as [?|Hlsd]; [done|].
  rewrite lookup_take by lia. rewrite lookup_drop. simpl.
  destruct (data !! 10%nat) as [packed|]; simpl; [|done].
  rewrite if_take, if_drop. f_equal.
  - by rewrite !drop_drop.
  - by rewrite take_take_drop, drop_drop, take_take_drop.
Qed.

(** The content hash of a GIF that the cleaner gets through is the hash of
    the bytes that the cleaner writes. *)
Lemma hash_gif_cleaned (data out : bytes) (changed : bool) :
  clean_stream data = Some (out, Done changed) →
  _hash_gif_no_comments data = Some out.
Proof.
  rewrite clean_stream_head, hash_gif_head.
  destruct (head_size data) as [n|]; [|done].
  destruct (clean_loop_blocks (S (length data)) (drop n data) (take n data) false)
    as [Hctl Hout].
  intros [= Hrun]. rewrite Hrun in *. cbn [fst snd] in *.
  assert ((blocks (S (length data)) (drop n data)).2 = AtEnd) as He.
  { by destruct (blocks _ _).2. }
  rewrite hash_loop_blocks, (Hout He) by done. done.
Qed.

(** *** Cleaning a cleaned stream *)

(** Sub-blocks read back from their own bytes, followed by [R]: where they
    ran into the end of the file, nothing follows. *)
Lemma sub_blocks_back fuel : ∀ f sb rest,
  sub_blocks fuel f = Some (sb, rest) →
  ∀ fuel' R, (rest = [] → R = []) → (length sb < fuel')%nat →
  sub_blocks fuel' (sb ++ R) = Some (sb, R).
Proof.
  induction fuel as [|fuel IH]; intros f sb rest; [done|]. rewrite sub_blocks_S.
  destruct f as [|szb f1].
  { intros [= <- <-] fuel' R HR Hlen. rewrite HR by done.
    destruct fuel'; [lia|done]. }
  destruct (byte_val szb =? 0) eqn:Hz.
  { intros [= <- <-] fuel' R HR Hlen. destruct fuel'; [simpl in Hlen; lia|].
    rewrite sub_blocks_S. simpl. by rewrite Hz. }
  set (sz := Z.to_nat (byte_val szb)).
  destruct (sub_blocks fuel (drop sz f1)) as [[sb' rest']|] eqn:Hsb; [|done].
  intros [= <- <-] fuel' R HR Hlen. destruct fuel'; [simpl in Hlen; lia|].
  rewrite sub_blocks_S. cbn [app]. rewrite Hz. fold sz.
  simpl in Hlen. rewrite length_app in Hlen. rewrite <- app_assoc.
  destruct (read_back sz f1 (sb' ++ R)) as [-> ->].
  { intros Hshort. apply take_short_drop in Hshort. rewrite Hshort in Hsb.
    apply sub_blocks_nil in Hsb as [-> ->]. by rewrite HR. }
  by rewrite (IH _ _ _ Hsb) by (done || lia).
Qed.

#[local] Arguments hash_loop : simpl never.

(** The walk over the blocks that were kept finds exactly these blocks. *)
Lemma blocks_kept fuel : ∀ f fuel',
  (blocks fuel f).2 = AtEnd →
  (length (concat (block_bytes <$> kept (blocks fuel f).1)) < fuel')%nat →
  blocks fuel' (concat (block_bytes <$> kept (blocks fuel f).1))
  = (kept (blocks fuel f).1, AtEnd).
Proof.
  induction fuel as [|fuel IH]; intros f fuel'; [done|].
  assert (∀ g, (blocks fuel g).2 = AtEnd → g = [] →
               concat (block_bytes <$> kept (blocks fuel g).1) = []) as Hnil.
  { intros g _ ->. by rewrite blocks_nil. }
  simpl. destruct f as [|b f].
  { intros _ Hlen. destruct fuel'; [unfold kept in Hlen; simpl in Hlen; lia|done]. }
  destruct (bool_decide (b = x3b)) eqn:H3b.
  { intros _ Hlen. destruct fuel'; [simpl in Hlen; lia|]. simpl. by rewrite H3b. }
  destruct (bool_decide (b = x2c)) eqn:H2c.
  - destruct (drop 9 f) as [|p f2] eqn:Hd9; [done|].
    set (lct := color_table_size p).
    destruct (sub_blocks fuel (drop 1 (drop lct f2))) as [[sb rest]|] eqn:Hsb; [|done].
    specialize (IH rest). specialize (Hnil rest).
    destruct (blocks fuel rest) as [bs e] eqn:Hbs. cbn [fst snd] in *.
    intros He. rewrite kept_blocks_cons. cbn [is_comment]. rewrite fmap_cons.
    cbn [concat block_bytes]. set (R := concat (block_bytes <$> kept bs)) in *.
    intros Hlen. destruct fuel'; [simpl in Hlen; lia|].
    simpl in Hlen. rewrite !length_app in Hlen. simpl in Hlen.
    rewrite !length_app in Hlen.
    assert (length (take 9 f) = 9%nat) as H9.
    { rewrite length_take. apply (f_equal length) in Hd9.
      rewrite length_drop in Hd9. simpl in Hd9. lia. }
    cbn [app blocks]. rewrite H3b, H2c. rewrite <- !app_assoc.
    rewrite (drop_app_length' (take 9 f)) by done. cbn [app]. fold lct.
    rewrite <- ?app_assoc.
    assert (rest = [] → R = []) as HR by (intros ->; by apply Hnil).
    destruct (read_back lct f2 (take 1 (drop lct f2) ++ sb ++ R)) as [Ht Hd].
    { intros Hshort. apply take_short_drop in Hshort. rewrite Hshort in *.
      simpl in Hsb. apply sub_blocks_nil in Hsb as [-> ->]. by rewrite HR. }
    rewrite Ht, Hd.
    destruct (read_back 1 (drop lct f2) (sb ++ R)) as [Ht1 Hd1].
    { intros Hshort. apply take_short_drop in Hshort. rewrite Hshort in *.
      apply sub_blocks_nil in Hsb as [-> ->]. by rewrite HR. }
    rewrite Ht1, Hd1.
    rewrite (sub_blocks_back _ _ _ _ Hsb) by (done || lia).
    rewrite IH by (done || lia).
    rewrite (take_app_length' (take 9 f)) by done. done.
  - destruct (bool_decide (b = x21)) eqn:H21.
    2:{ intros _ Hlen. destruct fuel'; [unfold kept in Hlen; simpl in Hlen; lia|done]. }
    destruct f as [|label f].
    { intros _ Hlen. destruct fuel'; [unfold kept in Hlen; simpl in Hlen; lia|done]. }
    destruct (sub_blocks fuel f) as [[sb rest]|] eqn:Hsb; [|done].
    specialize (IH rest). specialize (Hnil rest).
    destruct (blocks fuel rest) as [bs e] eqn:Hbs. cbn [fst snd] in *.
    intros He. rewrite kept_blocks_cons.
    destruct (bool_decide (label = xfe)) eqn:Hfe; cbn [is_comment].
    { by apply IH. }
    rewrite fmap_cons. cbn [concat block_bytes].
    set (R := concat (block_bytes <$> kept bs)) in *.
    intros Hlen. destruct fuel'; [simpl in Hlen; lia|].
    simpl in Hlen. rewrite !length_app in Hlen.
    cbn [app blocks]. rewrite H3b, H2c, H21, Hfe.
    assert (rest = [] → R = []) as HR by (intros ->; by apply Hnil).
    rewrite (sub_blocks_back _ _ _ _ Hsb) by (done || lia).
    rewrite IH by (done || lia). done.
Qed.

(** The preamble depends on the first thirteen bytes only. *)
Lemma head_size_ext d1 d2 : take 13 d1 = take 13 d2 → head_size d1 = head_size d2.
Proof.
  intros Heq. unfold head_size.
  assert (∀ d : bytes, take 6 d = take 6 (take 13 d)) as H6.
  { intros d. rewrite take_take. by f_equal. }
  assert (∀ d : bytes, take 7 (drop 6 d) = drop 6 (take 13 d)) as H7.
  { intros d. by rewrite take_drop_commute. }
  assert (∀ d : bytes, d !! 10%nat = take 13 d !! 10%nat) as H10.
  { intros d. by rewrite lookup_take by lia. }
  by rewrite (H6 d1), (H6 d2), (H7 d1), (H7 d2), (H10 d1), (H10 d2), Heq.
Qed.

Lemma head_size_length data n :
  head_size data = Some n → (13 <= n)%nat ∧ (13 <= length data)%nat.
Proof.
  unfold head_size. destruct (negb _); [done|].
  destruct (Nat.ltb_spec (length (take 7 (drop 6 data))) 7) as [?|Hlsd]; [done|].
  rewrite length_take, length_drop in Hlsd.
  destruct (data !! 10%nat); [|done]. simpl. intros [= <-]. lia.
Qed.

(** Cleaning the bytes that the cleaner wrote writes them again and reports
    no change. *)
Lemma clean_stream_twice data out changed :
  clean_stream data = Some (out, Done changed) →
  clean_stream out = Some (out, Done false).
Proof.
  rewrite !clean_stream_head.
  destruct (head_size data) as [n|] eqn:Hhead; [|done].
  destruct (head_size_length _ _ Hhead) as [Hn Hdata].
  destruct (clean_loop_blocks (S (length data)) (drop n data) (take n data) false)
    as [Hctl Hout].
  intros [= Hrun]. rewrite Hrun in *. cbn [fst snd] in *.
  pose proof (blocks_kept (S (length data)) (drop n data)) as Hkept.
  pose proof (blocks_nil (S (length data))) as Hnil.
  destruct (blocks (S (length data)) (drop n data)) as [bs e] eqn:Hbs.
  cbn [fst snd] in *.
  assert (e = AtEnd) as -> by (by destruct e).
  specialize (Hout eq_refl). subst out.
  set (R := concat (block_bytes <$> kept bs)) in *.
  destruct (read_back n data R) as [Ht Hd].
  { intros Hshort. apply take_short_drop in Hshort. rewrite Hshort in Hbs.
    rewrite Hbs in Hnil. simpl in Hnil. unfold R. by rewrite Hnil. }
  assert (head_size (take n data ++ R) = Some n) as ->.
  { rewrite <- Hhead. apply head_size_ext.
    rewrite take_app_le by (rewrite length_take; lia).
    rewrite take_take. f_equal. lia. }
  rewrite Ht, Hd.
  destruct (clean_loop_blocks (S (length (take n data ++ R))) R (take n data) false)
    as [Hctl' Hout'].
  rewrite Hkept in Hctl', Hout' by (done || rewrite length_app; lia).
  cbn [fst snd orb ending_ctl] in *.
  rewrite kept_blocks_kept in Hout'. rewrite kept_no_comment in Hctl'.
  specialize (Hout' eq_refl). fold R in Hout'.
  destruct (clean_loop (S (length (take n data ++ R))) R (take n data) false)
    as [out' c'].
  cbn [fst snd] in *. by subst.
Qed.

(** Cleaning a GIF a second time changes nothing: run on the bytes that it
    wrote, [_clean_gif] writes the same bytes and returns [False]. *)
Theorem clean_gif_twice (data out : bytes) (changed : bool) :
  clean_stream data = Some (out, Done changed) →
  clean_stream out = Some (out, Done false).
Proof. apply clean_stream_twice. Qed.

(** The content hash of a GIF that the cleaner gets through is the hash of
    the very bytes that the cleaner writes (the file without its comment
    extensions), and cleaning does not change it. *)
Theorem hash_gif_is_hash_of_cleaned (data out : bytes) (changed : bool) :
  clean_stream data = Some (out, Done changed) →
  _hash_gif_no_comments data = Some out ∧
  _hash_gif_no_comments out = _hash_gif_no_comments data.
Proof.
  intros Hrun. rewrite (hash_gif_cleaned _ _ _ Hrun). split; [done|].
  apply clean_stream_twice in Hrun. by rewrite (hash_gif_cleaned _ _ _ Hrun).
Qed.

(** A GIF with a comment extension before its image. *)
Definition sample : bytes :=
  lit "GIF89a" ++ [x01; x00; x01; x00; x00; x00; x00]
  ++ [x21; xfe; x02; x68; x69; x00]
  ++ [x2c; x00; x00; x00; x00; x01; x00; x01; x00; x00] ++ [x00; x02; x01; xaa; x00]
  ++ [x3b].

Definition sample_cleaned : bytes :=
  lit "GIF89a" ++ [x01; x00; x01; x00; x00; x00; x00]
  ++ [x2c; x00; x00; x00; x00; x01; x00; x01; x00; x00] ++ [x00; x02; x01; xaa; x00]
  ++ [x3b].

Lemma clean_gif_drops_exactly_comments_sample :
  head_size sample = Some 13%nat ∧
  take 13 sample ++ concat (block_bytes <$> (parse sample).1) `prefix_of` sample ∧
  (parse sample).2 ≠ NoFuel.
Proof.
  split; [reflexivity|].
  pose proof (clean_gif_drops_exactly_comments sample 13 eq_refl) as (H1 & H2 & _).
  split; [exact H1|exact H2].
Defined.

Lemma clean_gif_twice_sample :
  clean_stream sample = Some (sample_cleaned, Done true) ∧
  clean_stream sample_cleaned = Some (sample_cleaned, Done false).
Proof.
  split; [vm_compute; reflexivity|].
  apply (clean_gif_twice sample sample_cleaned true). vm_compute. reflexivity.
Defined.

Lemma hash_gif_is_hash_of_cleaned_sample :
  clean_stream sample = Some (sample_cleaned, Done true) ∧
  _hash_gif_no_comments sample = Some sample_cleaned ∧
  _hash_gif_no_comments sample_cleaned = _hash_gif_no_comments sample.
Proof.
  split; [vm_compute; reflexivity|].
  apply (hash_gif_is_hash_of_cleaned sample sample_cleaned true).
  vm_compute. reflexivity.
Defined.

(** [_hash_gif_no_comments] comes to an end on every file. *)
Lemma hash_gif_total (data : bytes) : is_Some (_hash_gif_no_comments data).
Proof.
  rewrite hash_gif_head. destruct (head_size data) as [n|].
  - apply gif_hash_loop_fuel. rewrite length_drop. lia.
  - by rewrite hash_file_all.
Qed.
(** The cleaned stream starts with the header and the screen descriptor
    of the file. *)
Lemma gif_stream_head (data out : bytes) (changed : bool) :
  clean_stream data = Some (out, Done changed) → take 13 out = take 13 data.
Proof.
  rewrite clean_stream_head.
  destruct (head_size data) as [n|] eqn:Hhead; [|done].
  destruct (head_size_length _ _ Hhead) as [Hn Hdata].
  destruct (clean_loop_blocks (S (length data)) (drop n data) (take n data) false)
    as [Hctl Hout].
  intros [= Hrun]. rewrite Hrun in *. cbn [fst snd] in *.
  destruct (blocks (S (length data)) (drop n data)) as [bs e].
  cbn [fst snd] in *.
  assert (e = AtEnd) as -> by (by destruct e).
  rewrite (Hout eq_refl).
  rewrite take_app_le by (rewrite length_take; lia).
  rewrite take_take. f_equal. lia.
Qed.

End Gif.

(** ** RTF *)

Module Rtf.

(** The text is the str that [_read_text_latin1] returns: latin-1 maps every
    byte to the character with the same code, so a str is again a list of
    bytes, one per character. *)

Definition BACKSLASH : byte := x5c.
Definition LBRACE : byte := x7b.
Definition RBRACE : byte := x7d.
Definition INFO : bytes := lit "\info".

(** One turn of the inner [while j < n and depth > 0] loop. *)
Definition scan_step (s : bytes) (j : nat) (depth : Z) : nat * Z :=
  match s !! j with
  | Some c =>
      if bool_decide (c = BACKSLASH) then ((j + 2)%nat, depth)
      else if bool_decide (c = LBRACE) then ((j + 1)%nat, depth + 1)
      else if bool_decide (c = RBRACE) then ((j + 1)%nat, depth - 1)
      else ((j + 1)%nat, depth)
  | None => (j, depth)
  end.

(** The inner loop: the value of [j] when it ends. *)
Fixpoint scan_group (fuel : nat) (s : bytes) (j : nat) (depth : Z) : option nat :=
  match fuel with
  | O => None
  | S fuel =>
      if (j <? length s)%nat && (0 <? depth)
      then let '(j', depth') := scan_step s j depth in scan_group fuel s j' depth'
      else Some j
  end.

(** [s[i] == '{' and s.startswith('\\info', i + 1)] *)
Definition at_info (s : bytes) (i : nat) : bool :=
  bool_decide (s !! i = Some LBRACE) && startswith INFO (drop (S i) s).

(** The state of the outer loop of [_rtf_strip_info]. *)
Record strip_state := StripState { pos : nat; out : bytes; changed : bool }.

(** One turn of the outer [while i < n] loop. *)
Definition strip_step (s : bytes) (st : strip_state) : option strip_state :=
  let i := pos st in
  if at_info s i then
    j ← scan_group (S (length s)) s (i + 1) 1;
    Some (StripState j (out st) true)
  else
    match s !! i, s !! S i with
    | Some c, Some d =>
        if bool_decide (c = BACKSLASH)
        then Some (StripState (i + 2) (out st ++ [c; d]) (changed st))
        else Some (StripState (i + 1) (out st ++ [c]) (changed st))
    | Some c, None => Some (StripState (i + 1) (out st ++ [c]) (changed st))
    | None, _ => None
    end.

Fixpoint strip_loop (fuel : nat) (s : bytes) (st : strip_state) : option (bytes * bool) :=
  match fuel with
  | O => None
  | S fuel =>
      if (pos st <? length s)%nat
      then st' ← strip_step s st; strip_loop fuel s st'
      else Some (out st, changed st)
  end.

(** [_rtf_strip_info(s)]; [None] stands for a loop that does not end. *)
Definition _rtf_strip_info (s : bytes) : option (bytes * bool) :=
  strip_loop (S (length s)) s (StripState 0 [] false).

(** The state of the outer loop of [_rtf_info_blocks]. *)
Record blocks_state := BlocksState { bpos : nat; blocks : list bytes }.

Definition slice (s : bytes) (i j : nat) : bytes := take (j - i) (drop i s).

Definition blocks_step (s : bytes) (st : blocks_state) : option blocks_state :=
  let i := bpos st in
  if at_info s i then
    j ← scan_group (S (length s)) s (i + 1) 1;
    Some (BlocksState j (blocks st ++ [slice s i j]))
  else Some (BlocksState (i + 1) (blocks st)).

Fixpoint blocks_loop (fuel : nat) (s : bytes) (st : blocks_state) : option (list bytes) :=
  match fuel with
  | O => None
  | S fuel =>
      if (bpos st <? length s)%nat
      then st' ← blocks_step s st; blocks_loop fuel s st'
      else Some (blocks st)
  end.

(** [_rtf_info_blocks(s)] *)
Definition _rtf_info_blocks (s : bytes) : option (list bytes) :=
  blocks_loop (S (length s)) s (BlocksState 0 []).

(** *** Text-mode file access *)

Definition CR : byte := x0d.
Definition LF : byte := x0a.

(** Reading through [open(path, 'r', encoding='latin-1')]: universal
    newlines turn CR LF and a lone CR into LF. *)
Fixpoint universal_newlines (data : bytes) : bytes :=
  match data with
  | [] => []
  | c :: rest =>
      if bool_decide (c = CR) then
        match rest with
        | d :: rest' =>
            if bool_decide (d = LF) then LF :: universal_newlines rest'
            else LF :: universal_newlines rest
        | [] => [LF]
        end
      else c :: universal_newlines rest
  end.

(** Writing through [open(tmp, 'w', encoding='latin-1', newline='\r\n')]:
    every LF of the str goes to disk as CR LF. *)
Definition write_crlf (text : bytes) : bytes :=
  text ≫= λ c, if bool_decide (c = LF) then [CR; LF] else [c].

(** [_clean_rtf] without the file system: the bytes that replace the file,
    or [None] when it returns [False] and leaves the file alone. *)
Definition clean_bytes (data : bytes) : option bytes :=
  match _rtf_strip_info (universal_newlines data) with
  | Some (stripped, true) => Some (write_crlf stripped)
  | _ => None
  end.

(** *** The group structure, as the specification words it *)

(** Section 4.8: with the depth counter at [depth], the number of characters
    up to the end of the group; a backslash takes the next character with it
    (a backslash that ends the text counts for two). *)
Fixpoint group_span (depth : Z) (l : bytes) : nat :=
  if 0 <? depth then
    match l with
    | [] => 0
    | c :: l' =>
        if bool_decide (c = BACKSLASH) then
          match l' with
          | [] => 2
          | _ :: l'' => 2 + group_span depth l''
          end
        else if bool_decide (c = LBRACE) then 1 + group_span (depth + 1) l'
        else if bool_decide (c = RBRACE) then 1 + group_span (depth - 1) l'
        else 1 + group_span depth l'
    end
  else 0.

Inductive piece :=
| Text (cs : bytes)        (* one character, or a backslash and its character *)
| InfoGroup (cs : bytes).   (* an opening brace, \info, and on to the group's end *)

Definition piece_bytes (p : piece) : bytes :=
  match p with Text cs => cs | InfoGroup cs => cs end.

Definition is_info (p : piece) : bool :=
  match p with InfoGroup _ => true | Text _ => false end.

(** The text cut into info groups and the characters between them. *)
Fixpoint pieces (fuel : nat) (l : bytes) : list piece :=
  match fuel with
  | O => []
  | S fuel =>
      match l with
      | [] => []
      | c :: l' =>
          if bool_decide (c = LBRACE) && startswith INFO l' then
            let k := group_span 1 l' in
            InfoGroup (c :: take k l') :: pieces fuel (drop k l')
          else if bool_decide (c = BACKSLASH) then
            match l' with
            | [] => [Text [c]]
            | d :: l'' => Text [c; d] :: pieces fuel l''
            end
          else Text [c] :: pieces fuel l'
      end
  end.

Definition text_pieces (ps : list piece) : list piece :=
  filter (λ p, is_info p = false) ps.


(** *** The index loops against the list reading *)

Lemma group_span_bound l : ∀ depth, (group_span depth l <= length l + 1)%nat.
Proof.
  induction l as [l IH] using (induction_ltof1 _ length); unfold ltof in IH.
  intros depth. destruct l as [|c l']; simpl.
  { destruct (0 <? depth); lia. }
  destruct (0 <? depth); [|lia].
  destruct (bool_decide (c = BACKSLASH)).
  - destruct l' as [|d l'']; simpl; [lia|].
    specialize (IH l''). simpl in IH. specialize (IH ltac:(lia) depth). lia.
  - assert (∀ d, (group_span d l' <= length l' + 1)%nat) as IH'.
    { intros d. apply IH. simpl. lia. }
    destruct (bool_decide (c = LBRACE)); [|destruct (bool_decide (c = RBRACE))];
      match goal with |- context [group_span ?d l'] => specialize (IH' d) end; lia.
Qed.

Lemma scan_group_span fuel : ∀ s j depth,
  (length s - j < fuel)%nat →
  scan_group fuel s j depth = Some (j + group_span depth (drop j s))%nat.
Proof.
  induction fuel as [|fuel IH]; intros s j depth Hfuel; [lia|]. simpl.
  destruct (Nat.ltb_spec j (length s)) as [Hj|Hj]; simpl.
  2:{ rewrite drop_ge by lia. f_equal. simpl. destruct (0 <? depth); lia. }
  destruct (lookup_lt_is_Some_2 s j Hj) as [c Hc].
  rewrite (drop_S _ _ _ Hc). simpl.
  destruct (0 <? depth) eqn:Hd; [|f_equal; lia].
  unfold scan_step. rewrite Hc.
  destruct (bool_decide (c = BACKSLASH)).
  - rewrite IH by lia. f_equal.
    destruct (drop (S j) s) as [|d l''] eqn:Hdrop.
    + assert (drop (j + 2) s = []) as ->.
      { replace (j + 2)%nat with (S j + 1)%nat by lia.
        by rewrite <- drop_drop, Hdrop. }
      simpl. destruct (0 <? depth); lia.
    + assert (drop (j + 2) s = l'') as ->.
      { replace (j + 2)%nat with (S j + 1)%nat by lia.
        by rewrite <- drop_drop, Hdrop. }
      lia.
  - replace (S j) with (j + 1)%nat by lia.
    destruct (bool_decide (c = LBRACE)); [|destruct (bool_decide (c = RBRACE))];
      rewrite IH by lia; f_equal; lia.
Qed.

Lemma at_info_drop s i c l' :
  drop i s = c :: l' →
  at_info s i = bool_decide (c = LBRACE) && startswith INFO l'.
Proof.
  intros Hdrop. unfold at_info.
  assert (s !! i = Some c) as Hc.
  { rewrite <- (Nat.add_0_r i), <- lookup_drop, Hdrop. done. }
  assert (drop (S i) s = l') as ->.
  { replace (S i) with (i + 1)%nat by lia. by rewrite <- drop_drop, Hdrop. }
  rewrite Hc. f_equal. apply bool_decide_ext. split; congruence.
Qed.

Lemma text_pieces_cons p ps :
  text_pieces (p :: ps) = if is_info p then text_pieces ps else p :: text_pieces ps.
Proof.
  unfold text_pieces. rewrite filter_cons.
  destruct (is_info p); by case_decide.
Qed.


Lemma pieces_S fuel c l' :
  pieces (S fuel) (c :: l') =
  if bool_decide (c = LBRACE) && startswith INFO l' then
    InfoGroup (c :: take (group_span 1 l') l') :: pieces fuel (drop (group_span 1 l') l')
  else if bool_decide (c = BACKSLASH) then
    match l' with
    | [] => [Text [c]]
    | d :: l'' => Text [c; d] :: pieces fuel l''
    end
  else Text [c] :: pieces fuel l'.
Proof. reflexivity. Qed.

Lemma pieces_nil fuel : pieces fuel [] = [].
Proof. by destruct fuel. Qed.

Lemma strip_loop_S fuel s st :
  strip_loop (S fuel) s st =
  if (pos st <? length s)%nat
  then st' ← strip_step s st; strip_loop fuel s st'
  else Some (out st, changed st).
Proof. reflexivity. Qed.

#[local] Arguments startswith : simpl never.
#[local] Arguments scan_group : simpl never.
#[local] Arguments pieces : simpl never.
#[local] Arguments strip_loop : simpl never.
#[local] Arguments group_span : simpl never.
#[local] Arguments text_pieces : simpl never.

Lemma pieces_tile fuel : ∀ l,
  (length l <= fuel)%nat → concat (piece_bytes <$> pieces fuel l) = l.
Proof.
  induction fuel as [|fuel IH]; intros l Hlen.
  { destruct l; [by rewrite pieces_nil|simpl in Hlen; lia]. }
  destruct l as [|c l']; [by rewrite pieces_nil|]. simpl in Hlen. rewrite pieces_S.
  destruct (bool_decide (c = LBRACE) && startswith INFO l'); simpl.
  - rewrite IH by (rewrite length_drop; lia). by rewrite take_drop.
  - destruct (bool_decide (c = BACKSLASH)).
    + destruct l' as [|d l'']; simpl in *; [done|]. rewrite IH by lia. done.
    + simpl. rewrite IH by lia. done.
Qed.


(** *** Line endings *)



(** *** The loop of the code against the pieces *)

Lemma strip_loop_pieces fuel : ∀ s st,
  (length s - pos st < fuel)%nat →
  strip_loop fuel s st =
  Some (out st ++ concat (piece_bytes <$> text_pieces (pieces fuel (drop (pos st) s))),
        changed st || existsb is_info (pieces fuel (drop (pos st) s))).
Proof.
  induction fuel as [|fuel IH]; intros s [i o ch] Hfuel; simpl in *; [lia|].
  rewrite strip_loop_S. simpl.
  destruct (Nat.ltb_spec i (length s)) as [Hi|Hi].
  2:{ rewrite drop_ge by lia. rewrite pieces_nil. simpl.
      by rewrite app_nil_r, orb_false_r. }
  destruct (lookup_lt_is_Some_2 s i Hi) as [c Hc].
  pose proof (drop_S _ _ _ Hc) as Hdrop. rewrite Hdrop, pieces_S.
  unfold strip_step. simpl.
  rewrite (at_info_drop s i c _ Hdrop).
  destruct (bool_decide (c = LBRACE) && startswith INFO (drop (S i) s)) eqn:Hinfo.
  - rewrite scan_group_span by lia. simpl.
    rewrite IH by (simpl; lia). simpl.
    rewrite text_pieces_cons. simpl.
    replace (i + 1)%nat with (S i) by lia.
    rewrite drop_drop, orb_true_r. done.
  - rewrite Hc.
    destruct (s !! S i) as [d|] eqn:Hd.
    + rewrite (drop_S _ _ _ Hd).
      destruct (bool_decide (c = BACKSLASH)); rewrite text_pieces_cons; simpl.
      * rewrite IH by (simpl; lia). simpl.
        replace (i + 2)%nat with (S (S i)) by lia. by rewrite <- app_assoc.
      * rewrite IH by (simpl; lia). simpl.
        replace (i + 1)%nat with (S i) by lia. rewrite (drop_S _ _ _ Hd).
        by rewrite <- app_assoc.
    + apply lookup_ge_None in Hd.
      rewrite (drop_ge s (S i)) by lia. rewrite pieces_nil.
      assert (text_pieces [] = []) as Hnil by done.
      destruct (bool_decide (c = BACKSLASH)); rewrite text_pieces_cons, Hnil; simpl;
        (rewrite IH by (simpl; lia)); simpl;
        replace (i + 1)%nat with (S i) by lia; rewrite (drop_ge s (S i)) by lia;
        rewrite pieces_nil, Hnil; simpl; by rewrite <- ?app_assoc.
Qed.

Definition parse (text : bytes) : list piece := pieces (S (length text)) text.



(** *** Termination *)

Lemma scan_step_progress s j depth :
  (j < length s)%nat →
  (j < (scan_step s j depth).1 <= j + 2)%nat.
Proof.
  intros Hj. destruct (lookup_lt_is_Some_2 s j Hj) as [c Hc].
  unfold scan_step. rewrite Hc.
  repeat case_bool_decide; simpl; lia.
Qed.

Lemma scan_group_total s j depth :
  (j <= length s)%nat →
  ∃ j', scan_group (S (length s)) s j depth = Some j' ∧ (j <= j' <= length s + 1)%nat.
Proof.
  intros Hj. rewrite scan_group_span by lia. eexists; split; [done|].
  pose proof (group_span_bound (drop j s) depth) as Hb.
  rewrite length_drop in Hb. lia.
Qed.

Lemma strip_step_progress s st :
  (pos st < length s)%nat →
  ∃ st', strip_step s st = Some st' ∧ (pos st < pos st' <= length s + 1)%nat.
Proof.
  destruct st as [i o ch]. simpl. intros Hi. unfold strip_step. simpl.
  destruct (at_info s i).
  - destruct (scan_group_total s (i + 1) 1) as (j & -> & Hj); [lia|].
    simpl. eexists; split; [done|]. simpl. lia.
  - destruct (lookup_lt_is_Some_2 s i Hi) as [c ->].
    destruct (s !! S i) as [d|] eqn:Hd.
    + apply lookup_lt_Some in Hd.
      destruct (bool_decide (c = BACKSLASH)); eexists; (split; [done|]); simpl; lia.
    + eexists; split; [done|]. simpl. lia.
Qed.

Lemma blocks_step_progress s st :
  (bpos st < length s)%nat →
  ∃ st', blocks_step s st = Some st' ∧ (bpos st < bpos st' <= length s + 1)%nat.
Proof.
  destruct st as [i bs]. simpl. intros Hi. unfold blocks_step. simpl.
  destruct (at_info s i).
  - destruct (scan_group_total s (i + 1) 1) as (j & -> & Hj); [lia|].
    simpl. eexists; split; [done|]. simpl. lia.
  - eexists; split; [done|]. simpl. lia.
Qed.

Lemma blocks_loop_total fuel : ∀ s st,
  (length s - bpos st < fuel)%nat → is_Some (blocks_loop fuel s st).
Proof.
  induction fuel as [|fuel IH]; intros s st Hfuel; [lia|]. simpl.
  destruct (Nat.ltb_spec (bpos st) (length s)) as [Hi|Hi]; [|done].
  destruct (blocks_step_progress s st Hi) as (st' & -> & Hst'). simpl.
  apply IH. lia.
Qed.

(** C10 (as amended).  Both RTF scanners end on every text, a lone final
    backslash and an unterminated info group included.  The inner index [j]
    grows on every turn and the outer index [i] grows on every turn; each
    is below the length whenever a character is read, and ends at most one
    past the length (a backslash as the last character steps over it). *)
Theorem rtf_scanners_terminate (s : bytes) :
  is_Some (_rtf_strip_info s) ∧
  is_Some (_rtf_info_blocks s) ∧
  (∀ j depth, (j < length s)%nat →
     (j < (scan_step s j depth).1 <= length s + 1)%nat) ∧
  (∀ j depth, (j <= length s)%nat →
     ∃ j', scan_group (S (length s)) s j depth = Some j' ∧
           (j <= j' <= length s + 1)%nat) ∧
  (∀ st, (pos st < length s)%nat →
     ∃ st', strip_step s st = Some st' ∧ (pos st < pos st' <= length s + 1)%nat) ∧
  (∀ st, (bpos st < length s)%nat →
     ∃ st', blocks_step s st = Some st' ∧ (bpos st < bpos st' <= length s + 1)%nat).
Proof.
  split; [|split; [|split; [|split; [|split]]]].
  - unfold _rtf_strip_info. rewrite strip_loop_pieces by (simpl; lia). done.
  - apply blocks_loop_total. simpl. lia.
  - intros j depth Hj. pose proof (scan_step_progress s j depth Hj). lia.
  - apply scan_group_total.
  - apply strip_step_progress.
  - apply blocks_step_progress.
Qed.

(** C10, the claim as written fails: in a text that ends in a backslash
    inside an info group, the depth scan leaves [j] one past the length. *)
Lemma rtf_scan_index_passes_length :
  length (lit "{\info\") = 7%nat ∧
  at_info (lit "{\info\") 0 = true ∧
  scan_group (S (length (lit "{\info\"))) (lit "{\info\") 1 1 = Some 8%nat ∧
  _rtf_strip_info (lit "{\info\") = Some ([], true).
Proof. repeat split; vm_compute; reflexivity. Qed.

(** *** Content hash *)

(** [_hash_rtf_content(path)] on a file with these bytes: what is hashed
    (the stripped text, encoded with latin-1: one byte per character);
    [None] stands for a loop that does not end. *)
Definition _hash_rtf_content (data : bytes) : option bytes :=
  fst <$> _rtf_strip_info (universal_newlines data).

(** Text read with universal newlines holds no CR. *)
Lemma universal_newlines_no_cr data : CR ∉ universal_newlines data.
Proof.
  induction data as [data IH] using (induction_ltof1 _ length); unfold ltof in IH.
  destruct data as [|c rest]; simpl; [apply not_elem_of_nil|].
  destruct (decide (c = CR)) as [->|Hcr].
  - rewrite bool_decide_eq_true_2 by done.
    destruct rest as [|d rest'].
    { intros [?|?%elem_of_nil]%elem_of_cons; done. }
    destruct (bool_decide (d = LF)); apply not_elem_of_cons;
      (split; [done|apply IH; simpl; lia]).
  - rewrite bool_decide_eq_false_2 by done. apply not_elem_of_cons.
    split; [done|apply IH; simpl; lia].
Qed.

(** Written with CR LF line endings and read back, such text is itself. *)
Lemma write_crlf_universal s : CR ∉ s → universal_newlines (write_crlf s) = s.
Proof.
  induction s as [|c s IH]; [done|].
  intros [Hc Hs]%not_elem_of_cons.
  change (write_crlf (c :: s))
    with ((if bool_decide (c = LF) then [CR; LF] else [c]) ++ write_crlf s).
  case_bool_decide as Hlf.
  - subst c. simpl. by rewrite IH.
  - simpl. rewrite bool_decide_eq_false_2 by done. by rewrite IH.
Qed.

Lemma elem_of_concat_text_pieces x ps :
  x ∈ concat (piece_bytes <$> text_pieces ps) → x ∈ concat (piece_bytes <$> ps).
Proof.
  induction ps as [|p ps IH]; [done|]. rewrite text_pieces_cons.
  rewrite fmap_cons. cbn [concat]. rewrite elem_of_app.
  destruct (is_info p).
  - intros Hx. right. by apply IH.
  - rewrite fmap_cons. cbn [concat]. rewrite elem_of_app.
    intros [Hx|Hx]; [by left|right; by apply IH].
Qed.

(** The content hash of an RTF file is that of its text without the info
    groups that the stripper finds.  After cleaning it is the hash of the
    cleaned text stripped once more; so cleaning leaves the hash as it was
    whenever the cleaned text holds no info group for the stripper to find. *)
Theorem rtf_hash_after_clean (data out : bytes) :
  clean_bytes data = Some out →
  ∃ stripped,
    _rtf_strip_info (universal_newlines data) = Some (stripped, true) ∧
    out = write_crlf stripped ∧
    _hash_rtf_content data = Some stripped ∧
    _hash_rtf_content out = fst <$> _rtf_strip_info stripped ∧
    (_rtf_strip_info stripped = Some (stripped, false) →
     _hash_rtf_content out = _hash_rtf_content data).
Proof.
  unfold clean_bytes, _hash_rtf_content.
  pose proof (universal_newlines_no_cr data) as Hcr.
  set (text := universal_newlines data) in *.
  assert (_rtf_strip_info text =
          Some (concat (piece_bytes <$> text_pieces (parse text)),
                existsb is_info (parse text))) as Hstrip.
  { unfold _rtf_strip_info, parse. by rewrite strip_loop_pieces by (simpl; lia). }
  rewrite Hstrip. destruct (existsb is_info (parse text)); [|done].
  intros [= <-]. eexists. split; [done|]. split; [done|]. split; [done|].
  rewrite write_crlf_universal.
  - split; [done|]. by intros ->.
  - intros Hin. apply Hcr. apply elem_of_concat_text_pieces in Hin.
    unfold parse in Hin. by rewrite pieces_tile in Hin by lia.
Qed.

(** An info group with an author, then text, with CR LF line endings. *)
Definition sample : bytes :=
  lit "{\rtf1{\info{\author A}}" ++ [CR; LF] ++ lit "Hello}".

Definition sample_cleaned : bytes := lit "{\rtf1" ++ [CR; LF] ++ lit "Hello}".

Lemma rtf_hash_after_clean_sample :
  clean_bytes sample = Some sample_cleaned ∧
  _hash_rtf_content sample_cleaned = _hash_rtf_content sample.
Proof.
  split; [vm_compute; reflexivity|].
  destruct (rtf_hash_after_clean sample sample_cleaned) as (s & Hs & _ & _ & _ & H).
  { vm_compute. reflexivity. }
  apply H. vm_compute in Hs. injection Hs as <-. vm_compute. reflexivity.
Defined.

(** *** Detection *)

(** The control words looked for in an info block, with their labels, in
    the order of the code. *)
Definition INFO_KEYS : list (string * string) :=
  [ ("\author", "Author"); ("\company", "Company"); ("\title", "Title");
    ("\subject", "Subject"); ("\keywords", "Keywords"); ("\operator", "Operator");
    ("\category", "Category"); ("\doccomm", "Comment"); ("\creatim", "CreateTime");
    ("\revtim", "ModTime") ].

(** The inner [for key, label in (...)] loop for one block. *)
Definition tag_block (tags : list string) (block : bytes) : list string :=
  foldl (λ tags kl,
           if contains (lit kl.1) block && negb (bool_decide (kl.2 ∈ tags))
           then tags ++ [kl.2] else tags)
        tags INFO_KEYS.

(** [_detect_rtf_info(path)] on a file with these bytes. *)
Definition _detect_rtf_info (data : bytes) : option (list string) :=
  blocks ← _rtf_info_blocks (universal_newlines data);
  Some (foldl tag_block [] blocks).

(** [_hash_rtf_content] comes to an end on every file. *)
Lemma hash_rtf_total (data : bytes) : is_Some (_hash_rtf_content data).
Proof.
  unfold _hash_rtf_content, _rtf_strip_info.
  by rewrite strip_loop_pieces by (simpl; lia).
Qed.

End Rtf.

(** ** ElementTree *)

(** An [xml.etree.ElementTree.Element]: tag (with the namespace in braces),
    attributes, text, tail, children. *)
#[warnings="-register-all"]
Inductive element :=
| Element (tag : string) (attrib : gmap string string) (text tail : string)
          (children : list element).

Definition tag (e : element) : string := let 'Element t _ _ _ _ := e in t.
Definition attrib (e : element) : gmap string string := let 'Element _ a _ _ _ := e in a.
Definition children (e : element) : list element := let 'Element _ _ _ _ c := e in c.

(** [str.startswith], [str.endswith] and [in] on names and attribute
    values; a str is taken by its UTF-8 bytes. *)
Definition str_startswith (p s : string) : bool := startswith (lit p) (lit s).
Definition str_endswith (p s : string) : bool := endswith (lit p) (lit s).
Definition str_contains (p s : string) : bool := contains (lit p) (lit s).

(** ** OOXML (docx, xlsx, pptx) *)

Module Ooxml.

(** An archive opened by [ZipFile(path, 'r')]: the entries in the order of
    [infolist()], each with its name and the bytes that reading it gives
    ([None] when reading that entry raises). *)
Abbreviation zipfile := (list (string * option bytes)).

Definition namelist (z : zipfile) : list string := z.*1.

(** [z.read(name)]: zipfile looks the name up in [NameToInfo], which holds
    the last entry of that name. *)
Definition zread (z : zipfile) (name : string) : option bytes :=
  last (filter (λ e, e.1 = name) z) ≫= snd.

(** What [zout.writestr(item, data)] has written, read back. *)
Definition written (zout : list (string * bytes)) : zipfile :=
  (λ e, (e.1, Some e.2)) <$> zout.

Definition CONTENT_TYPES : string := "[Content_Types].xml".
Definition ROOT_RELS : string := "_rels/.rels".
Definition NS_CT : string := "{http://schemas.openxmlformats.org/package/2006/content-types}".
Definition NS_REL : string := "{http://schemas.openxmlformats.org/package/2006/relationships}".

Definition REMOVE : list string :=
  ["docProps/core.xml"; "docProps/app.xml"; "docProps/custom.xml"].

(** [item.filename in remove or item.filename.startswith('docProps/thumbnail.')] *)
Definition is_removed (name : string) : bool :=
  bool_decide (name ∈ REMOVE) || str_startswith "docProps/thumbnail." name.

(** The test of the reference loops: a child found by
    [xml.findall(tagname)] whose attribute [attr] (default [""]) starts with
    [pfx]. *)
Definition refers_to (tagname attr pfx : string) (c : element) : bool :=
  bool_decide (tag c = tagname) && str_startswith pfx (default "" (attrib c !! attr)).

(** [for c in list(xml.findall(tagname)): if ...: xml.remove(c)]:
    [findall] with a plain tag selects children of [xml] itself. *)
Definition remove_references (tagname attr pfx : string) (xml : element) : element :=
  let 'Element t a tx tl cs := xml in
  Element t a tx tl (filter (λ c, refers_to tagname attr pfx c = false) cs).

Definition clean_content_types : element → element :=
  remove_references (NS_CT +:+ "Override") "PartName" "/docProps/".

Definition clean_root_rels : element → element :=
  remove_references (NS_REL +:+ "Relationship") "Target" "docProps/".

Section Clean.

(** [ET.fromstring] ([None] when it raises) and
    [ET.tostring(xml, encoding='utf-8', xml_declaration=True)]. *)
Context (ET_fromstring : bytes → option element) (ET_tostring : element → bytes).

(** The [try] blocks of the loop body: the data that is written for a part. *)
Definition rewrite_part (name : string) (data : bytes) : bytes :=
  if bool_decide (name = CONTENT_TYPES) then
    match ET_fromstring data with
    | Some xml => ET_tostring (clean_content_types xml)
    | None => data
    end
  else if bool_decide (name = ROOT_RELS) then
    match ET_fromstring data with
    | Some xml => ET_tostring (clean_root_rels xml)
    | None => data
    end
  else data.

(** The loop [for item in zin.infolist()] of [_clean_office_props]. *)
Fixpoint clean_items (zin : zipfile) (items : list string)
    (zout : list (string * bytes)) (removed : nat)
    : exn + (list (string * bytes) * nat) :=
  match items with
  | [] => inr (zout, removed)
  | name :: items =>
      if is_removed name then clean_items zin items zout (S removed)
      else
        match zread zin name with
        | None => inl BadZipFile
        | Some data =>
            clean_items zin items (zout ++ [(name, rewrite_part name data)]) removed
        end
  end.

Definition clean_archive (zin : zipfile) : exn + (list (string * bytes) * nat) :=
  clean_items zin (namelist zin) [] 0.

End Clean.

(** *** Content hash *)

(** The names that [_hash_office_content] keeps. *)
Definition hashed (n : string) : bool :=
  negb (str_startswith "docProps/" n)
  && negb (str_endswith ".rels" n || str_contains "/_rels/" n || str_startswith "_rels/" n)
  && negb (bool_decide (n = CONTENT_TYPES)).

(** [names.sort()] *)
Fixpoint insert_sorted (n : string) (l : list string) : list string :=
  match l with
  | [] => [n]
  | m :: l' => if String.leb n m then n :: l else m :: insert_sorted n l'
  end.

Definition sort_names (l : list string) : list string :=
  foldr insert_sorted [] l.

(** The [h.update] calls: everything fed to the hash, in order. *)
Fixpoint hash_updates (z : zipfile) (names : list string) (fed : bytes) : exn + bytes :=
  match names with
  | [] => inr fed
  | n :: names =>
      match zread z n with
      | None => inl BadZipFile
      | Some data => hash_updates z names (fed ++ lit n ++ data)
      end
  end.

Definition hash_input (z : zipfile) : exn + bytes :=
  hash_updates z (sort_names (filter (λ n, hashed n = true) (namelist z))) [].

(** *** What the loop writes *)

Section CleanFacts.

Context (ET_fromstring : bytes → option element) (ET_tostring : element → bytes).

Let part_written := rewrite_part ET_fromstring ET_tostring.

Lemma clean_items_spec zin : ∀ items zout0 r0 zout r,
  clean_items ET_fromstring ET_tostring zin items zout0 r0 = inr (zout, r) →
  ∃ parts,
    zout = zout0 ++ parts ∧
    parts.*1 = filter (λ n, is_removed n = false) items ∧
    r = (r0 + length (filter (λ n, is_removed n = true) items))%nat ∧
    Forall (λ e, ∃ d0, zread zin e.1 = Some d0 ∧ e.2 = part_written e.1 d0) parts.
Proof.
  induction items as [|name items IH]; intros zout0 r0 zout r Hrun; simpl in Hrun.
  { injection Hrun as <- <-. exists []. rewrite app_nil_r. simpl.
    repeat split; [lia|constructor]. }
  rewrite !filter_cons.
  destruct (is_removed name) eqn:Hrem.
  - destruct (IH _ _ _ _ Hrun) as (parts & -> & Hn & -> & Hall).
    exists parts. rewrite decide_False by done. rewrite decide_True by done.
    simpl. repeat split; [done|lia|done].
  - destruct (zread zin name) as [data|] eqn:Hread; [|done].
    destruct (IH _ _ _ _ Hrun) as (parts & -> & Hn & -> & Hall).
    exists ((name, part_written name data) :: parts).
    rewrite decide_True by done. rewrite decide_False by done.
    split; [by rewrite <- app_assoc|]. simpl.
    split; [by f_equal|]. split; [done|].
    constructor; [|done]. exists data. done.
Qed.

(** Reading a name back from the written archive gives the bytes that all
    its entries share. *)
Lemma zread_written (parts : list (string * bytes)) n v :
  Forall (λ e, e.1 = n → e.2 = v) parts →
  n ∈ parts.*1 →
  zread (written parts) n = Some v.
Proof.
  induction parts as [|e parts IH] using rev_ind; intros Hall Hin.
  { by apply elem_of_nil in Hin. }
  apply Forall_app in Hall as [Hall He]. apply Forall_inv in He.
  unfold zread, written in *. rewrite fmap_app, filter_app. simpl.
  rewrite filter_cons, filter_nil. simpl.
  destruct (decide (e.1 = n)) as [Heq|Hne].
  - rewrite last_snoc. simpl. by rewrite He.
  - rewrite app_nil_r. apply IH; [done|].
    rewrite fmap_app in Hin. apply elem_of_app in Hin as [Hin|Hin]; [done|].
    simpl in Hin. apply list_elem_of_singleton in Hin. congruence.
Qed.

Lemma rewrite_part_other n d :
  n ≠ CONTENT_TYPES → n ≠ ROOT_RELS → part_written n d = d.
Proof.
  intros H1 H2. unfold part_written, rewrite_part.
  by rewrite !bool_decide_eq_false_2.
Qed.

Lemma zread_clean zin zout removed n :
  clean_archive ET_fromstring ET_tostring zin = inr (zout, removed) →
  n ∈ zout.*1 →
  ∃ d0, zread zin n = Some d0 ∧ zread (written zout) n = Some (part_written n d0).
Proof.
  intros Hrun Hin. apply clean_items_spec in Hrun as (parts & -> & _ & _ & Hall).
  simpl in *.
  assert (∃ d0, zread zin n = Some d0) as [d0 Hd0].
  { apply list_elem_of_fmap in Hin as (e & -> & He).
    rewrite Forall_forall in Hall. destruct (Hall e He) as (d0 & Hd0 & _).
    by exists d0. }
  exists d0. split; [done|]. apply zread_written; [|done].
  eapply Forall_impl; [exact Hall|]. intros e (d & Hd & ->) Heq.
  rewrite Heq in *. congruence.
Qed.

End CleanFacts.

(** *** The hash does not see what the cleaner touches *)

Lemma thumbnail_under_docprops n :
  str_startswith "docProps/thumbnail." n = true → str_startswith "docProps/" n = true.
Proof.
  unfold str_startswith. rewrite !startswith_app. intros [r Hr].
  exists (lit "thumbnail." ++ r). rewrite Hr. reflexivity.
Qed.

Lemma removed_not_hashed n : is_removed n = true → hashed n = false.
Proof.
  unfold is_removed, hashed. intros [Hin|Hth]%orb_prop.
  - apply bool_decide_eq_true in Hin. unfold REMOVE in Hin.
    repeat (apply elem_of_cons in Hin as [->|Hin]; [reflexivity|]).
    by apply elem_of_nil in Hin.
  - by rewrite (thumbnail_under_docprops n Hth).
Qed.

Lemma hashed_not_reference n :
  hashed n = true → n ≠ CONTENT_TYPES ∧ n ≠ ROOT_RELS.
Proof.
  intros Hh. split; intros ->; vm_compute in Hh; discriminate.
Qed.

Lemma hashed_names_kept (items : list string) :
  filter (λ n, hashed n = true) (filter (λ n, is_removed n = false) items)
  = filter (λ n, hashed n = true) items.
Proof.
  induction items as [|n items IH]; [done|].
  rewrite !filter_cons. destruct (is_removed n) eqn:Hrem.
  - rewrite decide_False by done.
    rewrite (decide_False (P := hashed n = true))
      by (rewrite (removed_not_hashed n Hrem); done).
    done.
  - rewrite decide_True by done. rewrite filter_cons, IH. done.
Qed.

Lemma elem_of_insert_sorted n m l : m ∈ insert_sorted n l → m = n ∨ m ∈ l.
Proof.
  induction l as [|x l IH]; simpl.
  { intros ?%list_elem_of_singleton. by left. }
  destruct (String.leb n x).
  - intros [->|?]%elem_of_cons; [by left|by right].
  - intros [->|Hin]%elem_of_cons; [right; by left|].
    destruct (IH Hin) as [->|?]; [by left|right; by right].
Qed.

Lemma elem_of_sort_names m l : m ∈ sort_names l → m ∈ l.
Proof.
  induction l as [|x l IH]; simpl; [done|].
  intros [->|Hin]%elem_of_insert_sorted; [by left|right; by apply IH].
Qed.

Lemma hash_updates_ext z1 z2 : ∀ names fed,
  (∀ n, n ∈ names → zread z1 n = zread z2 n) →
  hash_updates z1 names fed = hash_updates z2 names fed.
Proof.
  induction names as [|n names IH]; intros fed Hext; simpl; [done|].
  rewrite <- (Hext n) by (by left).
  destruct (zread z1 n); [|done]. apply IH. intros m Hm. apply Hext. by right.
Qed.

(** The archive that the cleaner writes feeds the hash what the input
    archive feeds it. *)
Lemma hash_input_clean ET_fromstring ET_tostring zin zout removed :
  clean_archive ET_fromstring ET_tostring zin = inr (zout, removed) →
  hash_input (written zout) = hash_input zin.
Proof.
  intros Hrun. unfold hash_input.
  assert (namelist (written zout) = filter (λ n, is_removed n = false) (namelist zin))
    as Hnames.
  { pose proof Hrun as Hrun'.
    apply clean_items_spec in Hrun' as (parts & -> & Hn & _ & _). simpl.
    rewrite <- Hn. unfold namelist, written. rewrite <- list_fmap_compose. done. }
  rewrite Hnames, hashed_names_kept.
  apply hash_updates_ext. intros n Hin.
  apply elem_of_sort_names, list_elem_of_filter in Hin as [Hh Hin].
  assert (n ∈ zout.*1) as Hout.
  { assert (hashed n = true ∧ n ∈ namelist zin) as Hin' by done.
    apply (list_elem_of_filter (λ n, hashed n = true)) in Hin'.
    rewrite <- hashed_names_kept, <- Hnames in Hin'.
    apply list_elem_of_filter in Hin' as [_ Hin'].
    unfold namelist, written in Hin'. by rewrite <- list_fmap_compose in Hin'. }
  destruct (zread_clean _ _ _ _ _ n Hrun Hout) as (d0 & Hd0 & ->).
  apply hashed_not_reference in Hh as [H1 H2].
  by rewrite rewrite_part_other.
Qed.

(** *** What the cleaner removes *)



(** A docx of scenario 4, seen through zipfile. *)
Definition sample : zipfile :=
  [ ("[Content_Types].xml", Some (lit "<Types/>"));
    ("_rels/.rels", Some (lit "<Relationships/>"));
    ("docProps/core.xml", Some (lit "<cp:coreProperties/>"));
    ("docProps/thumbnail.jpeg", Some [xff; xd8; xff; xd9]);
    ("word/document.xml", Some (lit "<w:document/>")) ].





(** *** Detection *)

(** [xml.find(tag) is not None] for a plain tag in Clark notation: some
    child of [xml] has that tag. *)
Definition has_child (tagname : string) (xml : element) : bool :=
  existsb (λ c, bool_decide (tag c = tagname)) (children xml).

(** Every element below [xml], in document order: what
    [xml.findall('.//...')] searches. *)
Fixpoint descendants (xml : element) : list element :=
  match xml with
  | Element _ _ _ _ cs => (fix go cs := match cs with
                                         | [] => []
                                         | c :: cs => c :: descendants c ++ go cs
                                         end) cs
  end.

Definition NS_CP : string :=
  "{http://schemas.openxmlformats.org/package/2006/metadata/core-properties}".
Definition NS_DC : string := "{http://purl.org/dc/elements/1.1/}".
Definition NS_DCTERMS : string := "{http://purl.org/dc/terms/}".
Definition NS_EP : string :=
  "{http://schemas.openxmlformats.org/officeDocument/2006/extended-properties}".
Definition NS_CUSTOM : string :=
  "{http://schemas.openxmlformats.org/officeDocument/2006/custom-properties}".

(** The core properties looked for, with their labels, in the order of the
    code. *)
Definition CORE_LABELS : list (string * string) :=
  [ (NS_DC +:+ "creator", "Author");
    (NS_CP +:+ "lastModifiedBy", "LastModifiedBy");
    (NS_DCTERMS +:+ "created", "Created");
    (NS_DCTERMS +:+ "modified", "Modified");
    (NS_DC +:+ "title", "Title");
    (NS_DC +:+ "subject", "Subject");
    (NS_CP +:+ "keywords", "Keywords");
    (NS_CP +:+ "category", "Category") ].

Definition APP_LABELS : list (string * string) :=
  [ (NS_EP +:+ "Company", "Company");
    (NS_EP +:+ "Manager", "Manager");
    (NS_EP +:+ "Application", "Application") ].

(** The labels of the properties that [xml] has as children. *)
Definition labels_found (labels : list (string * string)) (xml : element) : list string :=
  (filter (λ tl, has_child tl.1 xml = true) labels).*2.

(** [f'CustomProps:{len(props)}'] when there are properties. *)
Definition custom_found (xml : element) : list string :=
  let props := filter (λ e, tag e = NS_CUSTOM +:+ "property") (descendants xml) in
  match props with
  | [] => []
  | _ => ["CustomProps:" +:+ pretty (length props)]
  end.

Section Detect.

Context (ET_fromstring : bytes → option element).

(** One [if name in names: try: ... except Exception: ...] block: nothing
    when the part is not there, the fallback label when reading or parsing
    it raises. *)
Definition part_summary (z : zipfile) (name : string)
    (found : element → list string) (fallback : string) : list string :=
  if bool_decide (name ∈ namelist z) then
    match zread z name ≫= ET_fromstring with
    | Some xml => found xml
    | None => [fallback]
    end
  else [].

(** [_detect_office_props_details(path)] for an archive as zipfile opens it
    ([None] when it does not): [present] and [summary]. *)
Definition _detect_office_props_details (z : option zipfile) : bool * list string :=
  match z with
  | None => (false, [])
  | Some z =>
      let names := namelist z in
      let thumbs := filter (λ n, str_startswith "docProps/thumbnail." n = true) names in
      (bool_decide ("docProps/core.xml" ∈ names)
       || bool_decide ("docProps/app.xml" ∈ names)
       || bool_decide ("docProps/custom.xml" ∈ names)
       || negb (bool_decide (thumbs = [])),
       part_summary z "docProps/core.xml" (labels_found CORE_LABELS) "CoreProps"
       ++ part_summary z "docProps/app.xml" (labels_found APP_LABELS) "AppProps"
       ++ part_summary z "docProps/custom.xml" custom_found "CustomProps"
       ++ (if bool_decide (thumbs = []) then [] else ["Thumbnail"]))
  end.

End Detect.

(** The three property parts, looked up one by one. *)
Definition _detect_office_props (z : option zipfile) : list (string * bool) :=
  let found name := match z with
                    | Some z => bool_decide (name ∈ namelist z)
                    | None => false
                    end in
  [ ("core.xml", found "docProps/core.xml");
    ("app.xml", found "docProps/app.xml");
    ("custom.xml", found "docProps/custom.xml") ].

Lemma existsb_is_removed (names : list string) :
  existsb is_removed names
  = bool_decide ("docProps/core.xml" ∈ names)
    || bool_decide ("docProps/app.xml" ∈ names)
    || bool_decide ("docProps/custom.xml" ∈ names)
    || negb (bool_decide
               (filter (λ n, str_startswith "docProps/thumbnail." n = true) names = [])).
Proof.
  induction names as [|n names IH]; [done|].
  cbn [existsb]. rewrite IH, filter_cons. unfold is_removed, REMOVE.
  destruct (str_startswith "docProps/thumbnail." n) eqn:Hth.
  - rewrite decide_True by done. rewrite (bool_decide_eq_false_2 (_ :: _ = [])) by done.
    simpl. by rewrite !orb_true_r.
  - rewrite decide_False by done. rewrite orb_false_r.
    set (t := negb _).
    rewrite !(bool_decide_ext (_ ∈ n :: names) _ (elem_of_cons _ _ _)).
    rewrite (bool_decide_ext (n ∈ [_; _; _])
               (n = "docProps/core.xml" ∨ n = "docProps/app.xml"
                ∨ n = "docProps/custom.xml")).
    2:{ rewrite !elem_of_cons, elem_of_nil. tauto. }
    rewrite !bool_decide_or.
    rewrite (bool_decide_ext ("docProps/core.xml" = n) (n = "docProps/core.xml")) by done.
    rewrite (bool_decide_ext ("docProps/app.xml" = n) (n = "docProps/app.xml")) by done.
    rewrite (bool_decide_ext ("docProps/custom.xml" = n) (n = "docProps/custom.xml"))
      by done.
    destruct (bool_decide (n = "docProps/core.xml")),
      (bool_decide (n = "docProps/app.xml")),
      (bool_decide (n = "docProps/custom.xml")),
      (bool_decide ("docProps/core.xml" ∈ names)),
      (bool_decide ("docProps/app.xml" ∈ names)),
      (bool_decide ("docProps/custom.xml" ∈ names)), t; done.
Qed.

Lemma office_detect_agrees
    (ET_fromstring : bytes → option element) (ET_tostring : element → bytes)
    (zin : zipfile) (zout : list (string * bytes)) (removed : nat) :
  clean_archive ET_fromstring ET_tostring zin = inr (zout, removed) →
  (_detect_office_props_details ET_fromstring (Some zin)).1 = (0 <? removed)%nat.
Proof.
  intros Hrun. apply clean_items_spec in Hrun as (parts & _ & _ & -> & _).
  cbn [_detect_office_props_details fst]. rewrite <- existsb_is_removed.
  rewrite Nat.add_0_l. by rewrite existsb_length.
Qed.

(** Detection and cleaning agree on every archive that the cleaner gets
    through: [_detect_office_props_details] reports [present] exactly when
    [_clean_office_props] removes at least one part. *)
Theorem detect_office_agrees_with_clean
    (ET_fromstring : bytes → option element) (ET_tostring : element → bytes)
    (zin : zipfile) (zout : list (string * bytes)) (removed : nat) :
  clean_archive ET_fromstring ET_tostring zin = inr (zout, removed) →
  (_detect_office_props_details ET_fromstring (Some zin)).1 = (0 <? removed)%nat.
Proof. exact (office_detect_agrees ET_fromstring ET_tostring zin zout removed). Qed.

Lemma detect_office_agrees_with_clean_sample :
  clean_archive (λ _, None) (λ _, []) sample
    = inr ([ ("[Content_Types].xml", lit "<Types/>");
             ("_rels/.rels", lit "<Relationships/>");
             ("word/document.xml", lit "<w:document/>") ], 2%nat) ∧
  (_detect_office_props_details (λ _, None) (Some sample)).1 = true.
Proof.
  split; [vm_compute; reflexivity|].
  apply (detect_office_agrees_with_clean (λ _, None) (λ _, []) sample
           [ ("[Content_Types].xml", lit "<Types/>");
             ("_rels/.rels", lit "<Relationships/>");
             ("word/document.xml", lit "<w:document/>") ] 2%nat).
  vm_compute. reflexivity.
Defined.

End Ooxml.

(** ** Paths *)

Definition chars (s : string) : list Ascii.ascii := String.list_ascii_of_string s.
Definition str (l : list Ascii.ascii) : string := String.string_of_list_ascii l.

(** [str.lower()] on the letters A to Z; the extensions the classifier
    compares with are ASCII, and no other character lowers to one of their
    letters. *)
Definition ascii_lower (c : Ascii.ascii) : Ascii.ascii :=
  let n := Ascii.nat_of_ascii c in
  if (65 <=? n)%nat && (n <=? 90)%nat then Ascii.ascii_of_nat (n + 32) else c.

Definition lower (s : string) : string := str (ascii_lower <$> chars s).

(** The index of the last [c] in [l], [str.rfind]. *)
Fixpoint rfind (c : Ascii.ascii) (l : list Ascii.ascii) : option nat :=
  match l with
  | [] => None
  | x :: l' =>
      match rfind c l' with
      | Some i => Some (S i)
      | None => if bool_decide (x = c) then Some 0%nat else None
      end
  end.

(** [Path(path).name]: what follows the last slash. *)
Definition path_name (path : string) : string :=
  match rfind "/"%char (chars path) with
  | Some i => str (drop (S i) (chars path))
  | None => path
  end.

(** [str(Path(path).parent)] *)
Definition path_parent (path : string) : string :=
  match rfind "/"%char (chars path) with
  | Some 0%nat => "/"
  | Some i => str (take i (chars path))
  | None => "."
  end.

(** [Path(path).suffix]: from the last dot of the name, unless that dot
    starts or ends the name. *)
Definition path_suffix (path : string) : string :=
  let name := chars (path_name path) in
  match rfind "."%char name with
  | Some i =>
      if (0 <? i)%nat && (i <? length name - 1)%nat then str (drop i name) else ""
  | None => ""
  end.

(** ** The file system *)

(** The files that exist, each with its bytes. *)
Abbreviation files := (gmap string bytes).

(** ** Format classifier *)

Inductive FileType :=
| jpeg | png | gif | pdf | rtf
| docx | xlsx | pptx
| doc | xls | ppt
| word2003xml
| other.

#[global] Instance FileType_eq_dec : EqDecision FileType.
Proof. solve_decision. Defined.

(** The code points of an ASCII literal, to look for in decoded text. *)
Definition codes (s : string) : list N := Byte.to_N <$> lit s.

(** [bytes.lstrip()]: leading ASCII whitespace goes. *)
Fixpoint lstrip (b : bytes) : bytes :=
  match b with
  | c :: b' =>
      if bool_decide (c ∈ [x20; x09; x0a; x0d; x0b; x0c]) then lstrip b' else b
  | [] => []
  end.

(** [str.lstrip('.')] *)
Fixpoint lstrip_dots (l : list Ascii.ascii) : list Ascii.ascii :=
  match l with
  | c :: l' => if bool_decide (c = "."%char) then lstrip_dots l' else l
  | [] => []
  end.

Section Classifier.

(** [ZipFile(path, 'r').namelist()] as a function of the file's bytes
    ([None] when zipfile raises), and
    [bytes.decode('utf-8', errors='ignore')]. *)
Context (zip_namelist : bytes → option (list string))
        (utf8_decode_ignore : bytes → list N).

Definition _magic (fs : files) (path : string) (n : nat) : bytes :=
  match fs !! path with
  | Some data => take n data
  | None => []
  end.

Definition _detect_ooxml_from_zip (fs : files) (path : string) : option FileType :=
  data ← fs !! path;
  names ← zip_namelist data;
  if bool_decide ("word/document.xml" ∈ names) then Some docx
  else if bool_decide ("xl/workbook.xml" ∈ names) then Some xlsx
  else if bool_decide ("ppt/presentation.xml" ∈ names) then Some pptx
  else None.

Definition _is_word2003xml (fs : files) (path : string) : bool :=
  match fs !! path with
  | Some data =>
      let text := utf8_decode_ignore (take (Z.to_nat 8192) data) in
      contains (codes "w:wordDocument") text
      || (contains (codes "wordml") text
          && contains (codes "http://schemas.microsoft.com/office/word") text)
  | None => false
  end.

Definition _file_type (fs : files) (path : string) : FileType :=
  let ext := lower (path_suffix path) in
  let head := _magic fs path 64 in
  if startswith [xff; xd8; xff] head then jpeg
  else if startswith Png.SIGNATURE head then png
  else if startswith (lit "GIF87a") head || startswith (lit "GIF89a") head then gif
  else if startswith (lit "%PDF-") head then pdf
  else if startswith (lit "{\rtf") head then rtf
  else
    match
      (if startswith (lit "PK") head && bool_decide (ext ∈ [".doc"; ".xls"; ".ppt"])
       then _detect_ooxml_from_zip fs path
       else None)
    with
    | Some ooxml => ooxml
    | None =>
        if bool_decide (ext = ".doc") then doc
        else if bool_decide (ext = ".xls") then xls
        else if bool_decide (ext = ".ppt") then ppt
        else if bool_decide (ext = ".docx") then docx
        else if bool_decide (ext = ".xlsx") then xlsx
        else if bool_decide (ext = ".pptx") then pptx
        else
          let head_strip := lstrip head in
          if (startswith (lit "<?xml") head_strip || startswith (lit "<") head_strip)
             && _is_word2003xml fs path
          then word2003xml
          else other
    end.

Lemma take_take_le {A} (n m : nat) (l : list A) :
  (n <= m)%nat → take n l = take n (take m l).
Proof. intros H. rewrite take_take. f_equal. lia. Qed.

(** C3 (as amended).  Two files that agree on their first 8 KiB and on
    their lower-cased extension get the same type, provided that, when they
    start with PK and the extension is .doc, .xls or .ppt, probing them as
    ZIP archives gives the same answer.  (That probe reads the archive's
    directory, which lies at the end of the file.) *)
Theorem file_type_from_head_extension_and_probe
    (fs1 fs2 : files) (p1 p2 : string) (d1 d2 : bytes) :
  fs1 !! p1 = Some d1 →
  fs2 !! p2 = Some d2 →
  take (Z.to_nat 8192) d1 = take (Z.to_nat 8192) d2 →
  lower (path_suffix p1) = lower (path_suffix p2) →
  (startswith (lit "PK") d1 = true →
   lower (path_suffix p1) ∈ [".doc"; ".xls"; ".ppt"] →
   _detect_ooxml_from_zip fs1 p1 = _detect_ooxml_from_zip fs2 p2) →
  _file_type fs1 p1 = _file_type fs2 p2.
Proof.
  intros H1 H2 Hhead Hext Hprobe.
  assert (_magic fs1 p1 64 = _magic fs2 p2 64) as Hmagic.
  { unfold _magic. rewrite H1, H2.
    rewrite (take_take_le 64 (Z.to_nat 8192) d1), (take_take_le 64 (Z.to_nat 8192) d2) by lia.
    by rewrite Hhead. }
  assert (_is_word2003xml fs1 p1 = _is_word2003xml fs2 p2) as Hword.
  { unfold _is_word2003xml. by rewrite H1, H2, Hhead. }
  unfold _file_type. rewrite <- Hmagic, <- Hext, <- Hword.
  destruct (startswith (lit "PK") (_magic fs1 p1 64)) eqn:Hpk; [|done].
  destruct (bool_decide (lower (path_suffix p1) ∈ [".doc"; ".xls"; ".ppt"])) eqn:Hleg;
    [|done].
  apply bool_decide_eq_true in Hleg.
  simpl. rewrite <- Hprobe; [done| |done].
  unfold _magic in Hpk. rewrite H1 in Hpk.
  apply startswith_app in Hpk as [r Hr]. apply startswith_app.
  exists (r ++ drop 64 d1). rewrite app_assoc, <- Hr. by rewrite take_drop.
Qed.

End Classifier.

(** ** How zipfile finds the names of an archive *)

(** A model of the part of Python's zipfile that [namelist()] rests on, for
    archives without a trailing comment and without zip64 records: the
    end-of-central-directory record is the last 22 bytes of the file, the
    central directory lies right before it, and each of its headers carries
    one name.  Names are taken byte for byte (ASCII names decode to
    themselves).  The counterexamples below run the classifier on it. *)
Module Zipfile.

(** A little-endian field of a record. *)
Definition le (b : bytes) : nat :=
  foldr (λ x acc, (Z.to_nat (byte_val x) + 256 * acc)%nat) 0%nat b.

Definition field (off len : nat) (rec : bytes) : nat := le (take len (drop off rec)).

Definition END_SIG : bytes := [x50; x4b; x05; x06].
Definition DIR_SIG : bytes := [x50; x4b; x01; x02].

(** [_EndRecData]: the record, when the file ends with one that has an
    empty comment. *)
Definition end_record (data : bytes) : option bytes :=
  let n := length data in
  if (n <? 22)%nat then None
  else
    let rec := drop (n - 22) data in
    if startswith END_SIG rec && bool_decide (drop 20 rec = [x00; x00])
    then Some rec
    else None.

(** The loop of [_RealGetContents] over the central directory. *)
Fixpoint directory_names (fuel : nat) (cd : bytes) : option (list string) :=
  match fuel with
  | O => None
  | S fuel =>
      match cd with
      | [] => Some []
      | _ =>
          let centdir := take 46 cd in
          if (length centdir <? 46)%nat then None
          else if negb (startswith DIR_SIG centdir) then None
          else if (63 <? field 6 2 centdir)%nat then None
          else
            let n_name := field 28 2 centdir in
            let n_extra := field 30 2 centdir in
            let n_comment := field 32 2 centdir in
            let filename := take n_name (drop 46 cd) in
            names ← directory_names fuel (drop (46 + n_name + n_extra + n_comment) cd);
            Some (String.string_of_list_byte filename :: names)
      end
  end.

Definition namelist (data : bytes) : option (list string) :=
  rec ← end_record data;
  let size_cd := field 12 4 rec in
  let location := (length data - 22)%nat in
  if (location <? size_cd)%nat then None
  else directory_names (S size_cd) (take size_cd (drop (location - size_cd) data)).

(** A stored archive with one entry, [word/document.xml], of 8192 spaces,
    as zipfile writes it. *)
Definition local_header : bytes :=
  [x50; x4b; x03; x04; x14; x00; x00; x00; x00; x00; x00; x00; x21; x00;
   x8d; xc4; xbe; xe7; x00; x20; x00; x00; x00; x20; x00; x00; x11; x00;
   x00; x00] ++ lit "word/document.xml".

Definition central_directory : bytes :=
  [x50; x4b; x01; x02; x14; x03; x14; x00; x00; x00; x00; x00; x00; x00;
   x21; x00; x8d; xc4; xbe; xe7; x00; x20; x00; x00; x00; x20; x00; x00;
   x11; x00; x00; x00; x00; x00; x00; x00; x00; x00; x00; x00; x80; x01;
   x00; x00; x00; x00] ++ lit "word/document.xml".

Definition end_of_directory : bytes :=
  [x50; x4b; x05; x06; x00; x00; x00; x00; x01; x00; x01; x00; x3f; x00;
   x00; x00; x2f; x20; x00; x00; x00; x00].

Definition entry_data : bytes := replicate (Z.to_nat 8192) x20.

Definition archive : bytes :=
  local_header ++ entry_data ++ central_directory ++ end_of_directory.

(** The same file cut off after the entry's data. *)
Definition archive_cut_short : bytes := local_header ++ entry_data.

Example namelist_archive : namelist archive = Some ["word/document.xml"].
Proof. vm_compute. reflexivity. Qed.

Example namelist_cut_short : namelist archive_cut_short = None.
Proof. vm_compute. reflexivity. Qed.

End Zipfile.

(** C3, the claim as written fails: two files named [report.doc] that
    agree on their first 8 KiB, one a ZIP archive that holds
    [word/document.xml] and one the same bytes without the directory at the
    end, are classified docx and doc. *)
Lemma file_type_reads_past_first_8k :
  take (Z.to_nat 8192) Zipfile.archive = take (Z.to_nat 8192) Zipfile.archive_cut_short ∧
  (∀ utf8_decode_ignore,
     _file_type Zipfile.namelist utf8_decode_ignore
       {[ "report.doc" := Zipfile.archive ]} "report.doc" = docx) ∧
  (∀ utf8_decode_ignore,
     _file_type Zipfile.namelist utf8_decode_ignore
       {[ "report.doc" := Zipfile.archive_cut_short ]} "report.doc" = doc).
Proof. repeat split; intros; vm_compute; reflexivity. Qed.

(** The same archive under two names that differ in case and directory. *)
Lemma file_type_from_head_extension_and_probe_sample :
  _file_type Zipfile.namelist (fmap Byte.to_N)
    {[ "report.doc" := Zipfile.archive ]} "report.doc"
  = _file_type Zipfile.namelist (fmap Byte.to_N)
    {[ "old/REPORT.DOC" := Zipfile.archive ]} "old/REPORT.DOC".
Proof.
  apply (file_type_from_head_extension_and_probe Zipfile.namelist (fmap Byte.to_N)
           _ _ _ _ Zipfile.archive Zipfile.archive).
  - reflexivity.
  - reflexivity.
  - reflexivity.
  - vm_compute. reflexivity.
  - intros _ _. vm_compute. reflexivity.
Defined.

(** ** Files on disk: temp files, backups, replacement *)

(** What a call leaves behind: a result and the files, an exception and the
    files, or nothing when the fuel of the embedding ran out. *)
Inductive outcome (A : Type) :=
| Returns (a : A) (fs : files)
| Raises (e : exn) (fs : files)
| Hangs.

Arguments Returns {A} a fs.
Arguments Raises {A} e fs.
Arguments Hangs {A}.

(** The first of the names [cand k], [cand (k+1)], ... that no file has.
    Among [size fs + 1] different names one is free, so [size fs] probes
    are enough. *)
Fixpoint first_free (fuel : nat) (fs : files) (cand : nat → string) (k : nat) : string :=
  match fuel with
  | O => cand k
  | S fuel =>
      if decide (is_Some (fs !! cand k))
      then first_free fuel fs cand (S k)
      else cand k
  end.

(** [<orig>.bak], then [<orig>.bak.1], [<orig>.bak.2], ... *)
Definition bak_name (orig : string) (k : nat) : string :=
  match k with
  | O => orig +:+ ".bak"
  | S _ => orig +:+ ".bak." +:+ pretty k
  end.

(** The [while bak.exists()] loop shared by [_replace_file] and
    [_make_backup_copy]. *)
Definition free_bak (fs : files) (orig : string) : string :=
  first_free (size fs) fs (bak_name orig) 0.

(** [_make_backup_copy(orig_path)]: [None] when [shutil.copy2] raises. *)
Definition _make_backup_copy (fs : files) (orig : string) : option (string * files) :=
  let bak := free_bak fs orig in
  data ← fs !! orig;
  Some (bak, <[bak := data]> fs).

(** [_replace_file(orig, new_tmp, backup)] *)
Definition _replace_file (fs : files) (orig new_tmp : string) (backup : bool)
    : outcome unit :=
  let fs :=
    if backup then
      match _make_backup_copy fs orig with
      | Some (_, fs') => fs'
      | None => fs                          (* except Exception: pass *)
      end
    else fs in
  (* os.replace(new_tmp, orig) *)
  match fs !! new_tmp with
  | Some data => Returns () (<[orig := data]> (delete new_tmp fs))
  | None => Raises FileNotFoundError fs
  end.

(** The end of every stream handler: promote the temp file when something
    changed, remove it otherwise. *)
Definition finish (fs : files) (path tmp_path : string) (backup : bool) (c : ctl)
    : outcome bool :=
  match c with
  | Done true =>
      match _replace_file fs path tmp_path backup with
      | Returns _ fs' => Returns true fs'
      | Raises e fs' => Raises e fs'
      | Hangs => Hangs
      end
  | Done false => Returns false (delete tmp_path fs)
  | Raised e => Raises e fs
  | Diverge => Hangs
  end.

(** *** The backup name is free *)

Lemma first_free_spec fuel : ∀ (fs : files) cand k,
  (∃ j, (k <= j <= k + fuel)%nat ∧ fs !! cand j = None) →
  fs !! first_free fuel fs cand k = None.
Proof.
  induction fuel as [|fuel IH]; intros fs cand k (j & Hj & Hfree); simpl.
  { by replace k with j by lia. }
  destruct (decide (is_Some (fs !! cand k))) as [Hk|Hk].
  - apply IH. exists j. split; [|done].
    destruct (decide (j = k)) as [->|]; [|lia].
    rewrite Hfree in Hk. by destruct Hk.
  - by apply eq_None_not_Some.
Qed.

(** Among [size fs + 1] different names, one has no file. *)
Lemma some_name_free (fs : files) (cand : nat → string) :
  Inj (=) (=) cand →
  ∃ j, (0 <= j <= 0 + size fs)%nat ∧ fs !! cand j = None.
Proof.
  intros Hinj.
  destruct (decide (Exists (λ j, fs !! cand j = None) (seq 0 (S (size fs)))))
    as [Hex|Hall].
  - apply Exists_exists in Hex as (j & Hj & Hfree).
    apply elem_of_seq in Hj. exists j. split; [lia|done].
  - exfalso. apply not_Exists_Forall in Hall; [|apply _].
    set (names := cand <$> seq 0 (S (size fs))).
    assert (NoDup names) as Hnd.
    { apply NoDup_fmap_2; [done|apply NoDup_seq]. }
    assert (list_to_set names ⊆ dom fs) as Hsub.
    { intros n Hn. apply elem_of_list_to_set, list_elem_of_fmap in Hn
        as (j & -> & Hj).
      rewrite Forall_forall in Hall. specialize (Hall j Hj). simpl in Hall.
      apply elem_of_dom. by apply not_eq_None_Some. }
    apply subseteq_size in Hsub.
    rewrite size_list_to_set, size_dom in Hsub by done.
    unfold names in Hsub. rewrite length_fmap, length_seq in Hsub. lia.
Qed.

Lemma first_free_fresh (fs : files) (cand : nat → string) :
  Inj (=) (=) cand → fs !! first_free (size fs) fs cand 0 = None.
Proof. intros Hinj. by apply first_free_spec, some_name_free. Qed.

Lemma bak_name_inj orig : Inj (=) (=) (bak_name orig).
Proof.
  intros [|k] [|k'] Heq; unfold bak_name in Heq.
  - done.
  - apply String.app_inj in Heq. discriminate.
  - apply String.app_inj in Heq. discriminate.
  - apply String.app_inj in Heq.
    apply (String.app_inj ".bak.") in Heq. by apply pretty_nat_inj in Heq.
Qed.

Lemma free_bak_fresh (fs : files) orig : fs !! free_bak fs orig = None.
Proof. apply first_free_fresh, bak_name_inj. Qed.

(** When the temp file is there, [_replace_file] puts its bytes in place of
    the original; a backup asked for holds the original's bytes under a name
    that was free. *)
Lemma replace_file_spec (fs : files) orig tmp backup w :
  fs !! tmp = Some w →
  ∃ fs', _replace_file fs orig tmp backup = Returns () fs' ∧
         fs' !! orig = Some w ∧
         (tmp ≠ orig → fs' !! tmp = None) ∧
         (∀ d, backup = true → fs !! orig = Some d → tmp ≠ orig →
               fs' !! free_bak fs orig = Some d).
Proof.
  intros Htmp. unfold _replace_file, _make_backup_copy.
  pose proof (free_bak_fresh fs orig) as Hfree.
  destruct backup; [destruct (fs !! orig) as [d|] eqn:Horig|]; simpl.
  - assert (free_bak fs orig ≠ tmp) as Hne by congruence.
    assert (free_bak fs orig ≠ orig) as Hne' by congruence.
    rewrite lookup_insert_ne, Htmp by done.
    eexists; split; [done|]. split; [by rewrite lookup_insert_eq|]. split.
    + intros ?. rewrite lookup_insert_ne, lookup_delete_eq by done. done.
    + intros d' _ [= <-] ?.
      rewrite lookup_insert_ne, lookup_delete_ne, lookup_insert_eq by done. done.
  - rewrite Htmp. eexists; split; [done|].
    split; [by rewrite lookup_insert_eq|]. split; [|done].
    intros ?. rewrite lookup_insert_ne, lookup_delete_eq by done. done.
  - rewrite Htmp. eexists; split; [done|].
    split; [by rewrite lookup_insert_eq|]. split; [|done].
    intros ?. rewrite lookup_insert_ne, lookup_delete_eq by done. done.
Qed.

(** The name chosen is the first free one: every candidate before it names
    a file. *)
Lemma first_free_first fuel : ∀ (fs : files) cand k,
  ∃ j, first_free fuel fs cand k = cand (k + j)%nat ∧
       ∀ i, (i < j)%nat → is_Some (fs !! cand (k + i)%nat).
Proof.
  induction fuel as [|fuel IH]; intros fs cand k; simpl.
  { exists 0%nat. rewrite Nat.add_0_r. split; [done|lia]. }
  destruct (decide (is_Some (fs !! cand k))) as [Hk|Hk].
  - destruct (IH fs cand (S k)) as (j & Hj & Hbefore).
    exists (S j). replace (k + S j)%nat with (S k + j)%nat by lia.
    split; [done|]. intros [|i] Hi; [by rewrite Nat.add_0_r|].
    replace (k + S i)%nat with (S k + i)%nat by lia. apply Hbefore. lia.
  - exists 0%nat. rewrite Nat.add_0_r. split; [done|lia].
Qed.

(** [_replace_file] and the backup it makes.  With the temp file in place,
    the call puts the temp file's bytes under the original's name and the
    temp file is gone.  With [backup] set and the original there, its bytes
    are first copied to [<orig>.bak], or when that exists to [<orig>.bak.k]
    for the least [k >= 1] that names no file: no existing file is
    overwritten by the copy.  Every other file is as before.  (A missing
    original makes [shutil.copy2] fail, which is passed over.) *)
Theorem replace_file_keeps_original_in_first_free_backup
    (fs : files) (orig tmp : string) (w : bytes) :
  fs !! tmp = Some w →
  tmp ≠ orig →
  _replace_file fs orig tmp false = Returns () (<[orig := w]> (delete tmp fs)) ∧
  (fs !! orig = None →
   _replace_file fs orig tmp true = Returns () (<[orig := w]> (delete tmp fs))) ∧
  (∀ d, fs !! orig = Some d →
     ∃ k, _replace_file fs orig tmp true
          = Returns () (<[orig := w]> (delete tmp (<[bak_name orig k := d]> fs))) ∧
          fs !! bak_name orig k = None ∧
          (∀ i, (i < k)%nat → is_Some (fs !! bak_name orig i)) ∧
          _make_backup_copy fs orig
          = Some (bak_name orig k, <[bak_name orig k := d]> fs)).
Proof.
  intros Htmp Hne. unfold _replace_file, _make_backup_copy.
  split; [by rewrite Htmp|]. split.
  - intros ->. simpl. by rewrite Htmp.
  - intros d ->. simpl.
    pose proof (free_bak_fresh fs orig) as Hfree.
    destruct (first_free_first (size fs) fs (bak_name orig) 0) as (k & Hk & Hbefore).
    fold (free_bak fs orig) in Hk. simpl in Hk. rewrite Hk in *.
    exists k. rewrite lookup_insert_ne by congruence. rewrite Htmp. done.
Qed.

(** [H : x ∈ [a; b; ...]] taken apart; the cases that equate two different
    constructors go. *)
Ltac elem_of_cases H :=
  repeat (apply elem_of_cons in H as [H|H]; [try discriminate|]);
  try (by apply elem_of_nil in H).

(** ** The engine *)

Section Engine.

(** What the engine gets from outside:
    - zipfile: an archive opened for reading ([None] when [ZipFile] raises)
      and the bytes of an archive written with [writestr];
    - ElementTree's [fromstring] and [tostring], the UTF-8 decoder, SHA-256;
    - tempfile: the fresh names that [mkstemp] and [mkdtemp] pick;
    - ExifTool: the executable found, if any, and what running it with
      [-all=] does to the files;
    - pywin32 and its structured storage: open a file as a storage (or the
      error text), destroy a root element ([None] when it raises), and the
      file's bytes after the storage is committed;
    - pikepdf: open, clear docinfo, drop [/Metadata], save ([changed] and
      the saved bytes, or the error);
    - the Word 2003 XML rewrite: the new document when properties were
      removed, [None] when none were or parsing failed. *)
Context
  (zip_open : bytes → option Ooxml.zipfile)
  (zip_write : list (string * bytes) → bytes)
  (ET_fromstring : bytes → option element)
  (ET_tostring : element → bytes)
  (utf8_decode_ignore : bytes → list N)
  (sha256 : bytes → string)
  (mkstemp : files → string → string → string → string)
  (mkdtemp : files → string → string → string)
  (find_exiftool : option string)
  (exiftool_clean : string → files → string → FileType → bool * string * files)
  (HAS_PYWIN32 HAS_PIKEPDF : bool)
  (Storage : Type)
  (StgOpenStorage : bytes → string + Storage)
  (DestroyElement : Storage → string → option Storage)
  (storage_bytes : Storage → bytes)
  (pikepdf_strip : bytes → string + (bool * bytes))
  (word2003xml_strip : bytes → option bytes).

Definition zip_namelist (data : bytes) : option (list string) :=
  Ooxml.namelist <$> zip_open data.

Definition file_type : files → string → FileType :=
  _file_type zip_namelist utf8_decode_ignore.

(** [_clean_jpeg(path, backup)] *)
Definition _clean_jpeg (fs : files) (path : string) (backup : bool) : outcome bool :=
  match fs !! path with
  | None => Raises FileNotFoundError fs
  | Some data =>
      match Jpeg.clean_stream data with
      | None => Returns false fs
      | Some (out, c) =>
          let tmp_path := mkstemp fs "_mc_" ".jpg" (path_parent path) in
          finish (<[tmp_path := out]> fs) path tmp_path backup c
      end
  end.

(** [_clean_png(path, backup)] *)
Definition _clean_png (fs : files) (path : string) (backup : bool) : outcome bool :=
  let tmp_path := mkstemp fs "_mc_" ".png" (path_parent path) in
  let fs := <[tmp_path := []]> fs in
  match fs !! path with
  | None => Raises FileNotFoundError fs
  | Some data =>
      match Png.clean_stream data with
      | None => Returns false (delete tmp_path fs)
      | Some (out, c) => finish (<[tmp_path := out]> fs) path tmp_path backup c
      end
  end.

(** [_clean_gif(path, backup)] *)
Definition _clean_gif (fs : files) (path : string) (backup : bool) : outcome bool :=
  let tmp_path := mkstemp fs "_mc_" ".gif" (path_parent path) in
  let fs := <[tmp_path := []]> fs in
  match fs !! path with
  | None => Raises FileNotFoundError fs
  | Some data =>
      match Gif.clean_stream data with
      | None => Returns false (delete tmp_path fs)
      | Some (out, c) => finish (<[tmp_path := out]> fs) path tmp_path backup c
      end
  end.

(** [_clean_rtf(path, backup)] *)
Definition _clean_rtf (fs : files) (path : string) (backup : bool) : outcome bool :=
  match fs !! path with
  | None => Returns false fs                 (* except Exception: return False *)
  | Some data =>
      match Rtf._rtf_strip_info (Rtf.universal_newlines data) with
      | None => Hangs
      | Some (_, false) => Returns false fs
      | Some (stripped, true) =>
          let tmp_path := mkstemp fs "_mc_" ".rtf" (path_parent path) in
          finish (<[tmp_path := Rtf.write_crlf stripped]> fs) path tmp_path backup
                 (Done true)
      end
  end.

(** [_clean_office_props(path, backup)] *)
Definition _clean_office_props (fs : files) (path : string) (backup : bool)
    : outcome nat :=
  let tmp_dir := mkdtemp fs "_mc_zip_" (path_parent path) in
  let tmp_path := tmp_dir +:+ "/" +:+ path_name path in
  match fs !! path with
  | None => Raises FileNotFoundError fs
  | Some data =>
      match zip_open data with
      | None => Raises BadZipFile fs
      | Some zin =>
          match Ooxml.clean_archive ET_fromstring ET_tostring zin with
          | inl e => Raises e fs          (* shutil.rmtree(tmp_dir) *)
          | inr (zout, removed) =>
              let fs := <[tmp_path := zip_write zout]> fs in
              match removed with
              | O => Returns removed (delete tmp_path fs)
              | S _ =>
                  match _replace_file fs path tmp_path backup with
                  | Returns _ fs' => Returns removed (delete tmp_path fs')
                  | Raises e fs' => Raises e (delete tmp_path fs')
                  | Hangs => Hangs
                  end
              end
          end
      end
  end.

(** [_clean_pdf(path, backup)] *)
Definition _clean_pdf (fs : files) (path : string) (backup : bool) : outcome bool :=
  let tmp_path := mkstemp fs "_mc_" ".pdf" (path_parent path) in
  let fs := <[tmp_path := []]> fs in
  match fs !! path with
  | None => Raises FileNotFoundError (delete tmp_path fs)
  | Some data =>
      match pikepdf_strip data with
      | inl msg => Raises (LibraryError msg) (delete tmp_path fs)
      | inr (changed, saved) =>
          finish (<[tmp_path := saved]> fs) path tmp_path backup (Done changed)
      end
  end.

(** [_clean_word2003xml(path, backup)] *)
Definition _clean_word2003xml (fs : files) (path : string) (backup : bool)
    : outcome bool :=
  match fs !! path ≫= word2003xml_strip with
  | None => Returns false fs
  | Some xml =>
      let tmp_path := mkstemp fs "_mc_" (path_suffix path) (path_parent path) in
      match finish (<[tmp_path := xml]> fs) path tmp_path backup (Done true) with
      | Raises _ fs' => Returns false fs'      (* except Exception: return False *)
      | r => r
      end
  end.

Definition PROPERTY_SETS : list string :=
  [String (ascii_of_nat 5) "SummaryInformation";
   String (ascii_of_nat 5) "DocumentSummaryInformation"].

(** The loop over the two property sets of [_clean_ole_props]. *)
Fixpoint destroy_all (stg : Storage) (names : list string) (changed : bool)
    : Storage * bool :=
  match names with
  | [] => (stg, changed)
  | name :: names =>
      match DestroyElement stg name with
      | Some stg' => destroy_all stg' names true
      | None => destroy_all stg names changed
      end
  end.

(** [_clean_ole_props(path, backup)] *)
Definition _clean_ole_props (fs : files) (path : string) (backup : bool)
    : outcome (bool * string) :=
  let fs :=
    if backup then
      match _make_backup_copy fs path with
      | Some (_, fs') => fs'
      | None => fs
      end
    else fs in
  match fs !! path with
  | None => Returns (false, "OLE clean error: file not found") fs
  | Some data =>
      match StgOpenStorage data with
      | inl msg => Returns (false, "OLE clean error: " +:+ msg) fs
      | inr stg =>
          let '(stg, changed) := destroy_all stg PROPERTY_SETS false in
          let fs := <[path := storage_bytes stg]> fs in
          if changed then Returns (true, "") fs
          else Returns (false, "No OLE property sets present") fs
      end
  end.

(** [clean_file_metadata(path, backup)] *)
Definition clean_file_metadata (fs : files) (path : string) (backup : bool)
    : outcome (bool * string) :=
  let t := file_type fs path in
  let report (reason : string) (r : outcome bool) : outcome (bool * string) :=
    match r with
    | Returns changed fs' => Returns (changed, if changed then reason else "") fs'
    | Raises e fs' => Raises e fs'
    | Hangs => Hangs
    end in
  if bool_decide (t = word2003xml) then
    report "Removed Office 2003 XML properties" (_clean_word2003xml fs path backup)
  else if bool_decide (t = rtf) then
    report "Removed RTF \info" (_clean_rtf fs path backup)
  else if bool_decide (t ∈ [doc; xls; ppt]) then
    if negb HAS_PYWIN32
    then Returns (false, "Legacy Office cleaning unavailable (missing pywin32)") fs
    else
      match _clean_ole_props fs path backup with
      | Returns (changed, reason) fs' =>
          Returns (changed, if changed then "Removed OLE property sets" else reason) fs'
      | r => r
      end
  else if bool_decide (t ∈ [docx; xlsx; pptx]) then
    match _clean_office_props fs path backup with
    | Returns removed fs' =>
        Returns ((0 <? removed)%nat,
                 if (0 <? removed)%nat
                 then "Removed docProps (" +:+ pretty removed +:+ ")" else "") fs'
    | Raises e fs' => Raises e fs'
    | Hangs => Hangs
    end
  else
    match find_exiftool with
    | Some exiftool =>
        let made := if backup then _make_backup_copy fs path else None in
        let fs1 := match made with Some (_, fs') => fs' | None => fs end in
        let '(changed, reason, fs2) := exiftool_clean exiftool fs1 path t in
        if changed then Returns (true, "ExifTool: removed metadata") fs2
        else
          match made with
          | Some (bak_path, _) => Returns (false, reason) (delete bak_path fs2)
          | None => Returns (false, reason) fs2
          end
    | None =>
        if bool_decide (t = jpeg) then
          report "Removed EXIF/XMP/IPTC" (_clean_jpeg fs path backup)
        else if bool_decide (t = png) then
          report "Removed text/time chunks" (_clean_png fs path backup)
        else if bool_decide (t = gif) then
          report "Removed comments" (_clean_gif fs path backup)
        else if bool_decide (t = pdf) && HAS_PIKEPDF then
          report "Removed Info/XMP" (_clean_pdf fs path backup)
        else Returns (false, "") fs
    end.

(** [_hash_office_content(path)] *)
Definition _hash_office_content (fs : files) (path : string) : exn + string :=
  match fs !! path with
  | None => inl FileNotFoundError
  | Some data =>
      match zip_open data with
      | None => inl BadZipFile
      | Some z =>
          match Ooxml.hash_input z with
          | inl e => inl e
          | inr fed => inr (sha256 fed)
          end
      end
  end.

(** *** Properties of the dispatch *)

(** The temp directory that [mkdtemp] makes for [_clean_office_props] is
    new: the temp archive's path names no file yet. *)
Definition office_tmp_path (fs : files) (path : string) : string :=
  mkdtemp fs "_mc_zip_" (path_parent path) +:+ "/" +:+ path_name path.

Definition office_tmp_fresh (fs : files) (path : string) : Prop :=
  fs !! office_tmp_path fs path = None.

Definition MAGIC : list bytes :=
  [[xff; xd8; xff]; Png.SIGNATURE; lit "GIF87a"; lit "GIF89a"; lit "%PDF-"; lit "{\rtf"].

(** No image, PDF or RTF signature at the start of the data. *)
Definition no_magic (data : bytes) : Prop :=
  Forall (λ m, startswith m data = false) MAGIC.

Lemma no_magic_head fs path data :
  fs !! path = Some data →
  no_magic data →
  startswith [xff; xd8; xff] (_magic fs path 64) = false ∧
  startswith Png.SIGNATURE (_magic fs path 64) = false ∧
  startswith (lit "GIF87a") (_magic fs path 64) = false ∧
  startswith (lit "GIF89a") (_magic fs path 64) = false ∧
  startswith (lit "%PDF-") (_magic fs path 64) = false ∧
  startswith (lit "{\rtf") (_magic fs path 64) = false.
Proof.
  intros Hd Hm. unfold _magic. rewrite Hd.
  unfold no_magic, MAGIC in Hm.
  repeat (apply Forall_cons in Hm as [? Hm]).
  rewrite !startswith_take by (vm_compute; lia). done.
Qed.

(** The dispatch on one of the three OOXML types. *)
Lemma clean_file_metadata_ooxml fs path backup :
  file_type fs path ∈ [docx; xlsx; pptx] →
  clean_file_metadata fs path backup =
  match _clean_office_props fs path backup with
  | Returns removed fs' =>
      Returns ((0 <? removed)%nat,
               if (0 <? removed)%nat
               then "Removed docProps (" +:+ pretty removed +:+ ")" else "") fs'
  | Raises e fs' => Raises e fs'
  | Hangs => Hangs
  end.
Proof.
  intros Ht. unfold clean_file_metadata.
  repeat (apply elem_of_cons in Ht as [->|Ht]; [reflexivity|]).
  by apply elem_of_nil in Ht.
Qed.

(** C9 (as amended).  A path with extension .docx, .xlsx or .pptx whose
    content carries none of the image, PDF and RTF signatures and is not an
    archive that zipfile opens makes [clean_file_metadata] raise; the files
    are as before. *)
Theorem clean_ooxml_not_zip_raises fs path backup data :
  lower (path_suffix path) ∈ [".docx"; ".xlsx"; ".pptx"] →
  fs !! path = Some data →
  no_magic data →
  zip_open data = None →
  clean_file_metadata fs path backup = Raises BadZipFile fs.
Proof.
  intros Hext Hd Hm Hzip.
  assert (file_type fs path ∈ [docx; xlsx; pptx]) as Ht.
  { unfold file_type, _file_type.
    destruct (no_magic_head fs path data Hd Hm) as (-> & -> & -> & -> & -> & ->).
    simpl.
    repeat (apply elem_of_cons in Hext as [->|Hext];
            [rewrite andb_false_r; simpl; set_solver|]).
    by apply elem_of_nil in Hext. }
  rewrite clean_file_metadata_ooxml by done.
  unfold _clean_office_props. by rewrite Hd, Hzip.
Qed.

(** *** Every call ends *)

Lemma finish_ends fs path tmp_path backup c :
  c ≠ Diverge → finish fs path tmp_path backup c ≠ Hangs.
Proof.
  intros Hc. unfold finish, _replace_file.
  destruct c as [[|]|e|]; try done.
  by destruct (_ !! tmp_path).
Qed.

Lemma _clean_jpeg_ends fs path backup : _clean_jpeg fs path backup ≠ Hangs.
Proof.
  unfold _clean_jpeg, Jpeg.clean_stream.
  destruct (fs !! path) as [data|]; [|done].
  case_bool_decide; [|done].
  pose proof (Jpeg.jpeg_loop_fuel (S (length data)) (drop 2 data) Jpeg.SOI false)
    as Hfuel.
  destruct (Jpeg.clean_loop _ _ _ _) as [out c]. apply finish_ends, Hfuel.
  rewrite length_drop. lia.
Qed.

Lemma _clean_png_ends fs path backup : _clean_png fs path backup ≠ Hangs.
Proof.
  unfold _clean_png, Png.clean_stream.
  destruct (_ !! path) as [data|]; [|done].
  case_bool_decide; [|done].
  pose proof (Png.png_loop_fuel (S (length data)) (drop 8 data) (take 8 data) false)
    as Hfuel.
  destruct (Png.clean_loop _ _ _ _) as [out c]. apply finish_ends, Hfuel.
  rewrite length_drop. lia.
Qed.

Lemma _clean_gif_ends fs path backup : _clean_gif fs path backup ≠ Hangs.
Proof.
  unfold _clean_gif, Gif.clean_stream.
  destruct (_ !! path) as [data|]; [|done].
  destruct (negb _); [done|].
  destruct (_ <? 7)%nat; [done|].
  destruct (_ !! 4%nat) as [packed|]; [|done].
  match goal with
  | |- context [Gif.clean_loop ?n ?f ?o ?c] =>
      pose proof (Gif.gif_loop_fuel n f o c) as Hfuel;
      destruct (Gif.clean_loop n f o c) as [out ctl]
  end.
  apply finish_ends, Hfuel.
  destruct (0 <? _)%nat; rewrite ?length_drop; lia.
Qed.

Lemma _clean_rtf_ends fs path backup : _clean_rtf fs path backup ≠ Hangs.
Proof.
  unfold _clean_rtf, Rtf._rtf_strip_info.
  destruct (fs !! path) as [data|]; [|done].
  rewrite Rtf.strip_loop_pieces by (simpl; lia).
  destruct (_ || _); [|done]. by apply finish_ends.
Qed.

(** No call of [clean_file_metadata] runs out of fuel: it returns or
    raises. *)
Theorem clean_file_metadata_ends fs path backup :
  clean_file_metadata fs path backup ≠ Hangs.
Proof.
  unfold clean_file_metadata.
  case_bool_decide.
  { unfold _clean_word2003xml. destruct (_ ≫= _) as [xml|]; [|done].
    pose proof (finish_ends (<[mkstemp fs "_mc_" (path_suffix path)
                                 (path_parent path) := xml]> fs)
                  path (mkstemp fs "_mc_" (path_suffix path) (path_parent path))
                  backup (Done true)) as Hf.
    destruct (finish _ _ _ _ _) as [[|] ?|?|]; try done. exfalso. by apply Hf. }
  case_bool_decide.
  { pose proof (_clean_rtf_ends fs path backup).
    by destruct (_clean_rtf fs path backup). }
  case_bool_decide.
  { destruct (negb HAS_PYWIN32); [done|].
    unfold _clean_ole_props.
    destruct (_ !! path) as [data|]; [|done].
    destruct (StgOpenStorage data) as [msg|stg]; [done|].
    destruct (destroy_all stg PROPERTY_SETS false) as [stg' [|]]; done. }
  case_bool_decide.
  { unfold _clean_office_props.
    destruct (fs !! path) as [data|]; [|done].
    destruct (zip_open data) as [zin|]; [|done].
    destruct (Ooxml.clean_archive _ _ zin) as [e|[zout [|removed]]]; try done.
    unfold _replace_file. by destruct (_ !! _). }
  destruct find_exiftool as [exiftool|].
  { destruct (exiftool_clean _ _ _ _) as [[[|] reason] fs2]; [done|].
    by destruct (if backup then _ else _) as [[??]|]. }
  case_bool_decide.
  { pose proof (_clean_jpeg_ends fs path backup).
    by destruct (_clean_jpeg fs path backup). }
  case_bool_decide.
  { pose proof (_clean_png_ends fs path backup).
    by destruct (_clean_png fs path backup). }
  case_bool_decide.
  { pose proof (_clean_gif_ends fs path backup).
    by destruct (_clean_gif fs path backup). }
  destruct (_ && _); [|done].
  unfold _clean_pdf.
  destruct (_ !! path) as [data|]; [|done].
  destruct (pikepdf_strip data) as [msg|[changed saved]]; [done|].
  pose proof (finish_ends (<[mkstemp fs "_mc_" ".pdf" (path_parent path) := saved]>
                             (<[mkstemp fs "_mc_" ".pdf" (path_parent path) := []]> fs))
                path (mkstemp fs "_mc_" ".pdf" (path_parent path)) backup
                (Done changed)) as Hf.
  destruct (finish _ _ _ _ _); try done. exfalso. by apply Hf.
Qed.

(** *** Cleaning an OOXML file twice *)

(** zipfile reads back what it wrote, and what it writes starts with PK. *)
Hypothesis zip_roundtrip : ∀ a, zip_open (zip_write a) = Some (Ooxml.written a).
Hypothesis zip_magic : ∀ a, startswith (lit "PK") (zip_write a) = true.

(** What a return of [_clean_office_props] says about the files. *)
Lemma clean_office_props_inv fs path backup removed fs1 :
  office_tmp_fresh fs path →
  _clean_office_props fs path backup = Returns removed fs1 →
  ∃ d zin zout,
    fs !! path = Some d ∧ zip_open d = Some zin ∧
    Ooxml.clean_archive ET_fromstring ET_tostring zin = inr (zout, removed) ∧
    ((removed = 0%nat ∧ fs1 = fs) ∨
     ((0 < removed)%nat ∧ fs1 !! path = Some (zip_write zout))).
Proof.
  unfold office_tmp_fresh, office_tmp_path, _clean_office_props.
  set (tmp := mkdtemp fs "_mc_zip_" (path_parent path) +:+ "/" +:+ path_name path).
  intros Hfresh Hrun.
  destruct (fs !! path) as [d|] eqn:Hd; [|done].
  destruct (zip_open d) as [zin|] eqn:Hzin; [|done].
  destruct (Ooxml.clean_archive _ _ zin) as [e|[zout r]] eqn:Hclean; [done|].
  exists d, zin, zout. split; [done|]. split; [done|].
  destruct r as [|r].
  - injection Hrun as <- <-. split; [done|]. left. split; [done|].
    by apply delete_insert_id.
  - destruct (replace_file_spec (<[tmp := zip_write zout]> fs) path tmp backup
                (zip_write zout)) as (fs' & Hr & Hpath & _ & _).
    { by rewrite lookup_insert_eq. }
    rewrite Hr in Hrun. injection Hrun as <- <-. split; [done|]. right.
    split; [lia|]. rewrite lookup_delete_ne; [done|]. congruence.
Qed.








(** [_hash_office_content] after a clean that removed something. *)
Lemma hash_office_content_after_clean fs path backup removed fs1 :
  office_tmp_fresh fs path →
  _clean_office_props fs path backup = Returns removed fs1 →
  _hash_office_content fs1 path = _hash_office_content fs path.
Proof.
  intros Hfresh Hclean.
  destruct (clean_office_props_inv _ _ _ _ _ Hfresh Hclean)
    as (d & zin & zout & Hd & Hzin & Harch & [[-> ->]|[Hpos Hw]]); [done|].
  unfold _hash_office_content.
  rewrite Hw, Hd, Hzin, zip_roundtrip.
  by rewrite (Ooxml.hash_input_clean _ _ _ _ _ Harch).
Qed.

(** C1.  When [clean_file_metadata] cleans a file of an OOXML type and
    reports a change, the content hash of the file (SHA-256 over the names
    outside [docProps/], the [_rels] files and [[Content_Types].xml],
    sorted, each followed by the bytes of its part) is the same after the
    call as before it. *)
Theorem office_content_hash_unchanged fs path backup reason fs1 :
  file_type fs path ∈ [docx; xlsx; pptx] →
  office_tmp_fresh fs path →
  clean_file_metadata fs path backup = Returns (true, reason) fs1 →
  _hash_office_content fs1 path = _hash_office_content fs path.
Proof.
  intros Ht Hfresh Hrun.
  rewrite clean_file_metadata_ooxml in Hrun by done.
  destruct (_clean_office_props fs path backup) as [removed fs'| |] eqn:Hclean;
    [|done|done].
  injection Hrun as _ _ <-.
  by eapply hash_office_content_after_clean.
Qed.

(** *** Legacy Office and the backup *)

#[local] Arguments destroy_all : simpl never.

(** C6, where the code falls short of the claim.  With pywin32 present and
    a backup asked for, a legacy Office file from which no property set is
    destroyed (the storage holds none, or the file does not open as a
    storage) gives [changed = False], and the backup copy that
    [_clean_ole_props] made first is still there: a new file, under a name
    that was free, with the bytes of the original. *)
Theorem ole_clean_without_change_keeps_backup fs path data :
  HAS_PYWIN32 = true →
  file_type fs path ∈ [doc; xls; ppt] →
  fs !! path = Some data →
  (∀ stg, StgOpenStorage data = inr stg →
          (destroy_all stg PROPERTY_SETS false).2 = false) →
  ∃ reason fs',
    clean_file_metadata fs path true = Returns (false, reason) fs' ∧
    fs !! free_bak fs path = None ∧
    fs' !! free_bak fs path = Some data.
Proof.
  intros Hwin Ht Hd Hnone.
  pose proof (free_bak_fresh fs path) as Hfree.
  assert (free_bak fs path ≠ path) as Hne by congruence.
  assert (clean_file_metadata fs path true =
          match _clean_ole_props fs path true with
          | Returns (changed, reason) fs' =>
              Returns (changed, if changed then "Removed OLE property sets"
                                else reason) fs'
          | r => r
          end) as ->.
  { unfold clean_file_metadata. rewrite Hwin.
    repeat (apply elem_of_cons in Ht as [->|Ht]; [reflexivity|]).
    by apply elem_of_nil in Ht. }
  unfold _clean_ole_props, _make_backup_copy. rewrite Hd. simpl.
  rewrite lookup_insert_ne, Hd by done.
  destruct (StgOpenStorage data) as [msg|stg] eqn:Hopen.
  - eexists _, _. split; [done|]. split; [done|]. by rewrite lookup_insert_eq.
  - specialize (Hnone stg eq_refl).
    destruct (destroy_all stg PROPERTY_SETS false) as [stg' changed].
    simpl in Hnone. subst changed. simpl.
    eexists _, _. split; [done|]. split; [done|].
    by rewrite lookup_insert_ne, lookup_insert_eq.
Qed.

(** *** Detection *)

(** More that the engine gets from outside:
    - ExifTool's report of the sensitive tags of a file ([None] when the
      run fails);
    - pywin32: open a file as a storage for reading ([None] when it
      raises), and whether a stream of a storage opens;
    - the properties that [_detect_word2003xml_props] reads out of the
      parsed document (none when parsing fails);
    - pikepdf's view of a PDF: [present] and [summary] of
      [_detect_pdf_metadata_pike]'s [try] block ([None] when it raises);
    - the digests of [_hash_ole_core_streams], [_hash_ole_content] and
      [_hash_pdf_page_contents] ([None] as in the code);
    - [str(e)] of an exception raised while the file at a path is hashed. *)
Context
  (exiftool_detect_summary : string → files → string → option (list string))
  (StgOpenStorage_read : bytes → option Storage)
  (OpenStream : Storage → string → bool)
  (word2003xml_props : bytes → list string)
  (pikepdf_info : bytes → option (bool * list string))
  (hash_ole_core_streams hash_ole_content hash_pdf_page_contents
     : bytes → option string)
  (exn_text : string → exn → string).

(** The dict that [detect_file_metadata] returns; [note] is [None] when the
    key is not set. *)
Record report := Report {
  r_type : string;
  can_clean : bool;
  summary : list string;
  note : option string
}.

Definition type_name (t : FileType) : string :=
  match t with
  | jpeg => "jpeg" | png => "png" | gif => "gif" | pdf => "pdf" | rtf => "rtf"
  | docx => "docx" | xlsx => "xlsx" | pptx => "pptx"
  | doc => "doc" | xls => "xls" | ppt => "ppt"
  | word2003xml => "word2003xml"
  | other => "other"
  end.

(** [_ole_has_props(path)] *)
Definition _ole_has_props (fs : files) (path : string) : bool * bool :=
  if negb HAS_PYWIN32 then (false, false)
  else
    match fs !! path ≫= StgOpenStorage_read with
    | Some stg =>
        (OpenStream stg (String (ascii_of_nat 5) "SummaryInformation"),
         OpenStream stg (String (ascii_of_nat 5) "DocumentSummaryInformation"))
    | None => (false, false)
    end.

(** [ole_props_state(path)] *)
Definition ole_props_state (fs : files) (path : string) : bool * bool :=
  if negb HAS_PYWIN32 then (false, false) else _ole_has_props fs path.

(** [exiftool_sensitive_labels(path)] *)
Definition exiftool_sensitive_labels (fs : files) (path : string) : list string :=
  match find_exiftool with
  | Some exiftool => default [] (exiftool_detect_summary exiftool fs path)
  | None => []
  end.

(** [_detect_pdf_metadata_quick(path)] *)
Definition _detect_pdf_metadata_quick (fs : files) (path : string) : bool :=
  match fs !! path with
  | Some data =>
      let data := take (Z.to_nat 65536) data in
      contains (lit "/Metadata") data || contains (lit "xpacket") data
      || contains (lit "/Info") data
  | None => false
  end.

(** [_detect_pdf_metadata_pike(path)]: [present] and [summary]. *)
Definition _detect_pdf_metadata_pike (fs : files) (path : string) : bool * list string :=
  match fs !! path ≫= pikepdf_info with
  | Some info => info
  | None => (_detect_pdf_metadata_quick fs path, ["Metadata detected"])
  end.

(** [for tname in et: if tname not in summary: summary.append(tname)] *)
Definition append_new (summary et : list string) : list string :=
  foldl (λ summary tname,
           if bool_decide (tname ∈ summary) then summary else summary ++ [tname])
        summary et.

(** [Path(path).suffix.lower().lstrip('.')] *)
Definition bare_extension (path : string) : string :=
  str (lstrip_dots (chars (lower (path_suffix path)))).

(** [detect_file_metadata(path)]: the report, or the exception that the
    call raises; [None] stands for a loop that does not end. *)
Definition detect_file_metadata (fs : files) (path : string) : option (exn + report) :=
  let t := file_type fs path in
  let result := Report (type_name t) false [] None in
  if bool_decide (t = word2003xml) then
    let props := default [] (word2003xml_props <$> fs !! path) in
    Some (inr (Report (type_name t) (negb (bool_decide (props = []))) props None))
  else if bool_decide (t = rtf) then
    match fs !! path with
    | None => Some (inr result)
    | Some data =>
        tags ← Rtf._detect_rtf_info data;
        Some (inr (Report (type_name t) (negb (bool_decide (tags = []))) tags None))
    end
  else if bool_decide (t ∈ [doc; xls; ppt]) then
    let '(has_sum, has_docsum) := _ole_has_props fs path in
    let summary : list string := (if has_sum then ["SummaryInfo"] else [])
                   ++ (if has_docsum then ["DocSummaryInfo"] else []) in
    let summary :=
      match find_exiftool with
      | Some exiftool =>
          append_new summary (default [] (exiftool_detect_summary exiftool fs path))
      | None => summary
      end in
    Some (inr (Report (type_name t) HAS_PYWIN32 summary
                 (if HAS_PYWIN32 then None
                  else Some "Legacy Office cleaning requires Windows pywin32 (bundled in EXE)")))
  else
    let native : option (exn + report) :=
      if bool_decide (t = jpeg) then
        match fs !! path with
        | None => Some (inl FileNotFoundError)
        | Some data =>
            match Jpeg._detect_jpeg data with
            | None => None
            | Some (inl e) => Some (inl e)
            | Some (inr (exif, xmp, iptc)) =>
                let summary : list string := (if exif then ["EXIF"] else [])
                               ++ (if xmp then ["XMP"] else [])
                               ++ (if iptc then ["IPTC"] else []) in
                Some (inr (Report (type_name t) (negb (bool_decide (summary = [])))
                             summary None))
            end
        end
      else if bool_decide (t = png) then
        match fs !! path with
        | None => Some (inl FileNotFoundError)
        | Some data =>
            '(textc, timec) ← Png._detect_png data;
            let summary : list string :=
              (if (0 <? textc)%nat then ["Text chunks:" +:+ pretty textc] else [])
              ++ (if (0 <? timec)%nat then ["tIME"] else []) in
            Some (inr (Report (type_name t) ((0 <? textc)%nat || (0 <? timec)%nat)
                         summary None))
        end
      else if bool_decide (t = gif) then
        match fs !! path with
        | None => Some (inl FileNotFoundError)
        | Some data =>
            comments ← Gif._detect_gif_comments data;
            let summary : list string :=
              if (0 <? comments)%nat then ["Comments:" +:+ pretty comments] else [] in
            Some (inr (Report (type_name t) (0 <? comments)%nat summary None))
        end
      else if bool_decide (t ∈ [docx; xlsx; pptx]) then
        let '(present, summary) :=
          Ooxml._detect_office_props_details ET_fromstring (fs !! path ≫= zip_open) in
        Some (inr (Report (type_name t) present summary None))
      else if bool_decide (t = pdf) then
        if HAS_PIKEPDF then
          let '(present, summary) := _detect_pdf_metadata_pike fs path in
          let summary :=
            if bool_decide (summary = []) && present then ["Info/XMP present"]
            else summary in
          Some (inr (Report (type_name t) present summary None))
        else
          let has_meta := _detect_pdf_metadata_quick fs path in
          Some (inr (Report (type_name t) false
                       (if has_meta then ["Metadata detected"] else [])
                       (Some "PDF cleaning requires pikepdf (not bundled)")))
      else if bool_decide (t = ppt) then
        Some (inr (Report (type_name t) false []
                     (Some "Legacy PPT not supported; PPTX is supported")))
      else Some (inr (Report (type_name t) false [] (Some "Unsupported format"))) in
    match find_exiftool with
    | Some exiftool =>
        match exiftool_detect_summary exiftool fs path with
        | Some et_summary =>
            let ext := bare_extension path in
            Some (inr (Report
                         (if bool_decide (t = other)
                          then (if bool_decide (ext = "") then "other" else ext)
                          else type_name t)
                         (0 <? length et_summary)%nat et_summary None))
        | None => native
        end
    | None => native
    end.

(** *** Content hash *)

(** [ft.upper()] *)
Definition type_upper (t : FileType) : string :=
  match t with
  | docx => "DOCX" | xlsx => "XLSX" | pptx => "PPTX"
  | _ => type_name t
  end.

(** [compute_content_hash(path)]: [(hex_digest, description)] or
    [(None, reason)]; the outer [None] stands for a loop that does not
    end. *)
Definition compute_content_hash (fs : files) (path : string)
    : option (option string * string) :=
  let ft := file_type fs path in
  let failed (e : exn) : option (option string * string) :=
    Some (None, "Hash error: " +:+ exn_text path e) in
  let hashed (fed : option bytes) (description : string) :=
    fed ← fed; Some (Some (sha256 fed), description) in
  match fs !! path with
  | None =>
      (* every branch opens the file; pikepdf's absence is noticed first *)
      if bool_decide (ft = pdf) && negb HAS_PIKEPDF
      then Some (None, "PDF hashing requires pikepdf")
      else if bool_decide (ft = pdf)
      then Some (None, "PDF content hash unavailable")
      else failed FileNotFoundError
  | Some data =>
      let whole_file := hashed (_hash_file data) "Whole file" in
      if bool_decide (ft = jpeg) then hashed (Jpeg._hash_jpeg_scan data) "JPEG scan data"
      else if bool_decide (ft = png) then hashed (Png._hash_png_idat data) "PNG IDAT"
      else if bool_decide (ft = gif) then
        hashed (Gif._hash_gif_no_comments data) "GIF without comments"
      else if bool_decide (ft = rtf) then
        hashed (Rtf._hash_rtf_content data) "RTF without \info"
      else if bool_decide (ft ∈ [doc; xls; ppt]) && HAS_PYWIN32 then
        match hash_ole_core_streams data with
        | Some h_core => Some (Some h_core, "Core OLE streams")
        | None =>
            match hash_ole_content data with
            | Some h => Some (Some h, "OLE streams (excluding property sets)")
            | None => whole_file
            end
        end
      else if bool_decide (ft ∈ [docx; xlsx; pptx]) then
        match _hash_office_content fs path with
        | inr h => Some (Some h, type_upper ft +:+ " content parts")
        | inl e => failed e
        end
      else if bool_decide (ft = word2003xml) then hashed (_hash_file data) "XML document"
      else if bool_decide (ft = pdf) then
        if HAS_PIKEPDF then
          match hash_pdf_page_contents data with
          | Some h => Some (Some h, "PDF page contents")
          | None => Some (None, "PDF content hash unavailable")
          end
        else Some (None, "PDF hashing requires pikepdf")
      else whole_file
  end.

(** *** The image handlers on the file system *)

#[local] Arguments Jpeg.clean_stream : simpl never.
#[local] Arguments Png.clean_stream : simpl never.
#[local] Arguments Gif.clean_stream : simpl never.
#[local] Arguments Jpeg._detect_jpeg : simpl never.
#[local] Arguments Png._detect_png : simpl never.
#[local] Arguments Gif._detect_gif_comments : simpl never.
#[local] Arguments Jpeg._hash_jpeg_scan : simpl never.
#[local] Arguments Png._hash_png_idat : simpl never.
#[local] Arguments Gif._hash_gif_no_comments : simpl never.
#[local] Arguments Rtf._detect_rtf_info : simpl never.
#[local] Arguments Rtf._hash_rtf_content : simpl never.
#[local] Arguments Ooxml._detect_office_props_details : simpl never.

(** The stream cleaner, the temp file suffix and the reason text that
    [clean_file_metadata] uses for an image type. *)
Definition image_stream (t : FileType) (data : bytes) : option (bytes * ctl) :=
  match t with
  | jpeg => Jpeg.clean_stream data
  | png => Png.clean_stream data
  | gif => Gif.clean_stream data
  | _ => None
  end.

Definition image_suffix (t : FileType) : string :=
  match t with jpeg => ".jpg" | png => ".png" | gif => ".gif" | _ => "" end.

Definition image_reason (t : FileType) : string :=
  match t with
  | jpeg => "Removed EXIF/XMP/IPTC"
  | png => "Removed text/time chunks"
  | gif => "Removed comments"
  | _ => ""
  end.

(** The temp file that the handler makes next to the file. *)
Definition image_tmp_path (fs : files) (path : string) (t : FileType) : string :=
  mkstemp fs "_mc_" (image_suffix t) (path_parent path).

(** The end of a stream handler whose temp file is new. *)
Lemma finish_effect (fs : files) path tmp backup out data c :
  fs !! tmp = None →
  fs !! path = Some data →
  finish (<[tmp := out]> fs) path tmp backup c =
  match c with
  | Done true =>
      Returns true
        (<[path := out]>
           (if backup then <[free_bak (<[tmp := out]> fs) path := data]> fs else fs))
  | Done false => Returns false fs
  | Raised e => Raises e (<[tmp := out]> fs)
  | Diverge => Hangs
  end.
Proof.
  intros Htmp Hpath. assert (tmp ≠ path) as Hne by congruence.
  destruct c as [[|]|e|]; simpl; [|by rewrite delete_insert_id|done..].
  unfold _replace_file, _make_backup_copy.
  pose proof (free_bak_fresh (<[tmp := out]> fs) path) as Hfree.
  set (bak := free_bak (<[tmp := out]> fs) path) in *.
  assert (bak ≠ tmp) as Hbak.
  { intros ->. by rewrite lookup_insert_eq in Hfree. }
  destruct backup; simpl.
  - rewrite lookup_insert_ne, Hpath by done. simpl.
    rewrite lookup_insert_ne, lookup_insert_eq by done.
    by rewrite delete_insert_ne, delete_insert_id by done.
  - rewrite lookup_insert_eq. by rewrite delete_insert_id.
Qed.

(** [clean_file_metadata] on an image, without ExifTool, when the temp file
    that [mkstemp] makes is new. *)
Lemma clean_image fs path backup t data :
  find_exiftool = None →
  t ∈ [jpeg; png; gif] →
  file_type fs path = t →
  fs !! path = Some data →
  fs !! image_tmp_path fs path t = None →
  clean_file_metadata fs path backup =
  match image_stream t data with
  | Some (out, Done true) =>
      Returns (true, image_reason t)
        (<[path := out]>
           (if backup
            then <[free_bak (<[image_tmp_path fs path t := out]> fs) path := data]> fs
            else fs))
  | Some (out, Raised e) => Raises e (<[image_tmp_path fs path t := out]> fs)
  | Some (_, Diverge) => Hangs
  | Some (_, Done false) | None => Returns (false, "") fs
  end.
Proof.
  intros Het Ht Hty Hpath Htmp. unfold clean_file_metadata. rewrite Hty, Het.
  assert (image_tmp_path fs path t ≠ path) as Hne by congruence.
  unfold image_tmp_path in *.
  elem_of_cases Ht; subst t; simpl.
  - unfold _clean_jpeg. rewrite Hpath.
    destruct (Jpeg.clean_stream data) as [[out c]|]; [|done].
    rewrite (finish_effect _ _ _ _ _ data) by done. by destruct c as [[|]|e|].
  - unfold _clean_png. rewrite lookup_insert_ne, Hpath by done.
    destruct (Png.clean_stream data) as [[out c]|]; [|by rewrite delete_insert_id].
    rewrite insert_insert_eq.
    rewrite (finish_effect _ _ _ _ _ data) by done. by destruct c as [[|]|e|].
  - unfold _clean_gif. rewrite lookup_insert_ne, Hpath by done.
    destruct (Gif.clean_stream data) as [[out c]|]; [|by rewrite delete_insert_id].
    rewrite insert_insert_eq.
    rewrite (finish_effect _ _ _ _ _ data) by done. by destruct c as [[|]|e|].
Qed.

(** Backup correctness for the image handlers.  Without ExifTool, when
    [clean_file_metadata] reports a change to a JPEG, PNG or GIF file, the
    file holds the bytes that the stream cleaner wrote, the temp file is
    gone, and every other file is as before, except that with [backup] set
    one new file, named [<path>.bak] or [<path>.bak.k], holds the bytes
    that the file had. *)
Theorem clean_image_replaces_and_backs_up fs path backup data reason fs' :
  find_exiftool = None →
  file_type fs path ∈ [jpeg; png; gif] →
  fs !! path = Some data →
  fs !! image_tmp_path fs path (file_type fs path) = None →
  clean_file_metadata fs path backup = Returns (true, reason) fs' →
  ∃ out,
    image_stream (file_type fs path) data = Some (out, Done true) ∧
    if backup then
      ∃ k, fs !! bak_name path k = None ∧
           fs' = <[path := out]> (<[bak_name path k := data]> fs)
    else fs' = <[path := out]> fs.
Proof.
  intros Het Ht Hpath Htmp.
  rewrite (clean_image fs path backup _ data Het Ht eq_refl Hpath Htmp).
  set (tmp := image_tmp_path fs path (file_type fs path)) in *.
  destruct (image_stream (file_type fs path) data) as [[out [[|]|e|]]|]; try done.
  intros [= _ <-]. exists out. split; [done|].
  destruct backup; [|done].
  pose proof (free_bak_fresh (<[tmp := out]> fs) path) as Hfree.
  destruct (first_free_first (size (<[tmp := out]> fs)) (<[tmp := out]> fs)
              (bak_name path) 0) as (k & Hk & _).
  fold (free_bak (<[tmp := out]> fs) path) in Hk. simpl in Hk. rewrite Hk in *.
  exists k. split; [|done].
  apply lookup_insert_None in Hfree as [Hfree _]. done.
Qed.

(** One of the three image signatures at the start of the head. *)
Definition image_magic (head : bytes) : bool :=
  startswith [xff; xd8; xff] head || startswith Png.SIGNATURE head
  || (startswith (lit "GIF87a") head || startswith (lit "GIF89a") head).

(** Only a signature makes a file a JPEG, a PNG or a GIF. *)
Lemma file_type_image_magic fs path :
  file_type fs path ∈ [jpeg; png; gif] → image_magic (_magic fs path 64) = true.
Proof.
  unfold file_type, _file_type, image_magic.
  set (head := _magic fs path 64).
  set (ext := lower (path_suffix path)). clearbody ext.
  destruct (startswith [xff; xd8; xff] head); [done|].
  destruct (startswith Png.SIGNATURE head); [done|].
  destruct (startswith (lit "GIF87a") head || startswith (lit "GIF89a") head);
    [done|].
  intros Ht. exfalso. revert Ht.
  destruct (startswith (lit "%PDF-") head); [intros Ht; elem_of_cases Ht|].
  destruct (startswith (lit "{\rtf") head); [intros Ht; elem_of_cases Ht|].
  set (probe := if _ && _ then _ else None).
  assert (∀ t, probe = Some t → t ∈ [docx; xlsx; pptx]) as Hprobe.
  { intros t. unfold probe, _detect_ooxml_from_zip. destruct (_ && _); [|done].
    destruct (fs !! path) as [d|]; [|done]. simpl.
    destruct (zip_namelist d) as [names|]; [|done]. simpl.
    repeat case_bool_decide; intros [= <-]; rewrite !elem_of_cons; auto. }
  destruct probe as [t|].
  - intros Ht. specialize (Hprobe t eq_refl).
    elem_of_cases Hprobe; subst t; elem_of_cases Ht.
  - clear Hprobe.
    repeat (case_bool_decide; [intros Ht; elem_of_cases Ht|]).
    destruct (_ && _); intros Ht; elem_of_cases Ht.
Qed.

(** A file classified by its signature is there. *)
Lemma file_type_image_exists fs path :
  file_type fs path ∈ [jpeg; png; gif] → is_Some (fs !! path).
Proof.
  intros Ht%file_type_image_magic. unfold _magic in Ht.
  by destruct (fs !! path) as [data|].
Qed.

(** The image types depend on the first eight bytes only. *)
Lemma file_type_same_head fs fs' path d d' :
  fs !! path = Some d → fs' !! path = Some d' →
  take 8 d' = take 8 d →
  file_type fs path ∈ [jpeg; png; gif] →
  file_type fs' path = file_type fs path.
Proof.
  intros Hd Hd' Heq Ht%file_type_image_magic.
  assert (∀ m : bytes, (length m <= 8)%nat →
            startswith m (_magic fs' path 64) = startswith m (_magic fs path 64))
    as Hs.
  { intros m Hlen. unfold _magic. rewrite Hd, Hd'.
    rewrite !startswith_take by lia.
    rewrite <- (startswith_take m d 8), <- (startswith_take m d' 8) by done.
    by rewrite Heq. }
  unfold file_type, _file_type, image_magic in *.
  rewrite (Hs [xff; xd8; xff]), (Hs Png.SIGNATURE), (Hs (lit "GIF87a")),
    (Hs (lit "GIF89a")) by (vm_compute; lia).
  destruct (startswith [xff; xd8; xff] (_magic fs path 64)); [done|].
  destruct (startswith Png.SIGNATURE (_magic fs path 64)); [done|].
  destruct (startswith (lit "GIF87a") (_magic fs path 64)
            || startswith (lit "GIF89a") (_magic fs path 64)); done.
Qed.

Lemma image_stream_head t data out changed :
  t ∈ [png; gif] →
  image_stream t data = Some (out, Done changed) → take 8 out = take 8 data.
Proof.
  intros Ht Hrun. elem_of_cases Ht; subst t; simpl in Hrun.
  - by apply Png.png_stream_head in Hrun.
  - apply Gif.gif_stream_head in Hrun.
    rewrite (take_take_le 8 13 out), (take_take_le 8 13 data) by lia.
    by rewrite Hrun.
Qed.

Lemma image_stream_twice t data out changed :
  image_stream t data = Some (out, Done changed) →
  image_stream t out = Some (out, Done false).
Proof.
  destruct t; simpl; try done.
  - apply Jpeg.jpeg_stream_twice.
  - apply Png.png_stream_twice.
  - apply Gif.clean_stream_twice.
Qed.

(** What a call that returns has done to an image. *)
Lemma clean_image_returns fs path backup changed reason fs' data :
  find_exiftool = None →
  file_type fs path ∈ [jpeg; png; gif] →
  fs !! path = Some data →
  fs !! image_tmp_path fs path (file_type fs path) = None →
  clean_file_metadata fs path backup = Returns (changed, reason) fs' →
  (∃ out c,
     image_stream (file_type fs path) data = Some (out, Done c) ∧
     fs' !! path = Some (if changed then out else data) ∧
     (changed = false → fs' = fs))
  ∨ (image_stream (file_type fs path) data = None ∧ changed = false ∧ fs' = fs).
Proof.
  intros Het Ht Hpath Htmp.
  rewrite (clean_image fs path backup _ data Het Ht eq_refl Hpath Htmp).
  destruct (image_stream _ data) as [[out [[|]|e|]]|]; try done.
  - intros [= <- _ <-]. left. exists out, true.
    split; [done|]. split; [|done]. by rewrite lookup_insert_eq.
  - intros [= <- _ <-]. left. by exists out, false.
  - intros [= <- _ <-]. by right.
Qed.

(** The type of a PNG or GIF file after the call. *)
Lemma clean_image_keeps_type fs path backup changed reason fs' :
  find_exiftool = None →
  file_type fs path ∈ [png; gif] →
  fs !! image_tmp_path fs path (file_type fs path) = None →
  clean_file_metadata fs path backup = Returns (changed, reason) fs' →
  file_type fs' path = file_type fs path.
Proof.
  intros Het Ht Htmp Hrun.
  assert (file_type fs path ∈ [jpeg; png; gif]) as Ht'.
  { by apply list_elem_of_further. }
  destruct (file_type_image_exists fs path Ht') as [data Hpath].
  destruct (clean_image_returns _ _ _ _ _ _ _ Het Ht' Hpath Htmp Hrun)
    as [(out & c & Hs & Hout & Hsame)|(_ & _ & ->)]; [|done].
  destruct changed; [|by rewrite Hsame].
  assert (c = true) as ->.
  { revert Hrun.
    rewrite (clean_image fs path backup _ data Het Ht' eq_refl Hpath Htmp), Hs.
    by destruct c. }
  apply (file_type_same_head fs fs' path data out Hpath Hout); [|done].
  by apply (image_stream_head _ _ _ _ Ht Hs).
Qed.

(** The type of an image file after the call, JPEG under its proviso. *)
Lemma clean_image_type fs path backup changed reason fs' :
  find_exiftool = None →
  file_type fs path ∈ [jpeg; png; gif] →
  fs !! image_tmp_path fs path (file_type fs path) = None →
  clean_file_metadata fs path backup = Returns (changed, reason) fs' →
  (file_type fs path = jpeg → file_type fs' path = jpeg) →
  file_type fs' path = file_type fs path.
Proof.
  intros Het Ht Htmp Hrun Hjpeg.
  destruct (decide (file_type fs path = jpeg)) as [Hj|Hj].
  - by rewrite Hj, Hjpeg.
  - apply (clean_image_keeps_type fs path backup changed reason fs'); try done.
    apply elem_of_cons in Ht as [Ht|Ht]; done.
Qed.

(** The temp file that [clean_file_metadata] makes for the file: in the
    new directory of [mkdtemp] for an OOXML file, from [mkstemp] for an
    image. *)
Definition tmp_path (fs : files) (path : string) : string :=
  if bool_decide (file_type fs path ∈ [docx; xlsx; pptx])
  then office_tmp_path fs path
  else image_tmp_path fs path (file_type fs path).

Lemma image_not_office (t : FileType) :
  t ∈ [jpeg; png; gif] → t ∉ [docx; xlsx; pptx].
Proof. intros Ht Ho. elem_of_cases Ht; subst t; elem_of_cases Ho. Qed.

(** Detection and cleaning agree on whether there is something to remove. *)
Lemma detect_clean_agree fs path backup changed reason fs' :
  find_exiftool = None →
  file_type fs path ∈ [jpeg; png; gif; docx; xlsx; pptx] →
  fs !! tmp_path fs path = None →
  clean_file_metadata fs path backup = Returns (changed, reason) fs' →
  ∃ r, detect_file_metadata fs path = Some (inr r) ∧
       can_clean r = changed ∧
       (can_clean r = false → fs' = fs).
Proof.
  intros Het Ht Htmp. unfold tmp_path in Htmp.
  destruct (decide (file_type fs path ∈ [docx; xlsx; pptx])) as [Hoffice|Himage].
  - rewrite bool_decide_eq_true_2 in Htmp by done.
    rewrite clean_file_metadata_ooxml by done.
    destruct (_clean_office_props fs path backup) as [removed fs1| |] eqn:Hclean;
      [|done..].
    intros [= <- _ <-].
    destruct (clean_office_props_inv _ _ _ _ _ Htmp Hclean)
      as (d & zin & zout & Hd & Hzin & Harch & Hfs).
    pose proof (Ooxml.office_detect_agrees _ _ _ _ _ Harch) as Hpresent.
    unfold detect_file_metadata. rewrite Het, Hd. simpl. rewrite Hzin.
    destruct (Ooxml._detect_office_props_details ET_fromstring (Some zin))
      as [present summary0]. simpl in Hpresent. subst present.
    elem_of_cases Hoffice; rewrite Hoffice; simpl;
      (eexists; split; [reflexivity|]; split; [reflexivity|];
       cbn [can_clean]; intros Hz;
       destruct Hfs as [[_ ->]|[Hpos _]]; [reflexivity|];
       apply Nat.ltb_ge in Hz; lia).
  - rewrite bool_decide_eq_false_2 in Htmp by done.
    assert (file_type fs path ∈ [jpeg; png; gif]) as Ht'.
    { clear -Ht Himage. revert Ht Himage. generalize (file_type fs path) as t.
      intros t Ht Himage. rewrite !elem_of_cons in *. naive_solver. }
    destruct (file_type_image_exists fs path Ht') as [data Hpath].
    rewrite (clean_image fs path backup _ data Het Ht' eq_refl Hpath Htmp).
    unfold detect_file_metadata. rewrite Het, Hpath.
    elem_of_cases Ht'; rewrite Ht'; simpl.
    + destruct (Jpeg.jpeg_detect_agrees data) as (r & -> & Hr).
      unfold Jpeg.clean_result in Hr.
      destruct r as [e|[[exif xmp] iptc]]; simpl in Hr.
      { destruct (Jpeg.clean_stream data) as [[out c]|]; [by subst c|done]. }
      destruct exif, xmp, iptc; simpl in Hr |- *;
        (destruct (Jpeg.clean_stream data) as [[out c]|];
         [subst c|try discriminate Hr]);
        intros [= <- _ <-]; (eexists; split; [reflexivity|]; by split).
    + destruct (Png.png_detect_agrees data) as (textc & timec & -> & _ & Hr).
      unfold Png.clean_result in Hr. simpl.
      destruct (0 <? textc)%nat, (0 <? timec)%nat; simpl in Hr |- *;
        (destruct (Png.clean_stream data) as [[out c]|];
         [subst c|try discriminate Hr]);
        intros [= <- _ <-]; (eexists; split; [reflexivity|]; by split).
    + destruct (Gif.gif_detect_agrees data) as (comments & -> & _ & Hr).
      unfold Gif.clean_result in Hr. simpl.
      destruct Hr as [Hr|[_ Hr]].
      2: { destruct (Gif.clean_stream data) as [[out c]|]; [by subst c|done]. }
      destruct (0 <? comments)%nat; simpl in Hr |- *;
        (destruct (Gif.clean_stream data) as [[out c]|];
         [subst c|try discriminate Hr]);
        intros [= <- _ <-]; (eexists; split; [reflexivity|]; by split).
Qed.

(** No-op fidelity.  Without ExifTool, for a JPEG, PNG, GIF or OOXML file
    on which [clean_file_metadata] returns: [detect_file_metadata] returns
    a report, its [can_clean] is the [changed] that the cleaner returns,
    and when it is false the cleaner leaves every file as it was. *)
Theorem detect_can_clean_is_clean_changed fs path backup changed reason fs' :
  find_exiftool = None →
  file_type fs path ∈ [jpeg; png; gif; docx; xlsx; pptx] →
  fs !! tmp_path fs path = None →
  clean_file_metadata fs path backup = Returns (changed, reason) fs' →
  ∃ r, detect_file_metadata fs path = Some (inr r) ∧
       can_clean r = changed ∧
       (can_clean r = false → fs' = fs).
Proof. apply detect_clean_agree. Qed.

(** A PNG or a GIF is still one after the call.  Without ExifTool, when
    [clean_file_metadata] returns on a file classified PNG or GIF, the file
    is classified the same afterwards. *)
Theorem clean_png_gif_keeps_type fs path backup changed reason fs' :
  find_exiftool = None →
  file_type fs path ∈ [png; gif] →
  fs !! image_tmp_path fs path (file_type fs path) = None →
  clean_file_metadata fs path backup = Returns (changed, reason) fs' →
  file_type fs' path = file_type fs path.
Proof. apply clean_image_keeps_type. Qed.

(** Content preservation for the image handlers.  Without ExifTool, when
    [clean_file_metadata] returns on a JPEG, PNG or GIF file,
    [compute_content_hash] gives for the file afterwards what it gave
    before; for a JPEG provided the file is still classified JPEG (removing
    the segment after FF D8 can leave a file that no longer starts with
    FF D8 FF). *)
Theorem clean_image_keeps_content_hash fs path backup changed reason fs' :
  find_exiftool = None →
  file_type fs path ∈ [jpeg; png; gif] →
  fs !! image_tmp_path fs path (file_type fs path) = None →
  clean_file_metadata fs path backup = Returns (changed, reason) fs' →
  (file_type fs path = jpeg → file_type fs' path = jpeg) →
  compute_content_hash fs' path = compute_content_hash fs path.
Proof.
  intros Het Ht Htmp Hrun Hjpeg.
  pose proof (clean_image_type _ _ _ _ _ _ Het Ht Htmp Hrun Hjpeg) as Hty.
  destruct (file_type_image_exists fs path Ht) as [data Hpath].
  destruct (clean_image_returns _ _ _ _ _ _ _ Het Ht Hpath Htmp Hrun)
    as [(out & c & Hs & Hout & Hsame)|(_ & _ & ->)]; [|done].
  destruct changed; [|by rewrite Hsame].
  unfold compute_content_hash. rewrite Hty, Hpath, Hout.
  elem_of_cases Ht; rewrite Ht in *; simpl in Hs |- *.
  - by destruct (Jpeg.jpeg_hash_kept _ _ _ Hs) as [_ ->].
  - by destruct (Png.png_hash_kept _ _ _ Hs) as [_ ->].
  - rewrite (Gif.hash_gif_cleaned _ _ _ Hs).
    apply Gif.clean_stream_twice in Hs.
    by rewrite (Gif.hash_gif_cleaned _ _ _ Hs).
Qed.

(** Idempotence for the image handlers.  Without ExifTool, after a call of
    [clean_file_metadata] that returns on a JPEG, PNG or GIF file, a second
    call returns [(False, "")] and leaves every file as it is, and
    [detect_file_metadata] reports nothing to clean; for a JPEG provided the
    file is still classified JPEG. *)
Theorem clean_image_twice fs path backup backup' changed reason fs' :
  find_exiftool = None →
  file_type fs path ∈ [jpeg; png; gif] →
  fs !! image_tmp_path fs path (file_type fs path) = None →
  clean_file_metadata fs path backup = Returns (changed, reason) fs' →
  (file_type fs path = jpeg → file_type fs' path = jpeg) →
  fs' !! image_tmp_path fs' path (file_type fs' path) = None →
  clean_file_metadata fs' path backup' = Returns (false, "") fs' ∧
  ∃ r, detect_file_metadata fs' path = Some (inr r) ∧ can_clean r = false.
Proof.
  intros Het Ht Htmp Hrun Hjpeg Htmp'.
  pose proof (clean_image_type _ _ _ _ _ _ Het Ht Htmp Hrun Hjpeg) as Hty.
  assert (file_type fs' path ∈ [jpeg; png; gif]) as Ht' by (by rewrite Hty).
  destruct (file_type_image_exists fs path Ht) as [data Hpath].
  assert (clean_file_metadata fs' path backup' = Returns (false, "") fs') as Hagain.
  { destruct (clean_image_returns _ _ _ _ _ _ _ Het Ht Hpath Htmp Hrun)
      as [(out & c & Hs & Hout & Hsame)|(Hs & -> & ->)].
    - rewrite (clean_image fs' path backup' _ _ Het Ht' eq_refl Hout Htmp'), Hty.
      destruct changed.
      + by rewrite (image_stream_twice _ _ _ _ Hs).
      + rewrite Hs. destruct c; [|done].
        exfalso. revert Hrun.
        by rewrite (clean_image fs path backup _ data Het Ht eq_refl Hpath Htmp), Hs.
    - by rewrite (clean_image fs path backup' _ data Het Ht eq_refl Hpath Htmp), Hs. }
  split; [done|].
  destruct (detect_clean_agree fs' path backup' false "" fs' Het) as (r & Hr & Hc & _);
    [| |done|by exists r].
  - elem_of_cases Ht'; rewrite Ht'; rewrite !elem_of_cons; auto.
  - unfold tmp_path. by rewrite bool_decide_eq_false_2 by by apply image_not_office.
Qed.

(** Atomicity on failure for the image handlers.  Without ExifTool, when
    [clean_file_metadata] raises on a JPEG, PNG or GIF file, the exception
    comes from the handler's loop (a JPEG segment length below 2, a GIF
    block cut off; the PNG loop raises nothing), no file that was there is
    touched and no backup is made, but the temp file is left behind with
    the bytes written before the exception. *)
Theorem clean_image_error_keeps_files fs path backup e fs' :
  find_exiftool = None →
  file_type fs path ∈ [jpeg; png; gif] →
  fs !! image_tmp_path fs path (file_type fs path) = None →
  clean_file_metadata fs path backup = Raises e fs' →
  ∃ data out,
    fs !! path = Some data ∧
    image_stream (file_type fs path) data = Some (out, Raised e) ∧
    file_type fs path ≠ png ∧
    fs' = <[image_tmp_path fs path (file_type fs path) := out]> fs.
Proof.
  intros Het Ht Htmp.
  destruct (file_type_image_exists fs path Ht) as [data Hpath].
  rewrite (clean_image fs path backup _ data Het Ht eq_refl Hpath Htmp).
  destruct (image_stream _ data) as [[out [[|]|e0|]]|] eqn:Hs; try done.
  intros [= <- <-]. exists data, out. repeat split; try done.
  intros Hpng. rewrite Hpng in Hs. simpl in Hs.
  unfold Png.clean_stream in Hs. cbn zeta in Hs.
  case_bool_decide; [|done].
  by rewrite Png.clean_loop_chunks in Hs by (rewrite length_drop; lia).
Qed.

(** [compute_content_hash] ends on every file: none of its loops (the
    chunked reads, the JPEG marker walk with its backward seek, the PNG
    chunk walk, the GIF block and sub-block walks, the RTF scan) runs
    forever, and what they raise is caught.  For a JPEG, PNG, GIF or RTF
    file that is there it gives a digest, with the description of the
    type. *)
Theorem compute_content_hash_ends fs path :
  (∃ r, compute_content_hash fs path = Some r) ∧
  (∀ data, fs !! path = Some data →
     file_type fs path ∈ [jpeg; png; gif; rtf] →
     ∃ fed, compute_content_hash fs path
            = Some (Some (sha256 fed),
                    match file_type fs path with
                    | jpeg => "JPEG scan data"
                    | png => "PNG IDAT"
                    | gif => "GIF without comments"
                    | _ => "RTF without \info"
                    end)).
Proof.
  split.
  - unfold compute_content_hash.
    destruct (fs !! path) as [data|]; [|by repeat case_match; eexists].
    destruct (Jpeg.hash_jpeg_total data) as [? ->].
    destruct (Png.hash_png_total data) as [? ->].
    destruct (Gif.hash_gif_total data) as [? ->].
    destruct (Rtf.hash_rtf_total data) as [? ->].
    rewrite hash_file_all. simpl.
    repeat case_match; by eexists.
  - intros data Hpath Ht. unfold compute_content_hash. rewrite Hpath.
    destruct (Jpeg.hash_jpeg_total data) as [? ->].
    destruct (Png.hash_png_total data) as [? ->].
    destruct (Gif.hash_gif_total data) as [? ->].
    destruct (Rtf.hash_rtf_total data) as [? ->].
    elem_of_cases Ht; rewrite Ht; simpl; by eexists.
Qed.

(** With ExifTool, an unneeded backup is taken away again.  On a file that
    is left to ExifTool (JPEG, PNG, GIF, PDF or unknown), when ExifTool
    reports no change and touches no file, [clean_file_metadata] returns
    [False] with ExifTool's reason and every file is as before: the backup
    copy made before the run is removed. *)
Theorem exiftool_no_change_removes_backup fs path backup tool reason :
  find_exiftool = Some tool →
  file_type fs path ∈ [jpeg; png; gif; pdf; other] →
  (∀ fs1, exiftool_clean tool fs1 path (file_type fs path) = (false, reason, fs1)) →
  clean_file_metadata fs path backup = Returns (false, reason) fs.
Proof.
  intros Het Ht Htool. unfold clean_file_metadata. rewrite Het.
  assert (bool_decide (file_type fs path = word2003xml) = false) as ->.
  { apply bool_decide_eq_false_2. intros H. rewrite H in Ht. elem_of_cases Ht. }
  assert (bool_decide (file_type fs path = rtf) = false) as ->.
  { apply bool_decide_eq_false_2. intros H. rewrite H in Ht. elem_of_cases Ht. }
  assert (bool_decide (file_type fs path ∈ [doc; xls; ppt]) = false) as ->.
  { apply bool_decide_eq_false_2. intros H.
    elem_of_cases H; rewrite H in Ht; elem_of_cases Ht. }
  assert (bool_decide (file_type fs path ∈ [docx; xlsx; pptx]) = false) as ->.
  { apply bool_decide_eq_false_2. intros H.
    elem_of_cases H; rewrite H in Ht; elem_of_cases Ht. }
  destruct backup; [|by rewrite Htool].
  unfold _make_backup_copy. destruct (fs !! path) as [data|]; simpl;
    [|by rewrite Htool].
  rewrite Htool. by rewrite delete_insert_id by apply free_bak_fresh.
Qed.

End Engine.

(** ** A host for the examples *)

(** The engine on one machine, to run the examples on: no ExifTool and no
    pikepdf, pywin32 present.  Its libraries are stand-ins that keep the
    contracts the engine relies on: an archive format that starts with PK
    and reads back what was written, a storage format that starts with the
    compound-file signature, temp names numbered from 0, an XML parser that
    refuses everything, ASCII for the decoder and the fed bytes themselves
    for the digest. *)
Module Host.

#[global] Instance byte_countable : Countable byte.
Proof.
  refine (inj_countable Byte.to_N Byte.of_N _). intros x. apply Byte.of_to_N.
Defined.

(** A positive number as its binary digits, one per byte. *)
Fixpoint pos_bits (p : positive) : bytes :=
  match p with
  | xH => []
  | xO q => x00 :: pos_bits q
  | xI q => x01 :: pos_bits q
  end.

Fixpoint bits_pos (b : bytes) : option positive :=
  match b with
  | [] => Some xH
  | x :: b' =>
      q ← bits_pos b';
      if bool_decide (x = x00) then Some (xO q)
      else if bool_decide (x = x01) then Some (xI q)
      else None
  end.

Lemma bits_pos_bits p : bits_pos (pos_bits p) = Some p.
Proof. induction p as [p IH|p IH|]; simpl; by rewrite ?IH. Qed.

Definition zip_write (a : list (string * bytes)) : bytes :=
  lit "PK" ++ pos_bits (encode a).

Definition zip_open (data : bytes) : option Ooxml.zipfile :=
  if startswith (lit "PK") data
  then a ← bits_pos (drop 2 data) ≫= decode; Some (Ooxml.written a)
  else None.

Lemma zip_magic a : startswith (lit "PK") (zip_write a) = true.
Proof. reflexivity. Qed.

Lemma zip_roundtrip a : zip_open (zip_write a) = Some (Ooxml.written a).
Proof.
  unfold zip_open. rewrite zip_magic. unfold zip_write.
  change (drop 2 (lit "PK" ++ ?x)) with x.
  rewrite bits_pos_bits. simpl. by rewrite decode_encode.
Qed.

Definition ET_fromstring (_ : bytes) : option element := None.
Definition ET_tostring (_ : element) : bytes := [].
Definition utf8_decode_ignore (b : bytes) : list N := Byte.to_N <$> b.
Definition sha256 (fed : bytes) : string := String.string_of_list_byte fed.

Definition mkstemp (fs : files) (prefix suffix dir : string) : string :=
  first_free (size fs) fs (λ k, dir +:+ "/" +:+ prefix +:+ pretty k +:+ suffix) 0.

Definition mkdtemp (fs : files) (prefix dir : string) : string :=
  first_free (size fs) fs (λ k, dir +:+ "/" +:+ prefix +:+ pretty k) 0.

Definition find_exiftool : option string := None.
Definition exiftool_clean (_ : string) (fs : files) (_ : string) (_ : FileType)
    : bool * string * files := (false, "", fs).

Definition HAS_PYWIN32 : bool := true.
Definition HAS_PIKEPDF : bool := false.

(** A storage: its root streams by name. *)
Definition Storage : Type := list (string * bytes).

Definition CFB_SIGNATURE : bytes := [xd0; xcf; x11; xe0; xa1; xb1; x1a; xe1].

Definition storage_bytes (stg : Storage) : bytes :=
  CFB_SIGNATURE ++ pos_bits (encode stg).

Definition StgOpenStorage (data : bytes) : string + Storage :=
  if startswith CFB_SIGNATURE data then
    match bits_pos (drop 8 data) ≫= decode with
    | Some stg => inr stg
    | None => inl "STG_E_DOCFILECORRUPT"
    end
  else inl "STG_E_FILEALREADYEXISTS".

Definition DestroyElement (stg : Storage) (name : string) : option Storage :=
  if bool_decide (name ∈ stg.*1)
  then Some (filter (λ e, e.1 ≠ name) stg)
  else None.

Definition pikepdf_strip (_ : bytes) : string + (bool * bytes) := inl "no pikepdf".
Definition word2003xml_strip (_ : bytes) : option bytes := None.

Definition file_type : files → string → FileType :=
  file_type zip_open utf8_decode_ignore.

Definition clean : files → string → bool → outcome (bool * string) :=
  clean_file_metadata zip_open zip_write ET_fromstring ET_tostring
    utf8_decode_ignore mkstemp mkdtemp find_exiftool exiftool_clean
    HAS_PYWIN32 HAS_PIKEPDF Storage StgOpenStorage DestroyElement storage_bytes
    pikepdf_strip word2003xml_strip.

Definition hash_office_content : files → string → exn + string :=
  _hash_office_content zip_open sha256.

(** No ExifTool report, storages opened for reading as for writing, no
    Word 2003 XML properties, no pikepdf, no OLE or PDF digests, and the
    exception's name for its text. *)
Definition exiftool_detect_summary (_ : string) (_ : files) (_ : string)
    : option (list string) := None.

Definition StgOpenStorage_read (data : bytes) : option Storage :=
  match StgOpenStorage data with
  | inr stg => Some stg
  | inl _ => None
  end.

Definition OpenStream (stg : Storage) (name : string) : bool :=
  bool_decide (name ∈ stg.*1).

Definition word2003xml_props (_ : bytes) : list string := [].
Definition pikepdf_info (_ : bytes) : option (bool * list string) := None.
Definition hash_ole_core_streams (_ : bytes) : option string := None.
Definition hash_ole_content (_ : bytes) : option string := None.
Definition hash_pdf_page_contents (_ : bytes) : option string := None.

Definition exn_text (_ : string) (e : exn) : string :=
  match e with
  | ValueError => "ValueError"
  | IndexError => "IndexError"
  | BadZipFile => "BadZipFile"
  | FileNotFoundError => "FileNotFoundError"
  | LibraryError msg => msg
  end.

Definition detect : files → string → option (exn + report) :=
  detect_file_metadata zip_open ET_fromstring utf8_decode_ignore find_exiftool
    HAS_PYWIN32 HAS_PIKEPDF Storage exiftool_detect_summary StgOpenStorage_read
    OpenStream word2003xml_props pikepdf_info.

Definition content_hash : files → string → option (option string * string) :=
  compute_content_hash zip_open utf8_decode_ignore sha256 HAS_PYWIN32 HAS_PIKEPDF
    hash_ole_core_streams hash_ole_content hash_pdf_page_contents exn_text.

End Host.

(** *** The examples *)

(** A GIF89a with a comment extension, then a byte that opens no block,
    then an image and the trailer. *)
Definition gif_with_stray_byte : bytes :=
  lit "GIF89a" ++ [x01; x00; x01; x00; x00; x00; x00]
  ++ [x21; xfe; x02; x68; x69; x00]
  ++ [x00]
  ++ [x2c; x00; x00; x00; x00; x01; x00; x01; x00; x00; x02; x02; x44; x01; x00]
  ++ [x3b].

(** C2, where the code falls short of the claim.  The comment extension is
    dropped, so [changed] is already true when the loop breaks at the stray
    byte: the call reports a change and the file is replaced by the 13
    bytes written so far; the image and the trailer are gone. *)
Theorem clean_gif_stray_byte_truncates :
  Gif.clean_stream gif_with_stray_byte
    = Some (take 13 gif_with_stray_byte, Done true) ∧
  Host.clean {[ "a.gif" := gif_with_stray_byte ]} "a.gif" false
    = Returns (true, "Removed comments")
        {[ "a.gif" := lit "GIF89a" ++ [x01; x00; x01; x00; x00; x00; x00] ]}.
Proof. split; vm_compute; reflexivity. Qed.

(** A docx of scenario 4: core properties and a thumbnail beside the
    document part. *)
Definition docx_parts : list (string * bytes) :=
  [ ("[Content_Types].xml", lit "<Types/>");
    ("_rels/.rels", lit "<Relationships/>");
    ("docProps/core.xml", lit "<cp:coreProperties/>");
    ("docProps/thumbnail.jpeg", [xff; xd8; xff; xd9]);
    ("word/document.xml", lit "<w:document/>") ].

Definition docx_parts_cleaned : list (string * bytes) :=
  [ ("[Content_Types].xml", lit "<Types/>");
    ("_rels/.rels", lit "<Relationships/>");
    ("word/document.xml", lit "<w:document/>") ].

Definition docx_before : files :=
  {[ "report.docx" := Host.zip_write docx_parts ]}.

Definition docx_after : files :=
  {[ "report.docx" := Host.zip_write docx_parts_cleaned;
     "report.docx.bak" := Host.zip_write docx_parts ]}.

Example clean_docx :
  Host.clean docx_before "report.docx" true
  = Returns (true, "Removed docProps (2)") docx_after.
Proof. vm_compute. reflexivity. Qed.

Lemma file_type_docx_before :
  Host.file_type docx_before "report.docx" ∈ [docx; xlsx; pptx].
Proof.
  replace (Host.file_type docx_before "report.docx") with docx
    by (vm_compute; reflexivity).
  apply list_elem_of_here.
Defined.

Lemma office_content_hash_unchanged_docx :
  Host.hash_office_content docx_after "report.docx"
  = Host.hash_office_content docx_before "report.docx".
Proof.
  apply (office_content_hash_unchanged
           Host.zip_open Host.zip_write Host.ET_fromstring Host.ET_tostring
           Host.utf8_decode_ignore Host.sha256 Host.mkstemp Host.mkdtemp
           Host.find_exiftool Host.exiftool_clean Host.HAS_PYWIN32
           Host.HAS_PIKEPDF Host.Storage Host.StgOpenStorage
           Host.DestroyElement Host.storage_bytes Host.pikepdf_strip
           Host.word2003xml_strip Host.zip_roundtrip
           docx_before "report.docx" true "Removed docProps (2)" docx_after).
  - exact file_type_docx_before.
  - vm_compute. reflexivity.
  - vm_compute. reflexivity.
Defined.



(** A Word document as a storage with its text stream and no property set. *)
Definition doc_without_properties : bytes :=
  Host.storage_bytes [("WordDocument", lit "Hello")].

Example clean_doc_without_properties :
  Host.clean {[ "memo.doc" := doc_without_properties ]} "memo.doc" true
  = Returns (false, "No OLE property sets present")
      {[ "memo.doc" := doc_without_properties;
         "memo.doc.bak" := doc_without_properties ]}.
Proof. vm_compute. reflexivity. Qed.

Lemma ole_clean_without_change_keeps_backup_doc :
  ∃ reason fs',
    Host.clean {[ "memo.doc" := doc_without_properties ]} "memo.doc" true
      = Returns (false, reason) fs' ∧
    ({[ "memo.doc" := doc_without_properties ]} : files)
      !! free_bak {[ "memo.doc" := doc_without_properties ]} "memo.doc" = None ∧
    fs' !! free_bak {[ "memo.doc" := doc_without_properties ]} "memo.doc"
      = Some doc_without_properties.
Proof.
  apply (ole_clean_without_change_keeps_backup
           Host.zip_open Host.zip_write Host.ET_fromstring Host.ET_tostring
           Host.utf8_decode_ignore Host.mkstemp Host.mkdtemp
           Host.find_exiftool Host.exiftool_clean Host.HAS_PYWIN32
           Host.HAS_PIKEPDF Host.Storage Host.StgOpenStorage
           Host.DestroyElement Host.storage_bytes Host.pikepdf_strip
           Host.word2003xml_strip
           {[ "memo.doc" := doc_without_properties ]} "memo.doc"
           doc_without_properties).
  - reflexivity.
  - replace (file_type _ _ _ _) with doc by (vm_compute; reflexivity).
    apply list_elem_of_here.
  - vm_compute. reflexivity.
  - intros stg Hopen. vm_compute in Hopen. injection Hopen as <-.
    vm_compute. reflexivity.
Defined.

(** A text file under a .docx name. *)
Lemma clean_ooxml_not_zip_raises_text :
  Host.clean {[ "notes.docx" := lit "plain text" ]} "notes.docx" true
  = Raises BadZipFile {[ "notes.docx" := lit "plain text" ]}.
Proof.
  apply (clean_ooxml_not_zip_raises
           Host.zip_open Host.zip_write Host.ET_fromstring Host.ET_tostring
           Host.utf8_decode_ignore Host.sha256 Host.mkstemp Host.mkdtemp
           Host.find_exiftool Host.exiftool_clean Host.HAS_PYWIN32
           Host.HAS_PIKEPDF Host.Storage Host.StgOpenStorage
           Host.DestroyElement Host.storage_bytes Host.pikepdf_strip
           Host.word2003xml_strip
           {[ "notes.docx" := lit "plain text" ]} "notes.docx" true
           (lit "plain text")).
  - replace (lower (path_suffix "notes.docx")) with ".docx"%string
      by (vm_compute; reflexivity).
    apply list_elem_of_here.
  - vm_compute. reflexivity.
  - unfold no_magic, MAGIC. repeat (constructor; [reflexivity|]). constructor.
  - reflexivity.
Defined.

(** C9, the claim as written fails.  A JPEG with Exif and XMP under a
    .docx name is no ZIP archive, and yet the call returns: the signature
    decides the type, the JPEG handler runs, and the file is rewritten. *)
Lemma clean_jpeg_named_docx_returns :
  lower (path_suffix "photo.docx") = ".docx"%string ∧
  Zipfile.namelist Jpeg.sample = None ∧
  Host.zip_open Jpeg.sample = None ∧
  Host.clean {[ "photo.docx" := Jpeg.sample ]} "photo.docx" false
    = Returns (true, "Removed EXIF/XMP/IPTC")
        {[ "photo.docx" :=
             Jpeg.SOI ++ [xff; xe0; x00; x04; x4a; x46]
                      ++ [xff; xdb; x00; x03; x10]
                      ++ [xff; xda; x00; x02; x12; x34; xff; xd9] ]}.
Proof. repeat split; vm_compute; reflexivity. Qed.

(** *** The image handlers on the host *)

(** A file with a backup already beside it, and a temp file to put in its
    place. *)
Definition files_with_backup : files :=
  {[ "a.jpg" := lit "old"; "a.jpg.bak" := lit "older"; "t.tmp" := lit "new" ]}.

Lemma replace_file_keeps_original_in_first_free_backup_sample :
  files_with_backup !! "t.tmp" = Some (lit "new") ∧
  ∃ k, _replace_file files_with_backup "a.jpg" "t.tmp" true
       = Returns () (<["a.jpg" := lit "new"]>
                       (delete "t.tmp"
                          (<[bak_name "a.jpg" k := lit "old"]> files_with_backup))) ∧
       files_with_backup !! bak_name "a.jpg" k = None ∧
       (∀ i, (i < k)%nat → is_Some (files_with_backup !! bak_name "a.jpg" i)).
Proof.
  split; [reflexivity|].
  destruct (replace_file_keeps_original_in_first_free_backup
              files_with_backup "a.jpg" "t.tmp" (lit "new"))
    as (_ & _ & H); [reflexivity|discriminate|].
  destruct (H (lit "old")) as (k & H1 & H2 & H3 & _); [reflexivity|].
  exists k. split; [exact H1|]. split; [exact H2|exact H3].
Defined.

Definition png_before : files := {[ "a.png" := Png.sample ]}.

Definition png_after : files :=
  {[ "a.png" := Png.sample_cleaned; "a.png.bak" := Png.sample ]}.

Definition jpeg_before : files := {[ "photo.jpg" := Jpeg.sample ]}.

Definition jpeg_after : files :=
  {[ "photo.jpg" := Jpeg.sample_cleaned; "photo.jpg.bak" := Jpeg.sample ]}.

Definition gif_before : files := {[ "a.gif" := Gif.sample ]}.

Definition gif_after : files := {[ "a.gif" := Gif.sample_cleaned ]}.

Lemma file_type_png_before : Host.file_type png_before "a.png" = png.
Proof. vm_compute. reflexivity. Qed.

Lemma file_type_jpeg_before : Host.file_type jpeg_before "photo.jpg" = jpeg.
Proof. vm_compute. reflexivity. Qed.

Lemma file_type_gif_before : Host.file_type gif_before "a.gif" = gif.
Proof. vm_compute. reflexivity. Qed.

Lemma clean_image_replaces_and_backs_up_sample :
  ∃ out,
    image_stream (Host.file_type png_before "a.png") Png.sample
      = Some (out, Done true) ∧
    ∃ k, png_before !! bak_name "a.png" k = None ∧
         png_after = <["a.png" := out]> (<[bak_name "a.png" k := Png.sample]> png_before).
Proof.
  apply (clean_image_replaces_and_backs_up
           Host.zip_open Host.zip_write Host.ET_fromstring Host.ET_tostring
           Host.utf8_decode_ignore Host.mkstemp Host.mkdtemp
           Host.find_exiftool Host.exiftool_clean Host.HAS_PYWIN32
           Host.HAS_PIKEPDF Host.Storage Host.StgOpenStorage
           Host.DestroyElement Host.storage_bytes Host.pikepdf_strip
           Host.word2003xml_strip
           png_before "a.png" true Png.sample "Removed text/time chunks" png_after).
  - reflexivity.
  - fold Host.file_type. rewrite file_type_png_before.
    apply list_elem_of_further, list_elem_of_here.
  - reflexivity.
  - vm_compute. reflexivity.
  - vm_compute. reflexivity.
Defined.

Lemma detect_can_clean_is_clean_changed_sample :
  ∃ r, Host.detect gif_before "a.gif" = Some (inr r) ∧
       can_clean r = true ∧
       (can_clean r = false → gif_after = gif_before).
Proof.
  apply (detect_can_clean_is_clean_changed
           Host.zip_open Host.zip_write Host.ET_fromstring Host.ET_tostring
           Host.utf8_decode_ignore Host.mkstemp Host.mkdtemp
           Host.find_exiftool Host.exiftool_clean Host.HAS_PYWIN32
           Host.HAS_PIKEPDF Host.Storage Host.StgOpenStorage
           Host.DestroyElement Host.storage_bytes Host.pikepdf_strip
           Host.word2003xml_strip Host.exiftool_detect_summary
           Host.StgOpenStorage_read Host.OpenStream Host.word2003xml_props
           Host.pikepdf_info
           gif_before "a.gif" false true "Removed comments" gif_after).
  - reflexivity.
  - fold Host.file_type. rewrite file_type_gif_before.
    do 2 apply list_elem_of_further. apply list_elem_of_here.
  - vm_compute. reflexivity.
  - vm_compute. reflexivity.
Defined.

Lemma clean_png_gif_keeps_type_sample :
  Host.file_type png_after "a.png" = Host.file_type png_before "a.png".
Proof.
  apply (clean_png_gif_keeps_type
           Host.zip_open Host.zip_write Host.ET_fromstring Host.ET_tostring
           Host.utf8_decode_ignore Host.mkstemp Host.mkdtemp
           Host.find_exiftool Host.exiftool_clean Host.HAS_PYWIN32
           Host.HAS_PIKEPDF Host.Storage Host.StgOpenStorage
           Host.DestroyElement Host.storage_bytes Host.pikepdf_strip
           Host.word2003xml_strip
           png_before "a.png" true true "Removed text/time chunks" png_after).
  - reflexivity.
  - fold Host.file_type. rewrite file_type_png_before. apply list_elem_of_here.
  - vm_compute. reflexivity.
  - vm_compute. reflexivity.
Defined.

Lemma clean_image_keeps_content_hash_sample :
  Host.content_hash jpeg_after "photo.jpg" = Host.content_hash jpeg_before "photo.jpg".
Proof.
  apply (clean_image_keeps_content_hash
           Host.zip_open Host.zip_write Host.ET_fromstring Host.ET_tostring
           Host.utf8_decode_ignore Host.sha256 Host.mkstemp Host.mkdtemp
           Host.find_exiftool Host.exiftool_clean Host.HAS_PYWIN32
           Host.HAS_PIKEPDF Host.Storage Host.StgOpenStorage
           Host.DestroyElement Host.storage_bytes Host.pikepdf_strip
           Host.word2003xml_strip Host.hash_ole_core_streams Host.hash_ole_content
           Host.hash_pdf_page_contents Host.exn_text
           jpeg_before "photo.jpg" true true "Removed EXIF/XMP/IPTC" jpeg_after).
  - reflexivity.
  - fold Host.file_type. rewrite file_type_jpeg_before. apply list_elem_of_here.
  - vm_compute. reflexivity.
  - vm_compute. reflexivity.
  - intros _. vm_compute. reflexivity.
Defined.

Lemma clean_image_twice_sample :
  Host.clean jpeg_after "photo.jpg" true = Returns (false, "") jpeg_after ∧
  ∃ r, Host.detect jpeg_after "photo.jpg" = Some (inr r) ∧ can_clean r = false.
Proof.
  apply (clean_image_twice
           Host.zip_open Host.zip_write Host.ET_fromstring Host.ET_tostring
           Host.utf8_decode_ignore Host.mkstemp Host.mkdtemp
           Host.find_exiftool Host.exiftool_clean Host.HAS_PYWIN32
           Host.HAS_PIKEPDF Host.Storage Host.StgOpenStorage
           Host.DestroyElement Host.storage_bytes Host.pikepdf_strip
           Host.word2003xml_strip Host.exiftool_detect_summary
           Host.StgOpenStorage_read Host.OpenStream Host.word2003xml_props
           Host.pikepdf_info
           jpeg_before "photo.jpg" true true true "Removed EXIF/XMP/IPTC" jpeg_after).
  - reflexivity.
  - fold Host.file_type. rewrite file_type_jpeg_before. apply list_elem_of_here.
  - vm_compute. reflexivity.
  - vm_compute. reflexivity.
  - intros _. vm_compute. reflexivity.
  - vm_compute. reflexivity.
Defined.

(** A JPEG whose first segment gives its length as 0. *)
Definition jpeg_bad_length : bytes := Jpeg.SOI ++ [xff; xe0; x00; x00; x4a; x46].

Lemma clean_image_error_keeps_files_sample :
  ∃ data out,
    ({[ "bad.jpg" := jpeg_bad_length ]} : files) !! "bad.jpg" = Some data ∧
    image_stream (Host.file_type {[ "bad.jpg" := jpeg_bad_length ]} "bad.jpg") data
      = Some (out, Raised ValueError) ∧
    Host.file_type {[ "bad.jpg" := jpeg_bad_length ]} "bad.jpg" ≠ png ∧
    ({[ "bad.jpg" := jpeg_bad_length; "./_mc_0.jpg" := Jpeg.SOI ]} : files)
    = <[image_tmp_path Host.mkstemp {[ "bad.jpg" := jpeg_bad_length ]} "bad.jpg"
          (Host.file_type {[ "bad.jpg" := jpeg_bad_length ]} "bad.jpg") := out]>
        {[ "bad.jpg" := jpeg_bad_length ]}.
Proof.
  apply (clean_image_error_keeps_files
           Host.zip_open Host.zip_write Host.ET_fromstring Host.ET_tostring
           Host.utf8_decode_ignore Host.mkstemp Host.mkdtemp
           Host.find_exiftool Host.exiftool_clean Host.HAS_PYWIN32
           Host.HAS_PIKEPDF Host.Storage Host.StgOpenStorage
           Host.DestroyElement Host.storage_bytes Host.pikepdf_strip
           Host.word2003xml_strip
           {[ "bad.jpg" := jpeg_bad_length ]} "bad.jpg" true ValueError
           {[ "bad.jpg" := jpeg_bad_length; "./_mc_0.jpg" := Jpeg.SOI ]}).
  - reflexivity.
  - replace (file_type _ _ _ _) with jpeg by (vm_compute; reflexivity).
    apply list_elem_of_here.
  - vm_compute. reflexivity.
  - vm_compute. reflexivity.
Defined.

(** The same engine with an ExifTool that finds nothing to change. *)
Lemma exiftool_no_change_removes_backup_sample :
  clean_file_metadata
    Host.zip_open Host.zip_write Host.ET_fromstring Host.ET_tostring
    Host.utf8_decode_ignore Host.mkstemp Host.mkdtemp
    (Some "exiftool") Host.exiftool_clean Host.HAS_PYWIN32
    Host.HAS_PIKEPDF Host.Storage Host.StgOpenStorage
    Host.DestroyElement Host.storage_bytes Host.pikepdf_strip
    Host.word2003xml_strip png_before "a.png" true
  = Returns (false, "") png_before.
Proof.
  apply (exiftool_no_change_removes_backup
           Host.zip_open Host.zip_write Host.ET_fromstring Host.ET_tostring
           Host.utf8_decode_ignore Host.mkstemp Host.mkdtemp
           (Some "exiftool") Host.exiftool_clean Host.HAS_PYWIN32
           Host.HAS_PIKEPDF Host.Storage Host.StgOpenStorage
           Host.DestroyElement Host.storage_bytes Host.pikepdf_strip
           Host.word2003xml_strip
           png_before "a.png" true "exiftool" "").
  - reflexivity.
  - fold Host.file_type. rewrite file_type_png_before.
    apply list_elem_of_further, list_elem_of_here.
  - intros fs1. reflexivity.
Defined.
